(** * srf: a static file server -- request resolution and response construction

    Shallow embedding of [server.js] (safeJoin, sendError, listDirectory,
    escapeHtml, etagFromStats, serveFile and the request handler built by
    handlerFactory) together with the properties of the specification
    that are checked against it.

    Conventions of the embedding.
    - A JavaScript string is a [string]: for paths and page text the
      sequence of its UTF-8 bytes, for header values the sequence of
      its Latin-1 bytes (that is how Node hands them over).
    - A JavaScript number is an integer [Z] with exact arithmetic; a
      non-finite number (NaN, Infinity) is the absent value [None].
    - The platform (Node on a POSIX host) is modelled where the code
      calls it: [decodeURIComponent], [decodeURI], [encodeURI],
      [path.resolve], [path.join], [path.extname], the response
      object's [writeHead]/[end] and the read stream.  The numeric
      reading of a string ([Number(s)]), the date parser, the date
      printer and the URL parser stay parameters of the development. *)

From Stdlib Require Import String Ascii List ZArith NArith Bool Lia.
From Stdlib Require Import DecimalString HexadecimalString.
From Stdlib Require HexadecimalN.
Import ListNotations.

Local Open Scope list_scope.
Local Open Scope string_scope.

(* ================================================================== *)
(** ** Strings as JavaScript uses them *)

Module Str.

(** [s.split(sep)] for a one-character separator: never empty. *)
Fixpoint split_on (sep : ascii) (s : string) : list string :=
  match s with
  | EmptyString => [EmptyString]
  | String c s' =>
      if Ascii.eqb c sep then EmptyString :: split_on sep s'
      else match split_on sep s' with
           | [] => [String c EmptyString]
           | h :: t => String c h :: t
           end
  end.

(** [s.includes(c)] for a one-character needle. *)
Fixpoint includes (c : ascii) (s : string) : bool :=
  match s with
  | EmptyString => false
  | String d s' => Ascii.eqb d c || includes c s'
  end.

(** [s.startsWith(p)]. *)
Definition startsWith (s p : string) : bool := String.prefix p s.

(** [s.endsWith(c)] for a one-character suffix. *)
Fixpoint endsWith (s : string) (c : ascii) : bool :=
  match s with
  | EmptyString => false
  | String d EmptyString => Ascii.eqb d c
  | String _ s' => endsWith s' c
  end.

(** Remove every occurrence of a character ([s.replace(/c/g, '')]). *)
Fixpoint remove_char (c : ascii) (s : string) : string :=
  match s with
  | EmptyString => EmptyString
  | String d s' =>
      if Ascii.eqb d c then remove_char c s' else String d (remove_char c s')
  end.

(** White space of [String.prototype.trim] among the one-byte
    characters: TAB, LF, VT, FF, CR, SPACE and NBSP. *)
Definition isSpace (c : ascii) : bool :=
  let n := N_of_ascii c in
  ((9 <=? n) && (n <=? 13) || (n =? 32) || (n =? 160))%N.

Fixpoint trimStart (s : string) : string :=
  match s with
  | EmptyString => EmptyString
  | String c s' => if isSpace c then trimStart s' else s
  end.

Fixpoint trimEnd (s : string) : string :=
  match s with
  | EmptyString => EmptyString
  | String c s' =>
      match trimEnd s' with
      | EmptyString => if isSpace c then EmptyString else String c EmptyString
      | t => String c t
      end
  end.

Definition trim (s : string) : string := trimEnd (trimStart s).

(** ASCII lower-casing. *)
Definition lowerChar (c : ascii) : ascii :=
  let n := N_of_ascii c in
  if ((65 <=? n) && (n <=? 90))%N then ascii_of_N (n + 32) else c.

Fixpoint toLowerCase (s : string) : string :=
  match s with
  | EmptyString => EmptyString
  | String c s' => String (lowerChar c) (toLowerCase s')
  end.

(** Decimal and hexadecimal printing of an integer, as
    [String(n)] and [n.toString(16)] print one.  [String(n)] prints
    the digits of a whole number of magnitude below 10^21 and turns to
    the exponent form from there on; [dec] is that printing below
    10^21, where the sizes and offsets of files lie. *)
Definition dec (z : Z) : string := DecimalString.NilZero.string_of_int (Z.to_int z).

Definition hex (z : Z) : string :=
  match z with
  | Zneg p => String "-" (HexadecimalString.NilZero.string_of_uint (N.to_hex_uint (Npos p)))
  | _ => HexadecimalString.NilZero.string_of_uint (N.to_hex_uint (Z.to_N z))
  end.

End Str.

(* ================================================================== *)
(** ** Percent-decoding and -encoding (ECMAScript Decode / Encode) *)

Module Uri.

Definition hexDigit (c : ascii) : option N :=
  let n := N_of_ascii c in
  if ((48 <=? n) && (n <=? 57))%N then Some (n - 48)%N
  else if ((65 <=? n) && (n <=? 70))%N then Some (n - 55)%N
  else if ((97 <=? n) && (n <=? 102))%N then Some (n - 87)%N
  else None.

(** For a decoded octet, the ranges its continuation octets must lie
    in for the whole to be well-formed UTF-8; [None] for an octet that
    cannot start a sequence.  An ASCII octet has no continuation. *)
Definition utf8Tail (b : N) : option (list (N * N)) :=
  let c := (128, 191)%N in
  if (b <? 128)%N then Some []
  else if (b <? 194)%N then None
  else if (b <=? 223)%N then Some [c]
  else if (b =? 224)%N then Some [(160, 191)%N; c]
  else if (b =? 237)%N then Some [(128, 159)%N; c]
  else if (b <=? 239)%N then Some [c; c]
  else if (b =? 240)%N then Some [(144, 191)%N; c; c]
  else if (b <=? 243)%N then Some [c; c; c]
  else if (b =? 244)%N then Some [(128, 143)%N; c; c]
  else None.

Definition escapeSeq (h l : ascii) : string :=
  String "%" (String h (String l EmptyString)).

(** The Decode operation.  [reserved] is the set of characters whose
    escapes are left as they are; [pend] lists the ranges of the
    continuation octets still owed by a multi-byte sequence.  Any
    malformed escape makes the whole decoding fail (URIError). *)
Fixpoint Decode (reserved : string) (pend : list (N * N)) (s : string)
  : option string :=
  match s with
  | EmptyString => match pend with [] => Some EmptyString | _ => None end
  | String c rest =>
      if Ascii.eqb c "%" then
        match rest with
        | String h (String l rest') =>
            match hexDigit h, hexDigit l with
            | Some x, Some y =>
                let b := (16 * x + y)%N in
                match pend with
                | [] =>
                    match utf8Tail b with
                    | Some tl =>
                        let out :=
                          if Str.includes (ascii_of_N b) reserved
                          then escapeSeq h l
                          else String (ascii_of_N b) EmptyString in
                        option_map (append out) (Decode reserved tl rest')
                    | None => None
                    end
                | (lo, hi) :: tl =>
                    if ((lo <=? b) && (b <=? hi))%N
                    then option_map (String (ascii_of_N b)) (Decode reserved tl rest')
                    else None
                end
            | _, _ => None
            end
        | _ => None
        end
      else
        match pend with
        | [] => option_map (String c) (Decode reserved [] rest)
        | _ => None
        end
  end.

Definition decodeURIComponent (s : string) : option string :=
  Decode EmptyString [] s.

Definition uriReserved : string := ";/?:@&=+$,#".

Definition decodeURI (s : string) : option string :=
  Decode uriReserved [] s.

Definition hexChar (n : N) : ascii :=
  if (n <? 10)%N then ascii_of_N (48 + n) else ascii_of_N (55 + n).

Definition isAlnum (c : ascii) : bool :=
  let n := N_of_ascii c in
  ((48 <=? n) && (n <=? 57) || (65 <=? n) && (n <=? 90)
   || (97 <=? n) && (n <=? 122))%N.

(** Characters [encodeURI] leaves alone: letters, digits, the marks
    and the reserved characters with [#]. *)
Definition uriKeep (c : ascii) : bool :=
  isAlnum c || Str.includes c "-_.!~*'();/?:@&=+$,#".

Fixpoint encodeURI (s : string) : string :=
  match s with
  | EmptyString => EmptyString
  | String c s' =>
      if uriKeep c then String c (encodeURI s')
      else
        let n := N_of_ascii c in
        String "%" (String (hexChar (n / 16)) (String (hexChar (n mod 16))
               (encodeURI s')))
  end.

End Uri.

(* ================================================================== *)
(** ** POSIX path functions of Node *)

Module Path.

(** One step of the lexical normalisation of an absolute path: the
    stack holds the kept segments, innermost first.  Empty segments
    and [.] are dropped, [..] removes the segment before it (and does
    nothing at the root), a name is kept.  Node's [normalizeString]
    computes the same in one scan over the characters. *)
Definition normStep (stack : list string) (seg : string) : list string :=
  if String.eqb seg EmptyString then stack
  else if String.eqb seg "." then stack
  else if String.eqb seg ".." then tl stack
  else seg :: stack.

Definition normalizeSegments (segs : list string) : list string :=
  rev (fold_left normStep segs []).

Definition isAbsolute (p : string) : bool := Str.startsWith p "/".

(** [path.resolve] walks its arguments from the right, skipping empty
    ones and stopping at the first absolute one; the working
    directory is the last resort.  [acc] is the path built so far. *)
Fixpoint resolveArgs (cwd : string) (revargs : list string) (acc : string)
  : string :=
  match revargs with
  | [] => cwd ++ "/" ++ acc
  | p :: more =>
      if String.eqb p EmptyString then resolveArgs cwd more acc
      else if isAbsolute p then p ++ "/" ++ acc
      else resolveArgs cwd more (p ++ "/" ++ acc)
  end.

(** [path.resolve(...args)] with an absolute working directory. *)
Definition resolve (cwd : string) (args : list string) : string :=
  "/" ++ String.concat "/"
           (normalizeSegments (Str.split_on "/" (resolveArgs cwd (rev args) EmptyString))).

(** [path.join(a, b)] for an absolute [a] and a [b] without a trailing
    slash: the two call sites of the server. *)
Definition join (a b : string) : string :=
  "/" ++ String.concat "/" (normalizeSegments (Str.split_on "/" (a ++ "/" ++ b))).

(** The named segments of a path. *)
Definition components (p : string) : list string :=
  filter (fun s => negb (String.eqb s EmptyString)) (Str.split_on "/" p).

Fixpoint isPrefixOf (l m : list string) : bool :=
  match l, m with
  | [], _ => true
  | x :: l', y :: m' => String.eqb x y && isPrefixOf l' m'
  | _ :: _, [] => false
  end.

(** [p] is [root] or lies below it, segment by segment. *)
Definition within (root p : string) : bool :=
  isPrefixOf (components root) (components p).

(** [path.extname]: the text from the last dot of the last segment,
    empty when there is no dot, when the only dot leads the segment,
    or for the segment [..]. *)
Fixpoint lastDot (s : string) : option string :=
  match s with
  | EmptyString => None
  | String c s' =>
      match lastDot s' with
      | Some e => Some e
      | None => if Ascii.eqb c "." then Some s else None
      end
  end.

Definition basename (p : string) : string :=
  last (Str.split_on "/" p) EmptyString.

Definition extname (p : string) : string :=
  match basename p with
  | EmptyString => EmptyString
  | String c rest =>
      if String.eqb (String c rest) ".." then EmptyString
      else match lastDot rest with Some e => e | None => EmptyString end
  end.

End Path.

(* ================================================================== *)
(** ** The data of a request *)

Definition Headers := list (string * string).

(** [headers[name]]: the first entry of that name, if any. *)
Fixpoint getHeader (hs : Headers) (name : string) : option string :=
  match hs with
  | [] => None
  | (k, v) :: rest => if String.eqb k name then Some v else getHeader rest name
  end.

(** What [fs.Stats] tells the server. *)
Record Stats := {
  isDirectory : bool;
  size : Z;
  mtimeMs : Z
}.

Record Dirent := {
  name : string;
  entIsDirectory : bool
}.

(** The file system as the server probes it: [stat] and [readdir]
    answer or reject, [access] tells whether the entry exists, and
    [readBytes] is what a read stream of the file delivers ([None]
    when the stream emits an error). *)
Record FileSystem := {
  stat : string -> option Stats;
  access : string -> bool;
  readdir : string -> option (list Dirent);
  readBytes : string -> option string
}.

(** The [opts] of handlerFactory. *)
Record Options := {
  listing : bool;
  spa : bool;
  cacheSeconds : Z
}.

(** [req]: method, request target and headers (names in lower case). *)
Record Request := {
  method : string;
  url : string;
  headers : Headers
}.

(** What goes out on the wire once the response has ended. *)
Record Response := {
  statusCode : Z;
  resHeaders : Headers;
  body : string
}.

(** A request ends with a response, or with a head that was written
    and never followed by [end] because the handler threw after
    [writeHead]. *)
Inductive Outcome :=
| Complete (r : Response)
| Broken (code : Z) (hs : Headers).

Definition outcomeStatus (o : Outcome) : Z :=
  match o with
  | Complete r => statusCode r
  | Broken code _ => code
  end.

Definition outcomeHeaders (o : Outcome) : Headers :=
  match o with
  | Complete r => resHeaders r
  | Broken _ hs => hs
  end.

Definition withMethod (m : string) (req : Request) : Request :=
  {| method := m; url := url req; headers := headers req |}.

Definition withUrl (u : string) (req : Request) : Request :=
  {| method := method req; url := u; headers := headers req |}.

Definition withoutBody (r : Response) : Response :=
  {| statusCode := statusCode r; resHeaders := resHeaders r; body := EmptyString |}.

Definition isHead (req : Request) : bool := String.eqb (method req) "HEAD".

(** [x && ...] on a string that may be undefined: undefined and the
    empty string are falsy. *)
Definition truthy (v : option string) : bool :=
  match v with
  | Some (String _ _) => true
  | _ => false
  end.

Definition dq : string := String (ascii_of_nat 34) EmptyString.
Definition nl : string := String (ascii_of_nat 10) EmptyString.

(** Node's response object sends no body for a HEAD request nor with
    a 204 or 304 status: what [end] is given is dropped. *)
Definition hasBody (req : Request) (code : Z) : bool :=
  negb (isHead req) && negb (code =? 204)%Z && negb (code =? 304)%Z.

(** [res.writeHead(code, hs); res.end(chunk)]. *)
Definition writeHeadEnd (req : Request) (code : Z) (hs : Headers) (chunk : string)
  : Response :=
  {| statusCode := code;
     resHeaders := hs;
     body := if hasBody req code then chunk else EmptyString |}.

(* ================================================================== *)
(** ** server.js *)

(** Minimal MIME map *)
Definition MIME : list (string * string) :=
  [ ("html", "text/html; charset=utf-8");
    ("htm", "text/html; charset=utf-8");
    ("css", "text/css; charset=utf-8");
    ("js", "application/javascript; charset=utf-8");
    ("mjs", "application/javascript; charset=utf-8");
    ("json", "application/json; charset=utf-8");
    ("txt", "text/plain; charset=utf-8");
    ("xml", "application/xml; charset=utf-8");
    ("svg", "image/svg+xml");
    ("png", "image/png");
    ("jpg", "image/jpeg");
    ("jpeg", "image/jpeg");
    ("gif", "image/gif");
    ("webp", "image/webp");
    ("ico", "image/x-icon");
    ("pdf", "application/pdf");
    ("mp4", "video/mp4");
    ("webm", "video/webm");
    ("mp3", "audio/mpeg");
    ("wav", "audio/wav");
    ("wasm", "application/wasm") ].

Definition contentTypeFor (filePath : string) : string :=
  let ext :=
    Str.toLowerCase
      (match Path.extname filePath with
       | EmptyString => EmptyString
       | String _ e => e
       end) in
  match getHeader MIME ext with
  | Some t => t
  | None => "application/octet-stream"
  end.

(** Weak ETag based on size-mtime *)
Definition etagFromStats (st : Stats) : string :=
  let mtime := Str.hex (mtimeMs st) in
  let size := Str.hex (size st) in
  "W/" ++ dq ++ size ++ "-" ++ mtime ++ dq.

Definition escapeChar (c : ascii) : string :=
  if Ascii.eqb c "&" then "&amp;"
  else if Ascii.eqb c "<" then "&lt;"
  else if Ascii.eqb c ">" then "&gt;"
  else if Ascii.eqb c (ascii_of_nat 34) then "&quot;"
  else if Ascii.eqb c "'" then "&#39;"
  else String c EmptyString.

Fixpoint escapeHtml (s : string) : string :=
  match s with
  | EmptyString => EmptyString
  | String c s' => escapeChar c ++ escapeHtml s'
  end.

Definition pageHead : list string :=
  [ "<!doctype html>";
    "<meta charset=" ++ dq ++ "utf-8" ++ dq ++ ">";
    "<meta name=" ++ dq ++ "viewport" ++ dq ++ " content=" ++ dq
      ++ "width=device-width, initial-scale=1" ++ dq ++ ">";
    "<style>html { color-scheme: light dark; font: 16px system-ui; }</style>" ].

Definition errorPage (code : Z) (msg : string) : string :=
  String.concat nl
    (List.app pageHead
       [ "<title>" ++ Str.dec code ++ "</title>";
         "<h1>" ++ Str.dec code ++ "</h1>";
         "<p>" ++ msg ++ "</p>" ]).

Definition htmlType : string := "text/html; charset=utf-8".

Definition byteLength (s : string) : Z := Z.of_nat (String.length s).

Definition sendError (req : Request) (code : Z) (msg : string) : Response :=
  let body := errorPage code msg in
  writeHeadEnd req code
    [ ("Content-Type", htmlType);
      ("Content-Length", Str.dec (byteLength body)) ]
    body.

(** One [<li>] of the listing. *)
Definition entryLine (reqPath : string) (it : Dirent) : string :=
  let name := name it ++ (if entIsDirectory it then "/" else EmptyString) in
  let href := reqPath ++ Uri.encodeURI name in
  "<li><a href=" ++ dq ++ href ++ dq ++ ">" ++ escapeHtml name ++ "</a></li>".

Definition parentLine : string :=
  "<li><a href=" ++ dq ++ ".." ++ dq ++ ">..</a></li>".

(** The lines of the listing page, given the directory entries and
    the decoded request path. *)
Definition listingParts (reqPath shown : string) (items : list Dirent) : list string :=
  List.app pageHead
    (List.app
       [ "<title>Index of " ++ escapeHtml shown ++ "</title>";
         "<h1>Index of " ++ escapeHtml shown ++ "</h1>";
         "<ul>" ]
       (List.app
          (if negb (String.eqb reqPath "/") then [parentLine] else [])
          (List.app (map (entryLine reqPath) items) [ "</ul>" ]))).

(** [listDirectory]: [None] when [readdir] rejects or [decodeURI]
    throws. *)
Definition listDirectory (fs : FileSystem) (dirPath reqPath : string)
  : option string :=
  let reqPath := if Str.endsWith reqPath "/" then reqPath else reqPath ++ "/" in
  match readdir fs dirPath with
  | None => None
  | Some items =>
      match Uri.decodeURI reqPath with
      | None => None
      | Some shown => Some (String.concat nl (listingParts reqPath shown items))
      end
  end.

(** [s.replace(pat, '')]: the first occurrence of [pat] is removed. *)
Fixpoint replaceFirst (pat s : string) : string :=
  if String.prefix pat s
  then String.substring (String.length pat) (String.length s - String.length pat) s
  else match s with
       | EmptyString => EmptyString
       | String c s' => String c (replaceFirst pat s')
       end.

Section Server.

(** [process.cwd()], an absolute path. *)
Variable cwd : string.

(** [Number(s)] when it is finite.  The numbers read are whole: what
    the code does with a finite fraction in a [Range] header (it
    writes the head of a 206 and the read stream refuses the bound) is
    not followed here. *)
Variable Number : string -> option Z.

(** [new Date(s).getTime()] when [s] parses as a date. *)
Variable dateGetTime : string -> option Z.

(** [new Date(ms).toUTCString()]. *)
Variable toUTCString : Z -> string.

(** The path of [new URL(target, base)] for a target without query
    and fragment; [None] when the constructor throws. *)
Variable urlPath : string -> string -> option string.

Definition safeJoin (root requestPath : string) : option string :=
  let decoded :=
    match Uri.decodeURIComponent requestPath with
    | Some d => d
    | None => "/"
    end in
  let decoded := Str.remove_char zero decoded in
  let resolved := Path.resolve cwd [root; "." ++ decoded] in
  if negb (Str.startsWith resolved root) then None else Some resolved.

(** The condition of the 304 short cut. *)
Definition notModified (req : Request) (st : Stats) (etag : string) : bool :=
  let inm := getHeader (headers req) "if-none-match" in
  let ims := getHeader (headers req) "if-modified-since" in
  (truthy inm && match inm with Some v => String.eqb v etag | None => false end)
  || (truthy ims &&
      match ims with
      | Some v =>
          match dateGetTime v with
          | Some t => (mtimeMs st <=? t)%Z
          | None => false
          end
      | None => false
      end).

(** The two branches on [s] and [e] (the pieces of the spec around
    its first dashes, undefined when the spec holds no dash): the
    accepted [(start, end)], or [None] when [valid] stays false. *)
Definition rangeOfParts (s e : option string) (size : Z) : option (Z * Z) :=
  match s, e with
  | Some EmptyString, Some e' =>
      (* suffix bytes: last N bytes *)
      match Number e' with
      | Some suffix =>
          if (0 <? suffix)%Z then
            let start := Z.max 0 (size - suffix) in
            let end_ := (size - 1)%Z in
            if (start <=? end_)%Z then Some (start, end_) else None
          else None
      | None => None
      end
  | Some s', _ =>
      let sNum := Number s' in
      let eNum :=
        match e with
        | None => Some (size - 1)%Z
        | Some EmptyString => Some (size - 1)%Z
        | Some e' => Number e'
        end in
      match sNum, eNum with
      | Some sNum, Some eNum =>
          if (sNum <=? eNum)%Z then
            (* start must be within the resource size *)
            if (sNum <? size)%Z then
              let start := Z.max 0 sNum in
              let end_ := Z.min eNum (size - 1) in
              if (start <=? end_)%Z then Some (start, end_) else None
            else None
          else None
      | _, _ => None
      end
  | None, _ => None
  end.

(** The body of [if (range && /^bytes=/.test(range))] up to the
    validity test. *)
Definition parseRange (range : string) (size : Z) : option (Z * Z) :=
  let spec := Str.trim (hd EmptyString (Str.split_on "," (replaceFirst "bytes=" range))) in
  let parts := if Str.includes "-" spec then Str.split_on "-" spec else [] in
  rangeOfParts (nth_error parts 0) (nth_error parts 1) size.

(** [start], [end], [statusCode] and the extra header after the
    range block; [None] for the 416 exit. *)
Definition rangeDecision (req : Request) (size : Z)
  : option (Z * Z * Z * Headers) :=
  let range := getHeader (headers req) "range" in
  match range with
  | Some r =>
      if truthy range && String.prefix "bytes=" r then
        match parseRange r size with
        | Some (start, end_) =>
            Some (start, end_, 206%Z,
                  [("Content-Range",
                    "bytes " ++ Str.dec start ++ "-" ++ Str.dec end_
                      ++ "/" ++ Str.dec size)])
        | None => None
        end
      else Some (0%Z, (size - 1)%Z, 200%Z, [])
  | None => Some (0%Z, (size - 1)%Z, 200%Z, [])
  end.

(** [fs.createReadStream(filePath, { start, end })] piped into the
    response: the constructor throws unless [0 <= start <= end];
    the stream then delivers the bytes [start..end] of the file. *)
Definition streamSlice (bytes : string) (start end_ : Z) : string :=
  String.substring (Z.to_nat start) (Z.to_nat (end_ - start + 1)) bytes.

Definition serveFile (fs : FileSystem) (req : Request) (filePath : string)
           (st : Stats) (opts : Options) : Outcome :=
  let type := contentTypeFor filePath in
  let etag := etagFromStats st in
  let lastModified := toUTCString (mtimeMs st) in
  let headers :=
    [ ("Content-Type", type);
      ("Last-Modified", lastModified);
      ("ETag", etag);
      ("Accept-Ranges", "bytes");
      ("Cache-Control",
       if (0 <? cacheSeconds opts)%Z
       then "public, max-age=" ++ Str.dec (cacheSeconds opts)
       else "no-cache") ] in
  (* Conditional requests *)
  if notModified req st etag then
    Complete (writeHeadEnd req 304 headers EmptyString)
  else
    (* Range requests *)
    match rangeDecision req (size st) with
    | None =>
        Complete (writeHeadEnd req 416
                    [("Content-Range", "bytes */" ++ Str.dec (size st))]
                    EmptyString)
    | Some (start, end_, statusCode, extra) =>
        let contentLength := (end_ - start + 1)%Z in
        let headers :=
          List.app headers
            (List.app extra [("Content-Length", Str.dec contentLength)]) in
        if isHead req then
          Complete (writeHeadEnd req statusCode headers EmptyString)
        else if (0 <=? start)%Z && (start <=? end_)%Z then
          match readBytes fs filePath with
          | Some bytes =>
              Complete (writeHeadEnd req statusCode headers
                          (streamSlice bytes start end_))
          | None =>
              (* the stream's error handler; the head is already out *)
              Complete (writeHeadEnd req statusCode headers "Internal Server Error")
          end
        else Broken statusCode headers
    end.

(** The part of a request target before its query or fragment. *)
Fixpoint beforeQuery (s : string) : string :=
  match s with
  | EmptyString => EmptyString
  | String c s' =>
      if Ascii.eqb c "?" || Ascii.eqb c "#" then EmptyString
      else String c (beforeQuery s')
  end.

(** [new URL(req.url, `http://${req.headers.host}`).pathname]. *)
Definition pathname (req : Request) : option string :=
  let host :=
    match getHeader (headers req) "host" with
    | Some h => h
    | None => "undefined"
    end in
  urlPath ("http://" ++ host) (beforeQuery (url req)).

(** The handler that [handlerFactory(root, opts)] returns, with the
    catch of [http.createServer] around it. *)
Definition handler (root : string) (opts : Options) (fs : FileSystem)
           (req : Request) : Outcome :=
  let rootResolved := Path.resolve cwd [root] in
  match pathname req with
  | None => Complete (sendError req 500 "Internal Server Error")
  | Some reqPath =>
      match safeJoin rootResolved reqPath with
      | None => Complete (sendError req 400 "Bad Request")
      | Some absPath =>
          match stat fs absPath with
          | None =>
              let indexPath := Path.join rootResolved "index.html" in
              let notFound := Complete (sendError req 404 "Not Found") in
              if spa opts && access fs indexPath then
                match stat fs indexPath with
                | Some ist => serveFile fs req indexPath ist opts
                | None => notFound
                end
              else notFound
          | Some st =>
              if isDirectory st then
                (* Try index.html *)
                let indexPath := Path.join absPath "index.html" in
                if access fs indexPath then
                  match stat fs indexPath with
                  | Some ist => serveFile fs req indexPath ist opts
                  | None => Complete (sendError req 500 "Internal Server Error")
                  end
                else if negb (listing opts) then
                  Complete (sendError req 403 "Directory listing denied")
                else
                  match listDirectory fs absPath reqPath with
                  | Some body =>
                      Complete
                        (writeHeadEnd req 200
                           [ ("Content-Type", htmlType);
                             ("Content-Length", Str.dec (byteLength body));
                             ("Cache-Control", "no-cache") ]
                           body)
                  | None =>
                      Complete (sendError req 500 "Failed to read directory")
                  end
              else serveFile fs req absPath st opts
          end
      end
  end.

End Server.

(* ================================================================== *)
(** ** Vocabulary of the properties *)

(** A segment that lexical normalisation keeps: a name, not empty,
    not a dot segment, without a slash. *)
Definition ordinary (seg : string) : bool :=
  negb (String.eqb seg EmptyString) && negb (String.eqb seg ".")
  && negb (String.eqb seg "..") && negb (Str.includes "/" seg).

(** An ordinary segment that also holds no percent sign and no NUL:
    decoding and NUL stripping leave it as it is. *)
Definition plainSeg (seg : string) : bool :=
  ordinary seg && negb (Str.includes "%" seg) && negb (Str.includes zero seg).

(** The absolute path with the given segments. *)
Definition absPath (segs : list string) : string :=
  "/" ++ String.concat "/" segs.

(** Every character of the string passes the test. *)
Fixpoint allChars (P : ascii -> bool) (s : string) : bool :=
  match s with
  | EmptyString => true
  | String c s' => P c && allChars P s'
  end.

Definition isDigit (c : ascii) : bool :=
  let n := N_of_ascii c in ((48 <=? n) && (n <=? 57))%N.

(** One of the five entities of [escapeHtml], without its ampersand,
    starts the string. *)
Definition entityTail (s : string) : bool :=
  String.prefix "amp;" s || String.prefix "lt;" s || String.prefix "gt;" s
  || String.prefix "quot;" s || String.prefix "#39;" s.

(** Text that an HTML parser reads as text: no angle bracket, no
    quote of either kind, and no ampersand but at the head of one of
    the five entities. *)
Fixpoint noMarkup (s : string) : bool :=
  match s with
  | EmptyString => true
  | String c s' =>
      (if Ascii.eqb c "&" then entityTail s'
       else negb (Ascii.eqb c "<" || Ascii.eqb c ">"
                  || Ascii.eqb c (ascii_of_nat 34) || Ascii.eqb c "'"))
      && noMarkup s'
  end.

(** The character cannot end a double-quoted attribute value nor open
    or close a tag. *)
Definition attrSafe (c : ascii) : bool :=
  negb (Ascii.eqb c (ascii_of_nat 34) || Ascii.eqb c "<" || Ascii.eqb c ">").

(** The head that every file response carries. *)
Definition fileHeaders (toUTCString : Z -> string) (filePath : string)
           (st : Stats) (opts : Options) : Headers :=
  [ ("Content-Type", contentTypeFor filePath);
    ("Last-Modified", toUTCString (mtimeMs st));
    ("ETag", etagFromStats st);
    ("Accept-Ranges", "bytes");
    ("Cache-Control",
     if (0 <? cacheSeconds opts)%Z
     then "public, max-age=" ++ Str.dec (cacheSeconds opts)
     else "no-cache") ].

(** The response is an error page of [sendError]: HTML content type
    and, as its body, the small page showing the status and a message
    (no body for HEAD). *)
Definition isErrorPage (req : Request) (r : Response) : Prop :=
  exists msg,
    r = sendError req (statusCode r) msg
    /\ getHeader (resHeaders r) "Content-Type" = Some htmlType
    /\ body r = (if isHead req then EmptyString else errorPage (statusCode r) msg)
    /\ errorPage (statusCode r) msg
       = (String.concat nl pageHead ++ nl)
         ++ "<title>" ++ Str.dec (statusCode r) ++ "</title>" ++ nl
         ++ "<h1>" ++ Str.dec (statusCode r) ++ "</h1>" ++ nl
         ++ "<p>" ++ msg ++ "</p>".

(** The response has the header [Content-Range: bytes */n] and
    nothing else: no content type, no body. *)
Definition isBareRange (n : Z) (r : Response) : Prop :=
  body r = EmptyString
  /\ getHeader (resHeaders r) "Content-Type" = None
  /\ resHeaders r = [("Content-Range", "bytes */" ++ Str.dec n)].

(** The name of an entry as the listing shows it: a slash follows the
    name of a directory. *)
Definition shownName (it : Dirent) : string :=
  name it ++ (if entIsDirectory it then "/" else EmptyString).

(** How often the character occurs in the string. *)
Fixpoint occurrences (c : ascii) (s : string) : nat :=
  match s with
  | EmptyString => O
  | String x s' => (if Ascii.eqb x c then 1 else 0) + occurrences c s'
  end.

(** The outcome [head] of a request sent with the method HEAD against
    the outcome [other] of the same request sent with another method:
    the same status code and headers were written; the HEAD response
    has no body; and when the other request completes, so does the
    HEAD request, with the same response less its body. *)
Definition headAgrees (head other : Outcome) : Prop :=
  outcomeStatus head = outcomeStatus other
  /\ outcomeHeaders head = outcomeHeaders other
  /\ (forall r, head = Complete r -> body r = EmptyString)
  /\ (forall r, other = Complete r -> head = Complete (withoutBody r)).

(** Platform functions and file systems for the worked examples.  Each
    function agrees with Node on the inputs the examples give it. *)
Module Sample.

Definition cwd : string := "/home/user".

(** [Number] on the empty string and on decimal numerals. *)
Definition Number (s : string) : option Z :=
  match s with
  | EmptyString => Some 0%Z
  | _ => option_map Z.of_uint (DecimalString.NilEmpty.uint_of_string s)
  end.

Definition oneSecond : string := "Thu, 01 Jan 1970 00:00:01 GMT".

(** A date parser that knows one HTTP date. *)
Definition dateGetTime (s : string) : option Z :=
  if String.eqb s oneSecond then Some 1000%Z else None.

(** The date printer within the first two seconds of the epoch. *)
Definition toUTCString (ms : Z) : string :=
  if ((0 <=? ms) && (ms <? 1000))%Z then "Thu, 01 Jan 1970 00:00:00 GMT"
  else if ((1000 <=? ms) && (ms <? 2000))%Z then oneSecond
  else "Invalid Date".

(** The URL parser on a target that is a normalised absolute path. *)
Definition urlPath (base target : string) : option string := Some target.

Definition fileStats (n mtime : Z) : Stats :=
  {| isDirectory := false; size := n; mtimeMs := mtime |}.

Definition dirStats : Stats :=
  {| isDirectory := true; size := 4096; mtimeMs := 1000 |}.

(** A directory [/r] next to a directory [/r-evil] with one file. *)
Definition siblingFs : FileSystem :=
  {| stat := fun p =>
       if String.eqb p "/r-evil/secret.txt" then Some (fileStats 10 1000)
       else if String.eqb p "/r" || String.eqb p "/r-evil" then Some dirStats
       else None;
     access := fun p =>
       String.eqb p "/r-evil/secret.txt" || String.eqb p "/r"
       || String.eqb p "/r-evil";
     readdir := fun p =>
       if String.eqb p "/r" then Some []
       else if String.eqb p "/r-evil"
       then Some [ {| name := "secret.txt"; entIsDirectory := false |} ]
       else None;
     readBytes := fun p =>
       if String.eqb p "/r-evil/secret.txt" then Some "TOP_SECRET" else None |}.

(** A root [/r] holding [index.html] (3 bytes) and [z.txt] (4 bytes). *)
Definition siteFs : FileSystem :=
  {| stat := fun p =>
       if String.eqb p "/r/index.html" then Some (fileStats 3 5)
       else if String.eqb p "/r/z.txt" then Some (fileStats 4 1000)
       else if String.eqb p "/r" then Some dirStats
       else None;
     access := fun p =>
       String.eqb p "/r/index.html" || String.eqb p "/r/z.txt"
       || String.eqb p "/r";
     readdir := fun p =>
       if String.eqb p "/r"
       then Some [ {| name := "index.html"; entIsDirectory := false |};
                   {| name := "z.txt"; entIsDirectory := false |} ]
       else None;
     readBytes := fun p =>
       if String.eqb p "/r/index.html" then Some "SPA"
       else if String.eqb p "/r/z.txt" then Some "ABCD"
       else None |}.

(** A root [/r] with a file whose name holds the five special
    characters, and a directory. *)
Definition hostileName : string := "<b>&" ++ dq ++ "'.txt".

Definition hostileFs : FileSystem :=
  {| stat := fun p => if String.eqb p "/r" then Some dirStats else None;
     access := fun p => String.eqb p "/r";
     readdir := fun p =>
       if String.eqb p "/r"
       then Some [ {| name := hostileName; entIsDirectory := false |};
                   {| name := "sub"; entIsDirectory := true |} ]
       else None;
     readBytes := fun _ => None |}.

(** The directories of the repository's tests: a root [/tmp/root]
    with a few files and a directory [sub] holding [index.html], next
    to [/tmp/outside] with a secret. *)
Definition testFiles : list (string * string) :=
  [ ("/tmp/root/hello.txt", "Hello, world!");
    ("/tmp/root/r.txt", "0123456789");
    ("/tmp/root/nul.txt", "NUL");
    ("/tmp/root/data.binx", "xy");
    ("/tmp/root/sub/index.html", "<h1>Hello</h1>");
    ("/tmp/outside/secret.txt", "TOP_SECRET") ].

Definition testDirs : list string :=
  [ "/tmp/root"; "/tmp/root/sub"; "/tmp/outside" ].

Definition testFs : FileSystem :=
  {| stat := fun p =>
       match getHeader testFiles p with
       | Some bytes => Some (fileStats (byteLength bytes) 1000)
       | None => if existsb (String.eqb p) testDirs then Some dirStats else None
       end;
     access := fun p =>
       match getHeader testFiles p with
       | Some _ => true
       | None => existsb (String.eqb p) testDirs
       end;
     readdir := fun p =>
       if String.eqb p "/tmp/root"
       then Some [ {| name := "data.binx"; entIsDirectory := false |};
                   {| name := "hello.txt"; entIsDirectory := false |};
                   {| name := "nul.txt"; entIsDirectory := false |};
                   {| name := "r.txt"; entIsDirectory := false |};
                   {| name := "sub"; entIsDirectory := true |} ]
       else if String.eqb p "/tmp/root/sub"
       then Some [ {| name := "index.html"; entIsDirectory := false |} ]
       else None;
     readBytes := getHeader testFiles |}.

Definition noListing : Options :=
  {| listing := false; spa := false; cacheSeconds := 0 |}.

Definition defaults : Options :=
  {| listing := true; spa := false; cacheSeconds := 0 |}.

Definition spaMode : Options :=
  {| listing := true; spa := true; cacheSeconds := 0 |}.

Definition get (target : string) (hs : Headers) : Request :=
  {| method := "GET"; url := target; headers := ("host", "localhost") :: hs |}.

Definition handle := handler cwd Number dateGetTime toUTCString urlPath.

End Sample.

(* ================================================================== *)
(** ** The command line and the start-up of the server *)

Module Cli.

(** The [args] object of [parseArgs]; the numbers of the command line
    are taken to be whole, and one that is not finite is the absent
    value. *)
Record Args := {
  root : string;
  port : option Z;
  host : string;
  listing : bool;
  spa : bool;
  cacheSeconds : option Z
}.

(** How [parseArgs] ends: with the arguments, or in [process.exit]
    after the help text (preceded by the complaint about an unknown
    option, if any) or after the version. *)
Inductive Result :=
| Parsed (a : Args)
| Help (code : Z) (unknown : option string)
| Version.

Definition setPort (a : Args) (v : option Z) : Args :=
  {| root := root a; port := v; host := host a; listing := listing a;
     spa := spa a; cacheSeconds := cacheSeconds a |}.

Definition setHost (a : Args) (v : string) : Args :=
  {| root := root a; port := port a; host := v; listing := listing a;
     spa := spa a; cacheSeconds := cacheSeconds a |}.

Definition setListing (a : Args) (v : bool) : Args :=
  {| root := root a; port := port a; host := host a; listing := v;
     spa := spa a; cacheSeconds := cacheSeconds a |}.

Definition setSpa (a : Args) (v : bool) : Args :=
  {| root := root a; port := port a; host := host a; listing := listing a;
     spa := v; cacheSeconds := cacheSeconds a |}.

Definition setCache (a : Args) (v : option Z) : Args :=
  {| root := root a; port := port a; host := host a; listing := listing a;
     spa := spa a; cacheSeconds := v |}.

Definition setRoot (a : Args) (v : string) : Args :=
  {| root := v; port := port a; host := host a; listing := listing a;
     spa := spa a; cacheSeconds := cacheSeconds a |}.

(** [a.split('=')[1]]. *)
Definition afterEquals (a : string) : string :=
  nth 1 (Str.split_on "=" a) EmptyString.

Section Parse.

(** [process.cwd()], an absolute path. *)
Variable cwd : string.

(** [Number(s)] when it is finite. *)
Variable Number : string -> option Z.

(** The end of [parseArgs]: the root is resolved from the first
    argument that is no option, or from the working directory. *)
Definition finish (args : Args) (rest : list string) : Result :=
  Parsed (setRoot args
            (Path.resolve cwd [match rest with r :: _ => r | [] => cwd end])).

(** The loop of [parseArgs] over [argv] from index 2 on: [args] and
    [rest] are the two objects it fills.  An option that takes a value
    and comes last keeps the value it had ([argv[++i] ?? args.x]). *)
Fixpoint parseLoop (args : Args) (rest : list string) (argv : list string)
  : Result :=
  match argv with
  | [] => finish args rest
  | a :: more =>
      if String.eqb a "--port" || String.eqb a "-p" then
        match more with
        | v :: more' => parseLoop (setPort args (Number v)) rest more'
        | [] => finish args rest
        end
      else if Str.startsWith a "--port=" then
        parseLoop (setPort args (Number (afterEquals a))) rest more
      else if String.eqb a "--host" then
        match more with
        | v :: more' => parseLoop (setHost args v) rest more'
        | [] => finish args rest
        end
      else if Str.startsWith a "--host=" then
        parseLoop (setHost args (afterEquals a)) rest more
      else if String.eqb a "--no-listing" then
        parseLoop (setListing args false) rest more
      else if String.eqb a "--spa" then
        parseLoop (setSpa args true) rest more
      else if String.eqb a "--cache" then
        match more with
        | v :: more' => parseLoop (setCache args (Number v)) rest more'
        | [] => finish args rest
        end
      else if Str.startsWith a "--cache=" then
        parseLoop (setCache args (Number (afterEquals a))) rest more
      else if String.eqb a "-h" || String.eqb a "--help" then
        Help 0 None
      else if String.eqb a "-v" || String.eqb a "--version" then
        Version
      else if Str.startsWith a "-" then
        Help 1 (Some a)
      else
        parseLoop args (List.app rest [a]) more
  end.

Definition initial : Args :=
  {| root := EmptyString; port := Some 8080%Z; host := "0.0.0.0";
     listing := true; spa := false; cacheSeconds := Some 0%Z |}.

(** [parseArgs(argv)]: the first two entries of [argv] are the
    interpreter and the script. *)
Definition parseArgs (argv : list string) : Result :=
  parseLoop initial [] (skipn 2 argv).

End Parse.

(** The options that [main] hands to [handlerFactory]. *)
Definition mainOptions (a : Args) : Options :=
  Build_Options (listing a) (spa a)
    (match cacheSeconds a with
     | Some c => Z.max 0 c
     | None => 0%Z
     end).

(** How [main] goes on after [parseArgs]: it leaves with code 2 unless
    the root is a directory, and serves otherwise. *)
Inductive Start :=
| Serve (rootDir : string) (opts : Options)
| Leave (code : Z).

Definition start (fs : FileSystem) (a : Args) : Start :=
  match stat fs (root a) with
  | Some st => if negb (isDirectory st) then Leave 2 else Serve (root a) (mainOptions a)
  | None => Leave 2
  end.

(** One entry of [os.networkInterfaces()]. *)
Record NetAddress := {
  address : string;
  family : string;
  internal : bool
}.

Definition isLan (addr : NetAddress) : bool :=
  String.eqb (family addr) "IPv4" && negb (internal addr).

(** [getLanAddress] over the values of [os.networkInterfaces()], an
    undefined value standing for no address. *)
Fixpoint getLanAddress (nets : list (option (list NetAddress))) : option string :=
  match nets with
  | [] => None
  | ifaces :: more =>
      match find isLan (match ifaces with Some l => l | None => [] end) with
      | Some addr => Some (address addr)
      | None => getLanAddress more
      end
  end.

End Cli.

(* ================================================================== *)
(** ** Vocabulary of the further properties *)

(** The request never leaves the directory it starts in: read from the
    depth [depth], no [..] segment comes at depth 0. *)
Fixpoint staysInside (depth : nat) (segs : list string) : bool :=
  match segs with
  | [] => true
  | seg :: more =>
      if String.eqb seg EmptyString then staysInside depth more
      else if String.eqb seg "." then staysInside depth more
      else if String.eqb seg ".." then
        match depth with
        | O => false
        | S d => staysInside d more
        end
      else staysInside (S depth) more
  end.

(** The segments of a decoded request path as [path.resolve] sees
    them behind the root. *)
Definition requestSegments (decoded : string) : list string :=
  Str.split_on "/" ("." ++ decoded).

Definition isAscii (c : ascii) : bool := (N_of_ascii c <? 128)%N.

Definition isHexDigit (c : ascii) : bool :=
  let n := N_of_ascii c in
  ((48 <=? n) && (n <=? 57) || (97 <=? n) && (n <=? 102))%N.

(** The request path of a listed directory: its names, each behind a
    slash, and a closing slash. *)
Fixpoint dirPath (dir : list string) : string :=
  match dir with
  | [] => "/"
  | d :: more => "/" ++ d ++ dirPath more
  end.

(** One of the five characters that [escapeHtml] replaces. *)
Definition isSpecial (c : ascii) : bool :=
  Ascii.eqb c "&" || Ascii.eqb c "<" || Ascii.eqb c ">"
  || Ascii.eqb c (ascii_of_nat 34) || Ascii.eqb c "'".

Definition isUpperOrLower (c : ascii) : bool :=
  let n := N_of_ascii c in
  ((65 <=? n) && (n <=? 90) || (97 <=? n) && (n <=? 122))%N.

(** A name that a request target holds as it is: a plain segment
    without the marks of a query or a fragment. *)
Definition linkSeg (seg : string) : bool :=
  plainSeg seg && negb (Str.includes "?" seg) && negb (Str.includes "#" seg).

(** A command-line argument that is one of the two flags without a
    value, or no option at all. *)
Definition flagOrOperand (a : string) : bool :=
  String.eqb a "--no-listing" || String.eqb a "--spa"
  || negb (Str.startsWith a "-").

Definition isOperand (a : string) : bool := negb (Str.startsWith a "-").

(** An argument that [parseArgs] knows as an option. *)
Definition knownOption (a : string) : bool :=
  existsb (String.eqb a)
    [ "--port"; "-p"; "--host"; "--no-listing"; "--spa"; "--cache";
      "-h"; "--help"; "-v"; "--version" ]
  || Str.startsWith a "--port=" || Str.startsWith a "--host="
  || Str.startsWith a "--cache=".

(** The statuses the handler writes. *)
Definition knownStatus (code : Z) : bool :=
  existsb (Z.eqb code) [200; 206; 304; 400; 403; 404; 416; 500]%Z.

(** Data for the further worked examples. *)
Module Demo.

Definition argv (l : list string) : list string :=
  "/usr/bin/node" :: "/usr/lib/srf/server.js" :: l.

Definition lo : Cli.NetAddress :=
  {| Cli.address := "127.0.0.1"; Cli.family := "IPv4"; Cli.internal := true |}.

Definition lan6 : Cli.NetAddress :=
  {| Cli.address := "fe80::1"; Cli.family := "IPv6"; Cli.internal := false |}.

Definition lan4 : Cli.NetAddress :=
  {| Cli.address := "192.168.1.42"; Cli.family := "IPv4"; Cli.internal := false |}.

(** A root [/r] next to a directory [/r-evil] that holds a directory
    named [%2e%2e] with one file. *)
Definition dotsFs : FileSystem :=
  {| stat := fun p =>
       if String.eqb p "/r-evil/%2e%2e/secret.txt" then Some (Sample.fileStats 10 1000)
       else if String.eqb p "/r" || String.eqb p "/r-evil"
               || String.eqb p "/r-evil/%2e%2e"
       then Some Sample.dirStats
       else None;
     access := fun p =>
       String.eqb p "/r-evil/%2e%2e/secret.txt" || String.eqb p "/r"
       || String.eqb p "/r-evil" || String.eqb p "/r-evil/%2e%2e";
     readdir := fun p =>
       if String.eqb p "/r" then Some []
       else if String.eqb p "/r-evil"
       then Some [ {| name := "%2e%2e"; entIsDirectory := true |} ]
       else if String.eqb p "/r-evil/%2e%2e"
       then Some [ {| name := "secret.txt"; entIsDirectory := false |} ]
       else None;
     readBytes := fun p =>
       if String.eqb p "/r-evil/%2e%2e/secret.txt" then Some "TOP_SECRET" else None |}.

(** A root [/r] holding the empty file [empty.txt]. *)
Definition emptyFs : FileSystem :=
  {| stat := fun p =>
       if String.eqb p "/r/empty.txt" then Some (Sample.fileStats 0 1000)
       else if String.eqb p "/r" then Some Sample.dirStats
       else None;
     access := fun p => String.eqb p "/r/empty.txt" || String.eqb p "/r";
     readdir := fun p =>
       if String.eqb p "/r"
       then Some [ {| name := "empty.txt"; entIsDirectory := false |} ]
       else None;
     readBytes := fun p =>
       if String.eqb p "/r/empty.txt" then Some EmptyString else None |}.

(** The response of an outcome that completed. *)
Definition responseOf (o : Outcome) : Response :=
  match o with
  | Complete r => r
  | Broken code hs => {| statusCode := code; resHeaders := hs; body := EmptyString |}
  end.

(** [z.txt] of [Sample.siteFs], served for the given request headers. *)
Definition serveZ (hs : Headers) : Outcome :=
  serveFile Sample.Number Sample.dateGetTime Sample.toUTCString Sample.siteFs
    (Sample.get "/z.txt" hs) "/r/z.txt" (Sample.fileStats 4 1000) Sample.defaults.

Definition nets : list (option (list Cli.NetAddress)) :=
  [ Some [lo]; None; Some [lan6; lan4] ].

End Demo.

(* ================================================================== *)
(** ** Facts about strings *)

Module StrFacts.
Import Str.

Lemma append_nil_r (s : string) : s ++ EmptyString = s.
Proof. induction s as [|c s IH]; simpl; [reflexivity | now rewrite IH]. Qed.

Lemma append_assoc (a b c : string) : (a ++ b) ++ c = a ++ (b ++ c).
Proof. induction a as [|x a IH]; simpl; [reflexivity | now rewrite IH]. Qed.

Lemma prefix_refl (a : string) : String.prefix a a = true.
Proof.
  induction a as [|x a IH]; simpl; [reflexivity|].
  destruct (ascii_dec x x) as [_|n]; [exact IH | now elim n].
Qed.

Lemma prefix_app (a b : string) : String.prefix a (a ++ b) = true.
Proof.
  induction a as [|x a IH]; simpl.
  - now destruct b.
  - destruct (ascii_dec x x) as [_|n]; [exact IH | now elim n].
Qed.

Lemma includes_app (c : ascii) (a b : string) :
  includes c (a ++ b) = includes c a || includes c b.
Proof.
  induction a as [|x a IH]; simpl; [reflexivity|].
  now rewrite IH, orb_assoc.
Qed.

Lemma split_on_nonempty (c : ascii) (s : string) : split_on c s <> [].
Proof.
  induction s as [|x s IH]; simpl; [discriminate|].
  destruct (Ascii.eqb x c); [discriminate|].
  destruct (split_on c s); discriminate.
Qed.

(** Splitting distributes over a separator between two strings. *)
Lemma split_on_app (c : ascii) (a b : string) :
  split_on c (a ++ String c b) = (split_on c a ++ split_on c b)%list.
Proof.
  induction a as [|x a IH]; simpl.
  - now rewrite Ascii.eqb_refl.
  - destruct (Ascii.eqb x c); [now rewrite IH|].
    rewrite IH. pose proof (split_on_nonempty c a) as Hne.
    destruct (split_on c a) as [|h t]; [now elim Hne | reflexivity].
Qed.

Lemma split_on_absent (c : ascii) (s : string) :
  includes c s = false -> split_on c s = [s].
Proof.
  induction s as [|x s IH]; simpl; [reflexivity|].
  intros H. apply orb_false_iff in H as [Hx Hs].
  rewrite Hx, (IH Hs). reflexivity.
Qed.

Lemma remove_char_absent (c : ascii) (s : string) :
  includes c s = false -> remove_char c s = s.
Proof.
  induction s as [|x s IH]; simpl; [reflexivity|].
  intros H. apply orb_false_iff in H as [Hx Hs].
  now rewrite Hx, (IH Hs).
Qed.

Lemma includes_concat (c : ascii) (sep : string) (l : list string) :
  includes c sep = false ->
  forallb (fun s => negb (includes c s)) l = true ->
  includes c (String.concat sep l) = false.
Proof.
  intros Hsep. induction l as [|x l IH]; simpl; [reflexivity|].
  intros H. apply andb_true_iff in H as [Hx Hl].
  apply negb_true_iff in Hx.
  destruct l as [|y l]; [exact Hx|].
  rewrite !includes_app, Hx, Hsep, (IH Hl). reflexivity.
Qed.

(** Joining on a separator and splitting again gives the pieces back. *)
Lemma split_on_concat (c : ascii) (l : list string) :
  l <> [] ->
  forallb (fun s => negb (includes c s)) l = true ->
  split_on c (String.concat (String c EmptyString) l) = l.
Proof.
  induction l as [|x l IH]; [congruence|].
  intros _ H. simpl in H. apply andb_true_iff in H as [Hx Hl].
  apply negb_true_iff in Hx.
  destruct l as [|y l].
  - simpl. now apply split_on_absent.
  - specialize (IH ltac:(discriminate) Hl).
    remember (String.concat (String c EmptyString) (y :: l)) as rest eqn:Hrest.
    replace (String.concat (String c EmptyString) (x :: y :: l))
      with (x ++ String c rest) by (subst rest; reflexivity).
    now rewrite split_on_app, (split_on_absent _ _ Hx), IH.
Qed.

Lemma concat_app (sep : string) (l m : list string) :
  l <> [] -> m <> [] ->
  String.concat sep (l ++ m)%list = String.concat sep l ++ sep ++ String.concat sep m.
Proof.
  induction l as [|x l IH]; [congruence|].
  intros _ Hm. destruct l as [|y l].
  - simpl. destruct m; [congruence | reflexivity].
  - change (String.concat sep ((x :: y :: l) ++ m)%list)
      with (x ++ sep ++ String.concat sep ((y :: l) ++ m)%list).
    rewrite IH by (discriminate || assumption).
    change (String.concat sep (x :: y :: l)) with (x ++ sep ++ String.concat sep (y :: l)).
    now rewrite !append_assoc.
Qed.

End StrFacts.

(* ================================================================== *)
(** ** Facts about percent-decoding *)

Module UriFacts.
Import Str StrFacts Uri.

Lemma option_map_append_nil (o : option string) :
  option_map (append EmptyString) o = o.
Proof. now destruct o. Qed.

Lemma option_map_append_app (x y : string) (o : option string) :
  option_map (append (x ++ y)) o = option_map (append x) (option_map (append y) o).
Proof. destruct o; simpl; [now rewrite append_assoc | reflexivity]. Qed.

(** Decoding is one left-to-right pass: once a prefix has decoded
    completely, what follows is decoded on its own. *)
Lemma Decode_app_bounded (reserved : string) (n : nat) :
  forall (a : string), (String.length a <= n)%nat ->
  forall pend a' b,
    Decode reserved pend a = Some a' ->
    Decode reserved pend (a ++ b) = option_map (append a') (Decode reserved [] b).
Proof.
  induction n as [|n IH]; intros a Hlen pend a' b Ha.
  - destruct a; [|simpl in Hlen; lia].
    simpl in Ha. destruct pend; [|discriminate].
    injection Ha as <-. simpl. now rewrite option_map_append_nil.
  - destruct a as [|c rest].
    + simpl in Ha. destruct pend; [|discriminate].
      injection Ha as <-. simpl. now rewrite option_map_append_nil.
    + simpl in Hlen. cbn [Decode append] in Ha |- *.
      destruct (Ascii.eqb c "%").
      * destruct rest as [|h [|l rest']]; try discriminate.
        cbn [append]. simpl in Hlen.
        destruct (hexDigit h) as [x|]; [|discriminate].
        destruct (hexDigit l) as [y|]; [|discriminate].
        cbv zeta in Ha |- *.
        destruct pend as [|[lo hi] tl].
        -- destruct (utf8Tail (16 * x + y)) as [tl|]; [|discriminate].
           destruct (Decode reserved tl rest') as [r|] eqn:Hr; [|discriminate].
           simpl in Ha. injection Ha as <-.
           rewrite (IH rest' ltac:(lia) tl r b Hr).
           now rewrite <- option_map_append_app.
        -- destruct ((lo <=? 16 * x + y) && (16 * x + y <=? hi))%N; [|discriminate].
           destruct (Decode reserved tl rest') as [r|] eqn:Hr; [|discriminate].
           simpl in Ha. injection Ha as <-.
           rewrite (IH rest' ltac:(lia) tl r b Hr).
           now destruct (Decode reserved [] b).
      * destruct pend; [|discriminate].
        destruct (Decode reserved [] rest) as [r|] eqn:Hr; [|discriminate].
        simpl in Ha. injection Ha as <-.
        rewrite (IH rest ltac:(lia) [] r b Hr).
        now destruct (Decode reserved [] b).
Qed.

Lemma decodeURIComponent_app (a b a' b' : string) :
  decodeURIComponent a = Some a' ->
  decodeURIComponent b = Some b' ->
  decodeURIComponent (a ++ b) = Some (a' ++ b').
Proof.
  unfold decodeURIComponent. intros Ha Hb.
  rewrite (Decode_app_bounded _ (String.length a) a (le_n _) [] a' b Ha), Hb.
  reflexivity.
Qed.

(** A string without a percent sign decodes to itself. *)
Lemma decodeURIComponent_plain (s : string) :
  includes "%" s = false -> decodeURIComponent s = Some s.
Proof.
  unfold decodeURIComponent.
  induction s as [|c s IH]; [reflexivity|].
  intros H. cbn [includes] in H. apply orb_false_iff in H as [Hc Hs].
  cbn [Decode]. rewrite Hc, (IH Hs). reflexivity.
Qed.

(** Decoding goes through a path segment by segment. *)
Lemma decodeURIComponent_concat (l l' : list string) :
  Forall2 (fun s s' => decodeURIComponent s = Some s') l l' ->
  decodeURIComponent (String.concat "/" l) = Some (String.concat "/" l').
Proof.
  induction 1 as [|s s' l l' Hs Hl IH]; [reflexivity|].
  destruct Hl as [|t t' l l' Ht Hl].
  - exact Hs.
  - change (String.concat "/" (s :: t :: l))
      with (s ++ "/" ++ String.concat "/" (t :: l)).
    change (String.concat "/" (s' :: t' :: l'))
      with (s' ++ "/" ++ String.concat "/" (t' :: l')).
    apply decodeURIComponent_app; [exact Hs|].
    apply decodeURIComponent_app; [reflexivity | exact IH].
Qed.

End UriFacts.

(* ================================================================== *)
(** ** Facts about paths *)

Module PathFacts.
Import Str StrFacts Path.

Lemma normStep_keep (stack : list string) (seg : string) :
  String.eqb seg EmptyString = false ->
  String.eqb seg "." = false ->
  String.eqb seg ".." = false ->
  normStep stack seg = seg :: stack.
Proof. unfold normStep. now intros -> -> ->. Qed.

Lemma ordinary_inv (seg : string) :
  ordinary seg = true ->
  String.eqb seg EmptyString = false /\ String.eqb seg "." = false
  /\ String.eqb seg ".." = false /\ includes "/" seg = false.
Proof.
  unfold ordinary. intros H.
  repeat (apply andb_true_iff in H as [H ?]).
  repeat split; now apply negb_true_iff.
Qed.

Lemma normStep_ordinary (stack : list string) (seg : string) :
  ordinary seg = true -> normStep stack seg = seg :: stack.
Proof.
  intros H. apply ordinary_inv in H as (H1 & H2 & H3 & _).
  now apply normStep_keep.
Qed.

(** A segment holding a percent sign is a name. *)
Lemma normStep_percent (stack : list string) (seg : string) :
  includes "%" seg = true -> normStep stack seg = seg :: stack.
Proof.
  intros H. apply normStep_keep.
  - destruct seg; [discriminate | reflexivity].
  - apply String.eqb_neq. intros ->. discriminate.
  - apply String.eqb_neq. intros ->. discriminate.
Qed.

Lemma fold_normStep_ordinary (l stack : list string) :
  forallb ordinary l = true ->
  fold_left normStep l stack = (rev l ++ stack)%list.
Proof.
  revert stack. induction l as [|x l IH]; intros stack H; [reflexivity|].
  simpl in H. apply andb_true_iff in H as [Hx Hl].
  simpl. rewrite (normStep_ordinary _ _ Hx), (IH _ Hl), <- app_assoc.
  reflexivity.
Qed.

Lemma forallb_ordinary_noslash (l : list string) :
  forallb ordinary l = true ->
  forallb (fun s => negb (includes "/" s)) l = true.
Proof.
  induction l as [|x l IH]; [reflexivity|]. simpl.
  intros H. apply andb_true_iff in H as [Hx Hl].
  apply ordinary_inv in Hx as (_ & _ & _ & ->). now rewrite (IH Hl).
Qed.

Lemma forallb_ordinary_nonempty (l : list string) :
  forallb ordinary l = true ->
  filter (fun s => negb (String.eqb s EmptyString)) l = l.
Proof.
  induction l as [|x l IH]; [reflexivity|]. simpl.
  intros H. apply andb_true_iff in H as [Hx Hl].
  apply ordinary_inv in Hx as (-> & _). simpl. now rewrite (IH Hl).
Qed.

(** Normalising the pieces of a joined list of names gives the names. *)
Lemma fold_normStep_concat (l stack : list string) :
  forallb ordinary l = true ->
  fold_left normStep (split_on "/" (String.concat "/" l)) stack
  = (rev l ++ stack)%list.
Proof.
  intros H. destruct l as [|x l]; [reflexivity|].
  rewrite split_on_concat;
    [now apply fold_normStep_ordinary | discriminate
    | now apply forallb_ordinary_noslash].
Qed.

(** [path.resolve(root, '.' + p)] for a normalised [root] and a path
    [p] of names: the names are appended. *)
Lemma isAbsolute_slash (s : string) : isAbsolute (String "/" s) = true.
Proof. unfold isAbsolute, startsWith. simpl. now destruct s. Qed.

Lemma isAbsolute_dot (s : string) : isAbsolute (String "." s) = false.
Proof. reflexivity. Qed.

(** The path that [path.resolve(root, '.' + p)] normalises, for an
    absolute [root]. *)
Lemma resolveArgs_root (cwd root p : string) :
  resolveArgs cwd (rev [String "/" root; "." ++ p]) EmptyString
  = String "/" (root ++ String "/" (String "." (p ++ "/"))).
Proof.
  cbn [rev List.app resolveArgs append String.eqb].
  rewrite isAbsolute_dot.
  cbn [resolveArgs String.eqb]. rewrite isAbsolute_slash.
  cbn [append]. reflexivity.
Qed.

(** [path.resolve(root, '.' + p)] for a normalised [root] and a path
    [p] of names: the names are appended. *)
Lemma resolve_absPath (cwd : string) (rc segs : list string) :
  forallb ordinary rc = true ->
  forallb ordinary segs = true ->
  resolve cwd [absPath rc; "." ++ absPath segs] = absPath (rc ++ segs).
Proof.
  intros Hrc Hsegs. unfold resolve, absPath at 1 2.
  change ("/" ++ String.concat "/" rc) with (String "/" (String.concat "/" rc)).
  rewrite resolveArgs_root.
  unfold absPath. f_equal. f_equal. unfold normalizeSegments.
  cbn [split_on Ascii.eqb Bool.eqb fold_left normStep String.eqb append].
  rewrite split_on_app, fold_left_app, (fold_normStep_concat _ _ Hrc).
  cbn [split_on Ascii.eqb Bool.eqb fold_left normStep String.eqb].
  rewrite split_on_app, fold_left_app, (fold_normStep_concat _ _ Hsegs).
  cbn [split_on fold_left normStep String.eqb].
  rewrite app_nil_r, rev_app_distr, !rev_involutive. reflexivity.
Qed.

Lemma components_absPath (l : list string) :
  forallb ordinary l = true -> components (absPath l) = l.
Proof.
  intros H. unfold components, absPath.
  cbn [append split_on Ascii.eqb Bool.eqb filter String.eqb negb].
  destruct l as [|x l]; [reflexivity|].
  rewrite split_on_concat;
    [now apply forallb_ordinary_nonempty | discriminate
    | now apply forallb_ordinary_noslash].
Qed.

Lemma isPrefixOf_app (l m : list string) : isPrefixOf l (l ++ m) = true.
Proof.
  induction l as [|x l IH]; [reflexivity|].
  simpl. now rewrite String.eqb_refl.
Qed.

Lemma within_absPath (rc segs : list string) :
  forallb ordinary rc = true ->
  forallb ordinary segs = true ->
  within (absPath rc) (absPath (rc ++ segs)) = true.
Proof.
  intros Hrc Hsegs. unfold within.
  rewrite (components_absPath _ Hrc), components_absPath.
  - apply isPrefixOf_app.
  - now rewrite forallb_app, Hrc, Hsegs.
Qed.

Lemma startsWith_absPath (rc segs : list string) :
  startsWith (absPath (rc ++ segs)) (absPath rc) = true.
Proof.
  unfold startsWith, absPath. cbn [append String.prefix].
  destruct (ascii_dec "/" "/") as [_|n]; [|now elim n].
  destruct rc as [|x rc].
  - simpl. now destruct (String.concat "/" segs).
  - destruct segs as [|y segs].
    + rewrite app_nil_r. apply prefix_refl.
    + rewrite concat_app by discriminate. apply prefix_app.
Qed.

End PathFacts.

(* ================================================================== *)
(** ** The path resolver *)

Section ResolverProperties.
Import Str StrFacts UriFacts PathFacts.

Variable cwd : string.

Lemma forallb_plainSeg_ordinary (l : list string) :
  forallb plainSeg l = true -> forallb ordinary l = true.
Proof.
  induction l as [|x l IH]; [reflexivity|]. simpl.
  intros H. apply andb_true_iff in H as [Hx Hl]. unfold plainSeg in Hx.
  apply andb_true_iff in Hx as [Hx _]. apply andb_true_iff in Hx as [-> _].
  now rewrite (IH Hl).
Qed.

Lemma forallb_plainSeg_absent (c : ascii) (l : list string) :
  c = "%"%char \/ c = zero ->
  forallb plainSeg l = true ->
  forallb (fun s => negb (includes c s)) l = true.
Proof.
  intros Hc. induction l as [|x l IH]; [reflexivity|]. simpl.
  intros H. apply andb_true_iff in H as [Hx Hl]. rewrite (IH Hl), andb_true_r.
  unfold plainSeg in Hx.
  apply andb_true_iff in Hx as [Hx Hz]. apply andb_true_iff in Hx as [_ Hp].
  now destruct Hc as [-> | ->].
Qed.

Lemma decode_plain_segments (l : list string) :
  forallb plainSeg l = true ->
  Forall2 (fun s s' => Uri.decodeURIComponent s = Some s') l l.
Proof.
  induction l as [|x l IH]; [constructor|]. simpl.
  intros H. apply andb_true_iff in H as [Hx Hl]. constructor; [|now apply IH].
  apply decodeURIComponent_plain. unfold plainSeg in Hx.
  apply andb_true_iff in Hx as [Hx _]. apply andb_true_iff in Hx as [_ Hp].
  now apply negb_true_iff.
Qed.

(** What the resolver answers on a request path made of names, one
    of which is the double-encoded dot-dot. *)
Lemma safeJoin_double_encoded (rc pre post : list string) :
  forallb ordinary rc = true ->
  forallb plainSeg pre = true ->
  forallb plainSeg post = true ->
  safeJoin cwd (absPath rc) (absPath (pre ++ "%252e%252e" :: post))
  = Some (absPath (rc ++ pre ++ "%2e%2e" :: post)).
Proof.
  intros Hrc Hpre Hpost. unfold safeJoin.
  assert (Hdec : Uri.decodeURIComponent (absPath (pre ++ "%252e%252e" :: post))
                 = Some (absPath (pre ++ "%2e%2e" :: post))).
  { unfold absPath. apply decodeURIComponent_app; [reflexivity|].
    apply decodeURIComponent_concat. apply Forall2_app.
    - now apply decode_plain_segments.
    - constructor; [reflexivity | now apply decode_plain_segments]. }
  rewrite Hdec.
  assert (Hord : forallb ordinary (pre ++ "%2e%2e" :: post) = true).
  { rewrite forallb_app. cbn [forallb].
    rewrite (forallb_plainSeg_ordinary _ Hpre), (forallb_plainSeg_ordinary _ Hpost).
    reflexivity. }
  rewrite remove_char_absent.
  - rewrite (resolve_absPath cwd _ _ Hrc Hord), startsWith_absPath. reflexivity.
  - unfold absPath. rewrite includes_app. cbn [includes orb Ascii.eqb Bool.eqb].
    apply includes_concat; [reflexivity|].
    rewrite forallb_app. cbn [forallb].
    rewrite (forallb_plainSeg_absent zero pre), (forallb_plainSeg_absent zero post)
      by (auto || assumption).
    reflexivity.
Qed.

(** C1 (the code departs from it).  The claim: whenever safeJoin
    accepts a request path, the path it returns is the served root or
    lies below it segment by segment, so that for the root [/r]
    nothing such as [/r-evil] is ever returned.  The code compares
    strings, not segments: for the root [/r] the request path
    [/..%2fr-evil/secret.txt] is accepted and resolves to
    [/r-evil/secret.txt], which is not within [/r]; the handler then
    serves that file's bytes with status 200. *)
Theorem safeJoin_accepts_sibling_of_root :
  safeJoin cwd "/r" "/..%2fr-evil/secret.txt" = Some "/r-evil/secret.txt"
  /\ Path.within "/r" "/r-evil/secret.txt" = false
  /\ exists r,
       Sample.handle "/r" Sample.defaults Sample.siblingFs
         (Sample.get "/..%2fr-evil/secret.txt" []) = Complete r
       /\ statusCode r = 200%Z /\ body r = "TOP_SECRET".
Proof.
  split; [reflexivity|]. split; [reflexivity|].
  eexists. split; [vm_compute; reflexivity|]. split; reflexivity.
Qed.

(** C2 (the code departs from it).  The claim: a request path that
    holds the double-encoded [%252e%252e] is decoded once, the
    sequence stays the literal name [%2e%2e], and the resolved path
    stays inside the root.  The code does decode once and keeps
    [%2e%2e] as a name, but the path it resolves to need not be inside
    the root: for the root [/r] the request path
    [/..%2fr-evil/%252e%252e/secret.txt] is accepted and resolves to
    [/r-evil/%2e%2e/secret.txt], which is not within [/r], and the
    handler serves that file with status 200.  The defect is the
    comparison of strings for segments, the one of C1. *)
Theorem double_encoded_dots_beside_sibling :
  Uri.decodeURIComponent "/..%2fr-evil/%252e%252e/secret.txt"
  = Some "/../r-evil/%2e%2e/secret.txt"
  /\ safeJoin cwd "/r" "/..%2fr-evil/%252e%252e/secret.txt"
     = Some "/r-evil/%2e%2e/secret.txt"
  /\ Path.within "/r" "/r-evil/%2e%2e/secret.txt" = false
  /\ exists r,
       Sample.handle "/r" Sample.defaults Demo.dotsFs
         (Sample.get "/..%2fr-evil/%252e%252e/secret.txt" []) = Complete r
       /\ statusCode r = 200%Z /\ body r = "TOP_SECRET".
Proof.
  split; [reflexivity|]. split; [reflexivity|]. split; [reflexivity|].
  eexists. split; [vm_compute; reflexivity|]. split; reflexivity.
Qed.

(** A request path that does not decode is read as the root. *)
Lemma safeJoin_undecodable (rc : list string) (p : string) :
  forallb ordinary rc = true ->
  Uri.decodeURIComponent p = None ->
  safeJoin cwd (absPath rc) p = Some (absPath rc).
Proof.
  intros Hrc Hp. unfold safeJoin. rewrite Hp.
  change (remove_char zero "/") with (absPath []).
  rewrite (resolve_absPath cwd rc [] Hrc eq_refl), startsWith_absPath, app_nil_r.
  reflexivity.
Qed.

(** X25.  The resolver decodes percent escapes exactly once: in any
    request path that decodes, the double-encoded sequence
    [%252e%252e] becomes the literal text [%2e%2e] (a path that does
    not decode is read as the root); a segment holding that text is
    kept by the normalisation as a name, never taken for [..]; and a
    request path made of plain names (no percent sign, no NUL, no dot
    segment) with [%252e%252e] among them resolves to the root
    followed by the same names with [%2e%2e] in its place, a path
    within the root. *)
Theorem double_encoded_dots_stay_literal
        (rc pre post : list string) (a b a' b' : string) :
  forallb ordinary rc = true ->
  forallb plainSeg pre = true ->
  forallb plainSeg post = true ->
  Uri.decodeURIComponent a = Some a' ->
  Uri.decodeURIComponent b = Some b' ->
  Uri.decodeURIComponent (a ++ "%252e%252e" ++ b) = Some (a' ++ "%2e%2e" ++ b')
  /\ (forall p, Uri.decodeURIComponent p = None ->
                safeJoin cwd (absPath rc) p = Some (absPath rc))
  /\ (forall stack x y,
        Path.normStep stack (x ++ "%2e%2e" ++ y) = (x ++ "%2e%2e" ++ y) :: stack)
  /\ safeJoin cwd (absPath rc) (absPath (pre ++ "%252e%252e" :: post))
     = Some (absPath (rc ++ pre ++ "%2e%2e" :: post))
  /\ Path.within (absPath rc) (absPath (rc ++ pre ++ "%2e%2e" :: post)) = true.
Proof.
  intros Hrc Hpre Hpost Ha Hb. repeat split.
  - apply decodeURIComponent_app; [exact Ha|].
    now apply (decodeURIComponent_app "%252e%252e" b "%2e%2e" b').
  - intros p Hp. now apply safeJoin_undecodable.
  - intros stack x y. apply normStep_percent.
    rewrite includes_app. cbn [append includes Ascii.eqb Bool.eqb orb].
    apply orb_true_r.
  - now apply safeJoin_double_encoded.
  - apply within_absPath; [exact Hrc|].
    rewrite forallb_app. cbn [forallb].
    rewrite (forallb_plainSeg_ordinary _ Hpre), (forallb_plainSeg_ordinary _ Hpost).
    reflexivity.
Qed.

End ResolverProperties.

(** The request of the test suite, [/%252e%252e/outside/secret.txt]
    under the root [/r]. *)
Lemma double_encoded_dots_stay_literal_witness :
  Uri.decodeURIComponent ("/" ++ "%252e%252e" ++ "/outside/secret.txt")
  = Some ("/" ++ "%2e%2e" ++ "/outside/secret.txt")
  /\ (forall p, Uri.decodeURIComponent p = None ->
                safeJoin Sample.cwd (absPath ["r"]) p = Some (absPath ["r"]))
  /\ (forall stack x y,
        Path.normStep stack (x ++ "%2e%2e" ++ y) = (x ++ "%2e%2e" ++ y) :: stack)
  /\ safeJoin Sample.cwd (absPath ["r"])
       (absPath ([] ++ "%252e%252e" :: ["outside"; "secret.txt"]))
     = Some (absPath (["r"] ++ [] ++ "%2e%2e" :: ["outside"; "secret.txt"]))
  /\ Path.within (absPath ["r"])
       (absPath (["r"] ++ [] ++ "%2e%2e" :: ["outside"; "secret.txt"])) = true.
Proof.
  apply (double_encoded_dots_stay_literal Sample.cwd ["r"] [] ["outside"; "secret.txt"]
           "/" "/outside/secret.txt" "/" "/outside/secret.txt");
    reflexivity.
Defined.

(* ================================================================== *)
(** ** Facts about numerals, trimming and substrings *)

Module NumFacts.
Import Str StrFacts.

Lemma allChars_app (P : ascii -> bool) (a b : string) :
  allChars P (a ++ b) = allChars P a && allChars P b.
Proof.
  induction a as [|x a IH]; simpl; [reflexivity|].
  now rewrite IH, andb_assoc.
Qed.

Lemma allChars_weaken (P Q : ascii -> bool) (s : string) :
  (forall c, P c = true -> Q c = true) ->
  allChars P s = true -> allChars Q s = true.
Proof.
  intros HPQ. induction s as [|x s IH]; simpl; [reflexivity|].
  intros H. apply andb_true_iff in H as [Hx Hs].
  now rewrite (HPQ _ Hx), (IH Hs).
Qed.

Lemma allChars_absent (P : ascii -> bool) (c : ascii) (s : string) :
  P c = false -> allChars P s = true -> includes c s = false.
Proof.
  intros Hc. induction s as [|x s IH]; simpl; [reflexivity|].
  intros H. apply andb_true_iff in H as [Hx Hs]. rewrite (IH Hs), orb_false_r.
  destruct (Ascii.eqb_spec x c) as [->|]; [congruence | reflexivity].
Qed.

Lemma uint_digits (d : Decimal.uint) :
  allChars isDigit (DecimalString.NilEmpty.string_of_uint d) = true.
Proof. induction d; simpl; auto. Qed.

(** A natural number prints as a non-empty string of digits. *)
Lemma dec_digits (z : Z) :
  (0 <= z)%Z -> allChars isDigit (dec z) = true /\ dec z <> EmptyString.
Proof.
  intros Hz. unfold dec. destruct z as [|p|p]; [split; [reflexivity | discriminate]| |lia].
  cbn [Z.to_int DecimalString.NilZero.string_of_int].
  unfold DecimalString.NilZero.string_of_uint.
  pose proof (uint_digits (Pos.to_uint p)) as Hd.
  destruct (Pos.to_uint p) eqn:E;
    (split; [try reflexivity; exact Hd | try discriminate]).
Qed.

Lemma digit_not_space (c : ascii) : isDigit c = true -> negb (isSpace c) = true.
Proof.
  unfold isDigit, isSpace. intros H.
  apply andb_true_iff in H as [H1 H2].
  apply N.leb_le in H1. apply N.leb_le in H2.
  apply negb_true_iff. repeat (apply orb_false_iff; split).
  - apply andb_false_iff. right. apply N.leb_gt. lia.
  - apply N.eqb_neq. lia.
  - apply N.eqb_neq. lia.
Qed.

Lemma trimStart_nospace (s : string) :
  allChars (fun c => negb (isSpace c)) s = true -> trimStart s = s.
Proof.
  destruct s as [|c s]; [reflexivity|]. simpl.
  intros H. apply andb_true_iff in H as [Hc _].
  apply negb_true_iff in Hc. now rewrite Hc.
Qed.

Lemma trimEnd_nospace (s : string) :
  allChars (fun c => negb (isSpace c)) s = true -> trimEnd s = s.
Proof.
  induction s as [|c s IH]; [reflexivity|]. simpl.
  intros H. apply andb_true_iff in H as [Hc Hs].
  apply negb_true_iff in Hc. rewrite (IH Hs), Hc. now destruct s.
Qed.

Lemma trim_nospace (s : string) :
  allChars (fun c => negb (isSpace c)) s = true -> trim s = s.
Proof.
  intros H. unfold trim. rewrite (trimStart_nospace _ H). now apply trimEnd_nospace.
Qed.

Lemma substring_all (s : string) : String.substring 0 (String.length s) s = s.
Proof. induction s as [|c s IH]; simpl; [reflexivity | now rewrite IH]. Qed.

Lemma substring_length (s : string) (n m : nat) :
  (n + m <= String.length s)%nat -> String.length (String.substring n m s) = m.
Proof.
  revert n m. induction s as [|c s IH]; intros n m H; simpl in H.
  - assert (n = 0%nat) by lia. assert (m = 0%nat) by lia. now subst.
  - destruct n as [|n]; simpl.
    + destruct m as [|m]; [reflexivity|]. simpl. rewrite (IH 0%nat m); [reflexivity | lia].
    + apply IH. lia.
Qed.

Lemma length_append (a b : string) :
  String.length (a ++ b) = (String.length a + String.length b)%nat.
Proof. induction a as [|x a IH]; simpl; [reflexivity | now rewrite IH]. Qed.

Lemma substring_drop (p x : string) :
  String.substring (String.length p) (String.length (p ++ x) - String.length p) (p ++ x) = x.
Proof.
  induction p as [|c p IH]; simpl.
  - rewrite Nat.sub_0_r. apply substring_all.
  - exact IH.
Qed.

Lemma replaceFirst_at_head (p s : string) :
  String.prefix p s = true ->
  replaceFirst p s
  = String.substring (String.length p) (String.length s - String.length p) s.
Proof.
  intros H. destruct s; cbn [replaceFirst]; now rewrite H.
Qed.

Lemma replaceFirst_prefix (p x : string) : replaceFirst p (p ++ x) = x.
Proof.
  rewrite replaceFirst_at_head by apply prefix_app. apply substring_drop.
Qed.

End NumFacts.

(* ================================================================== *)
(** ** File responses: validators and ranges *)

Section FileProperties.
Import Str StrFacts NumFacts.

Variable Number : string -> option Z.
Variable dateGetTime : string -> option Z.
Variable toUTCString : Z -> string.


Ltac boolZ :=
  repeat match goal with
         | H : (_ <=? _)%Z = true |- _ => apply Z.leb_le in H
         | H : (_ <=? _)%Z = false |- _ => apply Z.leb_gt in H
         | H : (_ <? _)%Z = true |- _ => apply Z.ltb_lt in H
         | H : (_ <? _)%Z = false |- _ => apply Z.ltb_ge in H
         end.

(** Whatever the pieces of the spec, an accepted range lies in the file. *)
Lemma rangeOfParts_bounds (s e : option string) (n start end_ : Z) :
  rangeOfParts Number s e n = Some (start, end_) ->
  (0 <= start <= end_ /\ end_ < n)%Z.
Proof.
  unfold rangeOfParts.
  destruct s as [[|c s]|]; [destruct e as [e|] | |discriminate].
  - destruct (Number e) as [k|]; [|discriminate].
    destruct (0 <? k)%Z eqn:Hk; [|discriminate].
    destruct (Z.max 0 (n - k) <=? n - 1)%Z eqn:Hv; [|discriminate].
    intros [= <- <-]. boolZ. lia.
  - destruct (Number EmptyString) as [a|]; [|discriminate].
    destruct (a <=? n - 1)%Z eqn:H1; [|discriminate].
    destruct (a <? n)%Z eqn:H2; [|discriminate].
    destruct (Z.max 0 a <=? Z.min (n - 1) (n - 1))%Z eqn:Hv; [|discriminate].
    intros [= <- <-]. boolZ. lia.
  - destruct (Number (String c s)) as [a|]; [|discriminate].
    destruct (match e with
              | Some EmptyString => Some (n - 1)%Z
              | Some (String _ _ as e') => Number e'
              | None => Some (n - 1)%Z
              end) as [b|]; [|discriminate].
    destruct (a <=? b)%Z eqn:H1; [|discriminate].
    destruct (a <? n)%Z eqn:H2; [|discriminate].
    destruct (Z.max 0 a <=? Z.min b (n - 1))%Z eqn:Hv; [|discriminate].
    intros [= <- <-]. boolZ. lia.
Qed.

Lemma parseRange_bounds (range : string) (n start end_ : Z) :
  parseRange Number range n = Some (start, end_) ->
  (0 <= start <= end_ /\ end_ < n)%Z.
Proof. unfold parseRange. apply rangeOfParts_bounds. Qed.

(** The pieces of [bytes=<sa>-<sb>] for two strings of digits. *)
Lemma parseRange_numerals (sa sb : string) (n : Z) :
  allChars isDigit sa = true ->
  allChars isDigit sb = true ->
  parseRange Number ("bytes=" ++ sa ++ "-" ++ sb) n = rangeOfParts Number (Some sa) (Some sb) n.
Proof.
  intros Ha Hb. unfold parseRange.
  rewrite replaceFirst_prefix.
  assert (Hcomma : includes "," (sa ++ "-" ++ sb) = false).
  { rewrite !includes_app, (allChars_absent isDigit "," sa),
      (allChars_absent isDigit "," sb) by (reflexivity || assumption).
    reflexivity. }
  rewrite (split_on_absent _ _ Hcomma). cbn [hd].
  rewrite trim_nospace.
  - assert (Hdash : includes "-" (sa ++ "-" ++ sb) = true).
    { rewrite includes_app. cbn [append includes]. rewrite Ascii.eqb_refl.
      apply orb_true_r. }
    rewrite Hdash. cbn [append]. rewrite split_on_app.
    rewrite (split_on_absent "-" sa), (split_on_absent "-" sb)
      by (now apply (allChars_absent isDigit)).
    reflexivity.
  - rewrite !allChars_app. cbn [allChars].
    rewrite (allChars_weaken isDigit _ sa digit_not_space Ha),
      (allChars_weaken isDigit _ sb digit_not_space Hb).
    reflexivity.
Qed.



Lemma writeHeadEnd_head (req : Request) (code : Z) (hs : Headers) (x y : string) :
  isHead req = true -> writeHeadEnd req code hs x = writeHeadEnd req code hs y.
Proof. intros H. unfold writeHeadEnd, hasBody. now rewrite H. Qed.

Lemma rangeDecision_status (req : Request) (n start end_ code : Z) (extra : Headers) :
  rangeDecision Number req n = Some (start, end_, code, extra) ->
  code = 200%Z \/ code = 206%Z.
Proof.
  unfold rangeDecision.
  destruct (getHeader (headers req) "range") as [r|]; [|intros [= <- <- <- <-]; now left].
  destruct (truthy (Some r) && String.prefix "bytes=" r);
    [|intros [= <- <- <- <-]; now left].
  destruct (parseRange Number r n) as [[s e]|]; [|discriminate].
  intros [= <- <- <- <-]. now right.
Qed.

(** The status of a file response tells which exit was taken. *)
Lemma serveFile_status (fs : FileSystem) (req : Request) (filePath : string)
      (st : Stats) (opts : Options) :
  let o := serveFile Number dateGetTime toUTCString fs req filePath st opts in
  (notModified dateGetTime req st (etagFromStats st) = true -> outcomeStatus o = 304%Z)
  /\ (notModified dateGetTime req st (etagFromStats st) = false ->
      outcomeStatus o = 416%Z \/ outcomeStatus o = 200%Z \/ outcomeStatus o = 206%Z).
Proof.
  unfold serveFile. cbv zeta. split; intros H; rewrite H; [reflexivity|].
  destruct (rangeDecision Number req (size st)) as [[[[s e] code] extra]|] eqn:Hr;
    [|now left].
  right. apply rangeDecision_status in Hr.
  destruct (isHead req); [exact Hr|].
  destruct ((0 <=? s)%Z && (s <=? e)%Z); [|exact Hr].
  destruct (readBytes fs filePath); exact Hr.
Qed.

Lemma rangeDecision_bytes (req : Request) (range : string) (n : Z) :
  getHeader (headers req) "range" = Some ("bytes=" ++ range) ->
  rangeDecision Number req n
  = match parseRange Number ("bytes=" ++ range) n with
    | Some (start, end_) =>
        Some (start, end_, 206%Z,
              [("Content-Range",
                "bytes " ++ dec start ++ "-" ++ dec end_ ++ "/" ++ dec n)])
    | None => None
    end.
Proof.
  intros Hh. unfold rangeDecision. rewrite Hh, prefix_app. reflexivity.
Qed.

(** The 206 exit: the response to a range that [parseRange] accepts. *)
Lemma serveFile_satisfiable (fs : FileSystem) (req : Request) (filePath : string)
      (st : Stats) (opts : Options) (range : string) (start end_ : Z) :
  notModified dateGetTime req st (etagFromStats st) = false ->
  getHeader (headers req) "range" = Some ("bytes=" ++ range) ->
  parseRange Number ("bytes=" ++ range) (size st) = Some (start, end_) ->
  exists r,
    serveFile Number dateGetTime toUTCString fs req filePath st opts = Complete r
    /\ statusCode r = 206%Z
    /\ getHeader (resHeaders r) "Content-Range"
       = Some ("bytes " ++ dec start ++ "-" ++ dec end_ ++ "/" ++ dec (size st))
    /\ getHeader (resHeaders r) "Content-Length" = Some (dec (end_ - start + 1))
    /\ body r = (if isHead req then EmptyString
                 else match readBytes fs filePath with
                      | Some bytes => streamSlice bytes start end_
                      | None => "Internal Server Error"
                      end).
Proof.
  intros Hnm Hh Hp. unfold serveFile. cbv zeta. rewrite Hnm.
  rewrite (rangeDecision_bytes _ _ _ Hh), Hp.
  apply parseRange_bounds in Hp as [[Hs Hse] He].
  destruct (isHead req) eqn:Hhead.
  - eexists. split; [reflexivity|].
    unfold writeHeadEnd, hasBody. rewrite Hhead.
    split; [reflexivity|]. split; [reflexivity|]. split; reflexivity.
  - apply Z.leb_le in Hs. apply Z.leb_le in Hse. rewrite Hs, Hse. cbn [andb].
    destruct (readBytes fs filePath);
      (eexists; split; [reflexivity|];
       unfold writeHeadEnd, hasBody; rewrite Hhead;
       split; [reflexivity|]; split; [reflexivity|]; split; reflexivity).
Qed.

(** The 416 exit. *)
Lemma serveFile_unsatisfiable (fs : FileSystem) (req : Request) (filePath : string)
      (st : Stats) (opts : Options) (range : string) :
  notModified dateGetTime req st (etagFromStats st) = false ->
  getHeader (headers req) "range" = Some ("bytes=" ++ range) ->
  parseRange Number ("bytes=" ++ range) (size st) = None ->
  serveFile Number dateGetTime toUTCString fs req filePath st opts
  = Complete {| statusCode := 416;
                resHeaders := [("Content-Range", "bytes */" ++ dec (size st))];
                body := EmptyString |}.
Proof.
  intros Hnm Hh Hp. unfold serveFile. cbv zeta. rewrite Hnm.
  rewrite (rangeDecision_bytes _ _ _ Hh), Hp.
  unfold writeHeadEnd. now destruct (hasBody req 416).
Qed.

Lemma prefix_nil (s : string) : String.prefix EmptyString s = true.
Proof. now destruct s. Qed.

Lemma etag_nonempty (st : Stats) : truthy (Some (etagFromStats st)) = true.
Proof. reflexivity. Qed.

(** The condition of the short cut, read off the two headers. *)
Lemma notModified_spec (req : Request) (st : Stats) :
  dateGetTime EmptyString = None ->
  notModified dateGetTime req st (etagFromStats st) = true <->
  (getHeader (headers req) "if-none-match" = Some (etagFromStats st)
   \/ exists v t,
        getHeader (headers req) "if-modified-since" = Some v
        /\ dateGetTime v = Some t /\ (mtimeMs st <= t)%Z).
Proof.
  intros Hempty. unfold notModified. cbv zeta. split.
  - intros H. apply orb_true_iff in H as [H|H]; apply andb_true_iff in H as [_ H].
    + left. destruct (getHeader (headers req) "if-none-match") as [v|]; [|discriminate].
      apply String.eqb_eq in H. now subst.
    + right. destruct (getHeader (headers req) "if-modified-since") as [v|]; [|discriminate].
      destruct (dateGetTime v) as [t|] eqn:Ht; [|discriminate].
      exists v, t. repeat split; [exact Ht | now apply Z.leb_le].
  - intros [H | (v & t & Hv & Ht & Hle)]; apply orb_true_iff.
    + left. rewrite H, etag_nonempty, String.eqb_refl. reflexivity.
    + right. rewrite Hv. destruct v as [|c v]; [congruence|].
      cbn [truthy andb]. rewrite Ht. now apply Z.leb_le.
Qed.

(** C5.  A file response has status 304 exactly when the
    [If-None-Match] header is present and equal, character for
    character, to the file's ETag (which starts with the weak prefix
    [W/]), or the [If-Modified-Since] header is present, parses as a
    date, and the parsed instant is not before the file's modification
    instant.  Either condition alone suffices; a header that does not
    parse as a date never triggers it. *)
Theorem not_modified_iff (fs : FileSystem) (req : Request) (filePath : string)
        (st : Stats) (opts : Options) :
  dateGetTime EmptyString = None ->
  (outcomeStatus (serveFile Number dateGetTime toUTCString fs req filePath st opts)
   = 304%Z
   <-> (getHeader (headers req) "if-none-match" = Some (etagFromStats st)
        \/ exists v t,
             getHeader (headers req) "if-modified-since" = Some v
             /\ dateGetTime v = Some t /\ (mtimeMs st <= t)%Z))
  /\ String.prefix ("W/" ++ dq) (etagFromStats st) = true
  /\ (forall v,
        getHeader (headers req) "if-modified-since" = Some v ->
        dateGetTime v = None ->
        getHeader (headers req) "if-none-match" <> Some (etagFromStats st) ->
        outcomeStatus
          (serveFile Number dateGetTime toUTCString fs req filePath st opts)
        <> 304%Z).
Proof.
  intros Hempty.
  assert (Hiff :
    outcomeStatus (serveFile Number dateGetTime toUTCString fs req filePath st opts)
    = 304%Z
    <-> (getHeader (headers req) "if-none-match" = Some (etagFromStats st)
         \/ exists v t,
              getHeader (headers req) "if-modified-since" = Some v
              /\ dateGetTime v = Some t /\ (mtimeMs st <= t)%Z)).
  { rewrite <- (notModified_spec req st Hempty).
    destruct (serveFile_status fs req filePath st opts) as [Hyes Hno].
    cbv zeta in Hyes, Hno. split.
    - intros H304.
      destruct (notModified dateGetTime req st (etagFromStats st)); [reflexivity|].
      destruct (Hno eq_refl) as [H|[H|H]]; rewrite H in H304; discriminate.
    - exact Hyes. }
  split; [exact Hiff|].
  split; [unfold etagFromStats; cbn; apply prefix_nil|].
  intros v Hv Hnone Hinm H304. apply Hiff in H304 as [H | (v' & t & Hv' & Ht & _)].
  - now elim Hinm.
  - congruence.
Qed.



End FileProperties.



(** A second request for [z.txt] that carries the ETag of the first
    answer. *)
Lemma not_modified_iff_witness :
  outcomeStatus
    (serveFile Sample.Number Sample.dateGetTime Sample.toUTCString Sample.siteFs
       (Sample.get "/z.txt" [("if-none-match", "W/" ++ dq ++ "4-3e8" ++ dq)])
       "/r/z.txt" (Sample.fileStats 4 1000) Sample.defaults)
  = 304%Z.
Proof.
  apply (proj1 (not_modified_iff
                  Sample.Number Sample.dateGetTime Sample.toUTCString Sample.siteFs
                  (Sample.get "/z.txt" [("if-none-match", "W/" ++ dq ++ "4-3e8" ++ dq)])
                  "/r/z.txt" (Sample.fileStats 4 1000) Sample.defaults eq_refl)).
  left. reflexivity.
Defined.

(* ================================================================== *)
(** ** The request handler *)

Section HandlerProperties.
Import Str StrFacts NumFacts.

Variable cwd : string.
Variable Number : string -> option Z.
Variable dateGetTime : string -> option Z.
Variable toUTCString : Z -> string.
Variable urlPath : string -> string -> option string.

Lemma beforeQuery_query (u q : string) :
  beforeQuery (u ++ "?" ++ q) = beforeQuery u.
Proof.
  change ("?" ++ q) with (String "?" q).
  induction u as [|c u IH]; [reflexivity|].
  cbn [append beforeQuery]. now rewrite IH.
Qed.

Lemma writeHeadEnd_as_head (req : Request) (code : Z) (hs : Headers) (x y : string) :
  writeHeadEnd (withMethod "HEAD" req) code hs x
  = withoutBody (writeHeadEnd req code hs y).
Proof. reflexivity. Qed.

Lemma sendError_as_head (req : Request) (code : Z) (msg : string) :
  sendError (withMethod "HEAD" req) code msg = withoutBody (sendError req code msg).
Proof. reflexivity. Qed.

Lemma headAgrees_complete (r : Response) :
  headAgrees (Complete (withoutBody r)) (Complete r).
Proof.
  repeat split.
  - now intros ? [= <-].
  - now intros ? [= <-].
Qed.

Lemma headAgrees_writeHeadEnd (req : Request) (code : Z) (hs : Headers)
      (x y : string) :
  headAgrees (Complete (writeHeadEnd (withMethod "HEAD" req) code hs x))
             (Complete (writeHeadEnd req code hs y)).
Proof.
  rewrite (writeHeadEnd_as_head req code hs x y). apply headAgrees_complete.
Qed.

Lemma headAgrees_sendError (req : Request) (code : Z) (msg : string) :
  headAgrees (Complete (sendError (withMethod "HEAD" req) code msg))
             (Complete (sendError req code msg)).
Proof. apply headAgrees_writeHeadEnd. Qed.

(** A file response to HEAD against the response to the same request
    with another method. *)
Lemma serveFile_as_head (fs : FileSystem) (req : Request) (filePath : string)
      (st : Stats) (opts : Options) :
  headAgrees
    (serveFile Number dateGetTime toUTCString fs (withMethod "HEAD" req)
       filePath st opts)
    (serveFile Number dateGetTime toUTCString fs req filePath st opts).
Proof.
  unfold serveFile. cbv zeta.
  change (notModified dateGetTime (withMethod "HEAD" req))
    with (notModified dateGetTime req).
  change (rangeDecision Number (withMethod "HEAD" req))
    with (rangeDecision Number req).
  change (isHead (withMethod "HEAD" req)) with true.
  destruct (notModified dateGetTime req st (etagFromStats st));
    [apply headAgrees_writeHeadEnd|].
  destruct (rangeDecision Number req (size st)) as [[[[s e] code] extra]|];
    [|apply headAgrees_writeHeadEnd].
  destruct (isHead req); [apply headAgrees_writeHeadEnd|].
  destruct ((0 <=? s)%Z && (s <=? e)%Z).
  - destruct (readBytes fs filePath); apply headAgrees_writeHeadEnd.
  - repeat split; [now intros ? [= <-] | discriminate].
Qed.

(** The statuses of a file response. *)
Lemma serveFile_complete_status (fs : FileSystem) (req : Request)
      (filePath : string) (st : Stats) (opts : Options) (r : Response) :
  serveFile Number dateGetTime toUTCString fs req filePath st opts = Complete r ->
  statusCode r = 304%Z \/ statusCode r = 416%Z
  \/ statusCode r = 200%Z \/ statusCode r = 206%Z.
Proof.
  intros H.
  destruct (serveFile_status Number dateGetTime toUTCString fs req filePath st opts)
    as [Hyes Hno].
  cbv zeta in Hyes, Hno. rewrite H in Hyes, Hno. cbn [outcomeStatus] in Hyes, Hno.
  destruct (notModified dateGetTime req st (etagFromStats st));
    [left; now apply Hyes | right; now apply Hno].
Qed.

(** The 416 response carries its [Content-Range] and nothing else. *)
Lemma serveFile_416 (fs : FileSystem) (req : Request)
      (filePath : string) (st : Stats) (opts : Options) (r : Response) :
  serveFile Number dateGetTime toUTCString fs req filePath st opts = Complete r ->
  statusCode r = 416%Z ->
  r = {| statusCode := 416;
         resHeaders := [("Content-Range", "bytes */" ++ dec (size st))];
         body := EmptyString |}.
Proof.
  unfold serveFile. cbv zeta.
  destruct (notModified dateGetTime req st (etagFromStats st)).
  - intros [= <-]. discriminate.
  - destruct (rangeDecision Number req (size st)) as [[[[s e] code] extra]|] eqn:Hr.
    + apply rangeDecision_status in Hr.
      destruct (isHead req);
        [intros [= <-]; cbn; intros ->; destruct Hr; discriminate|].
      destruct ((0 <=? s)%Z && (s <=? e)%Z); [|discriminate].
      destruct (readBytes fs filePath);
        intros [= <-]; cbn; intros ->; destruct Hr; discriminate.
    + intros [= <-] _. unfold writeHeadEnd. now destruct (hasBody req 416).
Qed.

(** C10.  The query of the request target has no part in the
    response: the handler answers the target [P?Q] as it answers [P],
    for every method, headers, options and file system. *)
Theorem query_is_ignored (root : string) (opts : Options) (fs : FileSystem)
        (req : Request) (q : string) :
  handler cwd Number dateGetTime toUTCString urlPath root opts fs
    (withUrl (url req ++ "?" ++ q) req)
  = handler cwd Number dateGetTime toUTCString urlPath root opts fs req.
Proof.
  unfold handler.
  assert (Hp : pathname urlPath (withUrl (url req ++ "?" ++ q) req)
               = pathname urlPath req).
  { unfold pathname. cbn [withUrl url headers]. now rewrite beforeQuery_query. }
  rewrite Hp. reflexivity.
Qed.

(** The handler on a request sent with the method HEAD against the
    handler on the request itself. *)
Lemma handler_as_head (root : string) (opts : Options) (fs : FileSystem)
      (req : Request) :
  headAgrees
    (handler cwd Number dateGetTime toUTCString urlPath root opts fs
       (withMethod "HEAD" req))
    (handler cwd Number dateGetTime toUTCString urlPath root opts fs req).
Proof.
  unfold handler. cbv zeta.
  change (pathname urlPath (withMethod "HEAD" req)) with (pathname urlPath req).
  destruct (pathname urlPath req) as [reqPath|]; [|(apply headAgrees_sendError || apply headAgrees_writeHeadEnd)].
  destruct (safeJoin cwd (Path.resolve cwd [root]) reqPath) as [absPath|];
    [|(apply headAgrees_sendError || apply headAgrees_writeHeadEnd)].
  destruct (stat fs absPath) as [st|].
  - destruct (isDirectory st); [|apply serveFile_as_head].
    destruct (access fs (Path.join absPath "index.html")).
    + destruct (stat fs (Path.join absPath "index.html")) as [ist|];
        [apply serveFile_as_head | (apply headAgrees_sendError || apply headAgrees_writeHeadEnd)].
    + destruct (negb (listing opts)); [(apply headAgrees_sendError || apply headAgrees_writeHeadEnd)|].
      destruct (listDirectory fs absPath reqPath); (apply headAgrees_sendError || apply headAgrees_writeHeadEnd).
  - destruct (spa opts && access fs (Path.join (Path.resolve cwd [root]) "index.html"));
      [|(apply headAgrees_sendError || apply headAgrees_writeHeadEnd)].
    destruct (stat fs (Path.join (Path.resolve cwd [root]) "index.html")) as [ist|];
      [apply serveFile_as_head | (apply headAgrees_sendError || apply headAgrees_writeHeadEnd)].
Qed.

(** A request sent with the method HEAD is always answered. *)
Lemma serveFile_head_completes (fs : FileSystem) (req : Request) (filePath : string)
      (st : Stats) (opts : Options) :
  exists r,
    serveFile Number dateGetTime toUTCString fs (withMethod "HEAD" req)
      filePath st opts = Complete r.
Proof.
  unfold serveFile. cbv zeta.
  change (isHead (withMethod "HEAD" req)) with true.
  destruct (notModified dateGetTime (withMethod "HEAD" req) st (etagFromStats st));
    [eauto|].
  destruct (rangeDecision Number (withMethod "HEAD" req) (size st))
    as [[[[s e] code] extra]|]; eauto.
Qed.

Lemma handler_head_completes (root : string) (opts : Options) (fs : FileSystem)
      (req : Request) :
  exists r,
    handler cwd Number dateGetTime toUTCString urlPath root opts fs
      (withMethod "HEAD" req) = Complete r.
Proof.
  unfold handler. cbv zeta.
  destruct (pathname urlPath (withMethod "HEAD" req)) as [reqPath|]; [|eauto].
  destruct (safeJoin cwd (Path.resolve cwd [root]) reqPath) as [absPath|]; [|eauto].
  destruct (stat fs absPath) as [st|].
  - destruct (isDirectory st); [|apply serveFile_head_completes].
    destruct (access fs (Path.join absPath "index.html")).
    + destruct (stat fs (Path.join absPath "index.html")) as [ist|];
        [apply serveFile_head_completes | eauto].
    + destruct (negb (listing opts)); [eauto|].
      destruct (listDirectory fs absPath reqPath); eauto.
  - destruct (spa opts && access fs (Path.join (Path.resolve cwd [root]) "index.html"));
      [|eauto].
    destruct (stat fs (Path.join (Path.resolve cwd [root]) "index.html")) as [ist|];
      [apply serveFile_head_completes | eauto].
Qed.

(** X26.  A request sent with the method HEAD is always answered, and
    with an empty body; whenever the same request under its own method
    is answered with a response, the answer to HEAD is that response
    less its body: the same status code and the same headers,
    [Content-Length] and [Content-Range] included.  This covers the
    file responses 200, 206, 304 and 416, the directory listing, the
    fallback to the root [index.html] and the error pages 400, 403,
    404 and 500. *)
Theorem head_answer_is_the_answer_less_body (root : string) (opts : Options)
        (fs : FileSystem) (req : Request) :
  let head := handler cwd Number dateGetTime toUTCString urlPath root opts fs
                (withMethod "HEAD" req) in
  let other := handler cwd Number dateGetTime toUTCString urlPath root opts fs req in
  (exists r, head = Complete r /\ body r = EmptyString)
  /\ (forall r, other = Complete r ->
        head = Complete {| statusCode := statusCode r;
                           resHeaders := resHeaders r;
                           body := EmptyString |}).
Proof.
  cbv zeta.
  destruct (handler_as_head root opts fs req) as (_ & _ & Hbody & Hsame).
  destruct (handler_head_completes root opts fs req) as [r Hr].
  split.
  - exists r. split; [exact Hr | now apply Hbody].
  - intros r' Hr'. exact (Hsame r' Hr').
Qed.

Lemma errorPage_shape (code : Z) (msg : string) :
  errorPage code msg
  = (String.concat nl pageHead ++ nl)
    ++ "<title>" ++ dec code ++ "</title>" ++ nl
    ++ "<h1>" ++ dec code ++ "</h1>" ++ nl
    ++ "<p>" ++ msg ++ "</p>".
Proof.
  unfold errorPage, pageHead. cbn [List.app String.concat].
  now rewrite !append_assoc.
Qed.

(** What [sendError] sends for a status that allows a body. *)
Lemma sendError_page (req : Request) (code : Z) (msg : string) :
  hasBody req code = negb (isHead req) ->
  statusCode (sendError req code msg) = code
  /\ getHeader (resHeaders (sendError req code msg)) "Content-Type" = Some htmlType
  /\ getHeader (resHeaders (sendError req code msg)) "Content-Length"
     = Some (dec (byteLength (errorPage code msg)))
  /\ body (sendError req code msg)
     = (if isHead req then EmptyString else errorPage code msg).
Proof.
  intros Hb. repeat split. unfold sendError, writeHeadEnd. cbn [body].
  rewrite Hb. now destruct (isHead req).
Qed.

(** C8 (amended).  Of the responses the handler completes, those with
    status 400, 403, 404 or 500 are the pages of [sendError]: content
    type [text/html; charset=utf-8], a [Content-Length] for the page,
    and a body that is the small HTML page showing the numeric status
    and the message (no body for HEAD).  The 416 response is not such a
    page: it is the answer of [serveFile] for a file that [stat]
    found, and carries [Content-Range: bytes */N], with [N] the size
    of that file, and nothing else: no content type and no body. *)
Theorem error_responses (root : string) (opts : Options) (fs : FileSystem)
        (req : Request) (r : Response) :
  handler cwd Number dateGetTime toUTCString urlPath root opts fs req = Complete r ->
  (statusCode r = 400%Z \/ statusCode r = 403%Z \/ statusCode r = 404%Z
   \/ statusCode r = 500%Z -> isErrorPage req r)
  /\ (statusCode r = 416%Z ->
      exists filePath st,
        stat fs filePath = Some st
        /\ handler cwd Number dateGetTime toUTCString urlPath root opts fs req
           = serveFile Number dateGetTime toUTCString fs req filePath st opts
        /\ isBareRange (size st) r).
Proof.
  assert (Hsend : forall code msg,
            code <> 204%Z -> code <> 304%Z -> code <> 416%Z ->
            Complete (sendError req code msg) = Complete r ->
            (statusCode r = 400%Z \/ statusCode r = 403%Z \/ statusCode r = 404%Z
             \/ statusCode r = 500%Z -> isErrorPage req r)
            /\ (statusCode r = 416%Z -> False)).
  { intros code msg H204 H304 H416 [= <-].
    assert (Hb : hasBody req code = negb (isHead req)).
    { unfold hasBody. apply Z.eqb_neq in H204, H304. rewrite H204, H304.
      now destruct (isHead req). }
    destruct (sendError_page req code msg Hb) as (Hs & Hct & _ & Hbody).
    split.
    - intros _. exists msg. rewrite Hs. repeat split; try assumption.
      apply errorPage_shape.
    - rewrite Hs. intros ->. now elim H416. }
  assert (Hfile : forall filePath st,
            serveFile Number dateGetTime toUTCString fs req filePath st opts
            = Complete r ->
            (statusCode r = 400%Z \/ statusCode r = 403%Z \/ statusCode r = 404%Z
             \/ statusCode r = 500%Z -> isErrorPage req r)
            /\ (statusCode r = 416%Z -> isBareRange (size st) r)).
  { intros filePath st H. split.
    - intros Herr. apply serveFile_complete_status in H. lia.
    - intros H416. rewrite (serveFile_416 fs req filePath st opts r H H416).
      repeat split. }
  intros H.
  assert (Hcase :
            (exists code msg,
               code <> 204%Z /\ code <> 304%Z /\ code <> 416%Z
               /\ Complete (sendError req code msg) = Complete r)
            \/ (exists filePath st,
                  stat fs filePath = Some st
                  /\ handler cwd Number dateGetTime toUTCString urlPath root opts fs req
                     = serveFile Number dateGetTime toUTCString fs req filePath st opts)
            \/ statusCode r = 200%Z).
  { revert H. unfold handler. cbv zeta.
    destruct (pathname urlPath req) as [reqPath|];
      [|intros H; left; exists 500%Z; eexists; repeat split; [lia..|exact H]].
    destruct (safeJoin cwd (Path.resolve cwd [root]) reqPath) as [absPath|];
      [|intros H; left; exists 400%Z; eexists; repeat split; [lia..|exact H]].
    destruct (stat fs absPath) as [st|] eqn:Hst.
    - destruct (isDirectory st);
        [|intros _; right; left; exists absPath, st; now split].
      destruct (access fs (Path.join absPath "index.html")).
      + destruct (stat fs (Path.join absPath "index.html")) as [ist|] eqn:Hist;
          [intros _; right; left;
           exists (Path.join absPath "index.html"), ist; now split
          |intros H; left; exists 500%Z; eexists; repeat split; [lia..|exact H]].
      + destruct (negb (listing opts));
          [intros H; left; exists 403%Z; eexists; repeat split; [lia..|exact H]|].
        destruct (listDirectory fs absPath reqPath);
          [|intros H; left; exists 500%Z; eexists; repeat split; [lia..|exact H]].
        intros [= <-]. right; right; reflexivity.
    - destruct (spa opts && access fs (Path.join (Path.resolve cwd [root]) "index.html"));
        [|intros H; left; exists 404%Z; eexists; repeat split; [lia..|exact H]].
      destruct (stat fs (Path.join (Path.resolve cwd [root]) "index.html"))
        as [ist|] eqn:Hist;
        [intros _; right; left;
         exists (Path.join (Path.resolve cwd [root]) "index.html"), ist; now split
        |intros H; left; exists 404%Z; eexists; repeat split; [lia..|exact H]]. }
  destruct Hcase as [(code & msg & H204 & H304 & H416 & Hr)
                    | [(filePath & st & Hst & Hh) | H200]].
  - destruct (Hsend code msg H204 H304 H416 Hr) as [Hpage Hno].
    split; [exact Hpage | intros E; now elim (Hno E)].
  - rewrite Hh in H. destruct (Hfile filePath st H) as [Hpage Hbare].
    split; [exact Hpage|]. intros E. exists filePath, st.
    split; [exact Hst|]. split; [exact Hh | now apply Hbare].
  - split; intros E; lia.
Qed.

(** A file response without validators and ranges. *)
Lemma serveFile_whole (fs : FileSystem) (req : Request) (filePath : string)
      (st : Stats) (opts : Options) (bytes : string) :
  getHeader (headers req) "range" = None ->
  notModified dateGetTime req st (etagFromStats st) = false ->
  (1 <= size st)%Z ->
  readBytes fs filePath = Some bytes ->
  byteLength bytes = size st ->
  serveFile Number dateGetTime toUTCString fs req filePath st opts
  = Complete
      {| statusCode := 200;
         resHeaders :=
           List.app (fileHeaders toUTCString filePath st opts)
                    [("Content-Length", dec (size st))];
         body := if isHead req then EmptyString else bytes |}.
Proof.
  intros Hr Hnm Hn Hread Hlen. unfold serveFile. cbv zeta. rewrite Hnm.
  unfold rangeDecision. rewrite Hr.
  replace (size st - 1 - 0 + 1)%Z with (size st) by lia.
  unfold writeHeadEnd, hasBody.
  destruct (isHead req); [reflexivity|].
  replace (0 <=? size st - 1)%Z with true by (symmetry; apply Z.leb_le; lia).
  cbn [andb Z.leb Z.compare negb Z.eqb]. rewrite Hread.
  unfold streamSlice, byteLength in *.
  replace (Z.to_nat (size st - 1 - 0 + 1)) with (String.length bytes) by lia.
  cbn [Z.to_nat]. now rewrite substring_all.
Qed.

(** C3 (amended).  In SPA mode, a request whose path resolves inside
    the root but names nothing that exists is answered, when the root
    [index.html] exists and can be probed, with that file as
    [serveFile] answers it for the request's own method and headers:
    the original path plays no part.  Without a [Range] header and
    without a matching validator the status is 200 and the body the
    whole of a non-empty [index.html] (no body for HEAD). *)
Theorem spa_fallback_serves_index (root : string) (opts : Options)
        (fs : FileSystem) (req : Request) (reqPath absPath : string) (ist : Stats) :
  let indexPath := Path.join (Path.resolve cwd [root]) "index.html" in
  spa opts = true ->
  pathname urlPath req = Some reqPath ->
  safeJoin cwd (Path.resolve cwd [root]) reqPath = Some absPath ->
  stat fs absPath = None ->
  access fs indexPath = true ->
  stat fs indexPath = Some ist ->
  handler cwd Number dateGetTime toUTCString urlPath root opts fs req
  = serveFile Number dateGetTime toUTCString fs req indexPath ist opts
  /\ (forall bytes,
        getHeader (headers req) "range" = None ->
        notModified dateGetTime req ist (etagFromStats ist) = false ->
        (1 <= size ist)%Z ->
        readBytes fs indexPath = Some bytes ->
        byteLength bytes = size ist ->
        handler cwd Number dateGetTime toUTCString urlPath root opts fs req
        = Complete
            {| statusCode := 200;
               resHeaders :=
                 List.app (fileHeaders toUTCString indexPath ist opts)
                          [("Content-Length", dec (size ist))];
               body := if isHead req then EmptyString else bytes |}).
Proof.
  intros indexPath Hspa Hpath Hjoin Hstat Hacc Hist.
  assert (H : handler cwd Number dateGetTime toUTCString urlPath root opts fs req
              = serveFile Number dateGetTime toUTCString fs req indexPath ist opts).
  { unfold handler. cbv zeta. rewrite Hpath, Hjoin, Hstat, Hspa.
    fold indexPath. rewrite Hacc, Hist. reflexivity. }
  split; [exact H|].
  intros bytes Hr Hnm Hn Hread Hlen. rewrite H. now apply serveFile_whole.
Qed.

End HandlerProperties.

(** C4 (the code departs from it).  The claim: a HEAD request gets the
    status code and the headers of the corresponding GET, and no body.
    For a file of size 0 the GET gets nothing: [serveFile] writes the
    head 200 with [Content-Length: 0], the read stream is asked for
    the bytes 0 to -1 and throws, and the response is never ended,
    while the HEAD request for the same file is answered 200. *)
Theorem head_answers_where_get_does_not :
  let req := Sample.get "/empty.txt" [] in
  let hs := [ ("Content-Type", "text/plain; charset=utf-8");
              ("Last-Modified", Sample.oneSecond);
              ("ETag", "W/" ++ dq ++ "0-3e8" ++ dq);
              ("Accept-Ranges", "bytes");
              ("Cache-Control", "no-cache");
              ("Content-Length", "0") ] in
  Sample.handle "/r" Sample.defaults Demo.emptyFs req = Broken 200 hs
  /\ Sample.handle "/r" Sample.defaults Demo.emptyFs (withMethod "HEAD" req)
     = Complete {| statusCode := 200; resHeaders := hs; body := EmptyString |}
  /\ (forall r, Sample.handle "/r" Sample.defaults Demo.emptyFs req <> Complete r).
Proof.
  cbv zeta. split; [vm_compute; reflexivity|]. split; [vm_compute; reflexivity|].
  intros r. vm_compute. discriminate.
Qed.

(** The request of the test suite in SPA mode: [/non-existent/path]
    under a root that holds [index.html]. *)
Lemma spa_fallback_serves_index_witness :
  exists r,
    Sample.handle "/r" Sample.spaMode Sample.siteFs
      (Sample.get "/non-existent/path" []) = Complete r
    /\ statusCode r = 200%Z /\ body r = "SPA".
Proof.
  eexists. split.
  - apply (proj2 (spa_fallback_serves_index
                    Sample.cwd Sample.Number Sample.dateGetTime Sample.toUTCString
                    Sample.urlPath "/r" Sample.spaMode Sample.siteFs
                    (Sample.get "/non-existent/path" [])
                    "/non-existent/path" "/r/non-existent/path"
                    (Sample.fileStats 3 5)
                    eq_refl eq_refl eq_refl eq_refl eq_refl eq_refl) "SPA");
      [reflexivity | reflexivity | simpl; lia | reflexivity | reflexivity].
  - split; reflexivity.
Defined.

(** C3, as stated, fails: with a matching [If-None-Match] the fallback
    answers 304, and with a [Range] header 206 and one byte. *)
Lemma spa_fallback_not_always_200 :
  (exists r,
     Sample.handle "/r" Sample.spaMode Sample.siteFs
       (Sample.get "/non-existent/path"
          [("if-none-match", "W/" ++ dq ++ "3-5" ++ dq)]) = Complete r
     /\ statusCode r = 304%Z /\ body r = EmptyString)
  /\ (exists r,
        Sample.handle "/r" Sample.spaMode Sample.siteFs
          (Sample.get "/non-existent/path" [("range", "bytes=0-0")]) = Complete r
        /\ statusCode r = 206%Z /\ body r = "S").
Proof.
  split; eexists; (split; [vm_compute; reflexivity | split; reflexivity]).
Qed.

(** A request for a file that is not there, answered with the 404
    page, and the request of the test suite [Range: bytes=10-2] on the
    four bytes of [z.txt], answered with [bytes */4] and nothing
    else. *)
Lemma error_responses_witness :
  isErrorPage (Sample.get "/missing.txt" [])
    (sendError (Sample.get "/missing.txt" []) 404 "Not Found")
  /\ exists filePath st,
       stat Sample.siteFs filePath = Some st
       /\ Sample.handle "/r" Sample.defaults Sample.siteFs
            (Sample.get "/z.txt" [("range", "bytes=10-2")])
          = serveFile Sample.Number Sample.dateGetTime Sample.toUTCString
              Sample.siteFs (Sample.get "/z.txt" [("range", "bytes=10-2")])
              filePath st Sample.defaults
       /\ isBareRange (size st)
            {| statusCode := 416;
               resHeaders := [("Content-Range", "bytes */4")];
               body := EmptyString |}.
Proof.
  split.
  - exact (proj1 (error_responses
                    Sample.cwd Sample.Number Sample.dateGetTime Sample.toUTCString
                    Sample.urlPath "/r" Sample.defaults Sample.siteFs
                    (Sample.get "/missing.txt" [])
                    (sendError (Sample.get "/missing.txt" []) 404 "Not Found")
                    eq_refl)
                 (or_intror (or_intror (or_introl eq_refl)))).
  - exact (proj2 (error_responses
                    Sample.cwd Sample.Number Sample.dateGetTime Sample.toUTCString
                    Sample.urlPath "/r" Sample.defaults Sample.siteFs
                    (Sample.get "/z.txt" [("range", "bytes=10-2")])
                    {| statusCode := 416;
                       resHeaders := [("Content-Range", "bytes */4")];
                       body := EmptyString |}
                    eq_refl)
                 eq_refl).
Defined.

(** C8, as stated, fails for 416: the request of the test suite,
    [Range: bytes=10-2] on the four bytes of [z.txt], is answered
    without a body and without a content type. *)
Lemma range_error_has_no_page :
  exists r,
    Sample.handle "/r" Sample.defaults Sample.siteFs
      (Sample.get "/z.txt" [("range", "bytes=10-2")]) = Complete r
    /\ statusCode r = 416%Z
    /\ resHeaders r = [("Content-Range", "bytes */4")]
    /\ getHeader (resHeaders r) "Content-Type" = None
    /\ body r = EmptyString.
Proof.
  eexists. split; [vm_compute; reflexivity|]. repeat split.
Qed.

(* ================================================================== *)
(** ** The directory listing *)

Section ListingProperties.
Import Str StrFacts NumFacts.

Lemma noMarkup_entity (e rest : string) :
  In e ["amp;"; "lt;"; "gt;"; "quot;"; "#39;"] ->
  noMarkup (String "&" (e ++ rest)) = noMarkup rest.
Proof.
  intros H. cbn [In] in H.
  destruct H as [<-|[<-|[<-|[<-|[<-|[]]]]]]; destruct rest; reflexivity.
Qed.

(** Escaped text holds no markup. *)
Lemma escapeHtml_noMarkup (s : string) : noMarkup (escapeHtml s) = true.
Proof.
  induction s as [|c s IH]; [reflexivity|].
  cbn [escapeHtml]. unfold escapeChar.
  destruct (Ascii.eqb c "&") eqn:E1;
    [change (noMarkup (String "&" ("amp;" ++ escapeHtml s)) = true);
     now rewrite noMarkup_entity by (cbn; auto 6)|].
  destruct (Ascii.eqb c "<") eqn:E2;
    [change (noMarkup (String "&" ("lt;" ++ escapeHtml s)) = true);
     now rewrite noMarkup_entity by (cbn; auto 6)|].
  destruct (Ascii.eqb c ">") eqn:E3;
    [change (noMarkup (String "&" ("gt;" ++ escapeHtml s)) = true);
     now rewrite noMarkup_entity by (cbn; auto 6)|].
  destruct (Ascii.eqb c (ascii_of_nat 34)) eqn:E4;
    [change (noMarkup (String "&" ("quot;" ++ escapeHtml s)) = true);
     now rewrite noMarkup_entity by (cbn; auto 6)|].
  destruct (Ascii.eqb c "'") eqn:E5;
    [change (noMarkup (String "&" ("#39;" ++ escapeHtml s)) = true);
     now rewrite noMarkup_entity by (cbn; auto 6)|].
  cbn [append noMarkup]. now rewrite E1, E2, E3, E4, E5, IH.
Qed.

Lemma encodeURI_char_safe (c : ascii) :
  allChars attrSafe (Uri.encodeURI (String c EmptyString)) = true.
Proof. destruct c as [[] [] [] [] [] [] [] []]; reflexivity. Qed.

Lemma encodeURI_cons (c : ascii) (s : string) :
  Uri.encodeURI (String c s) = Uri.encodeURI (String c EmptyString) ++ Uri.encodeURI s.
Proof. cbn [Uri.encodeURI]. now destruct (Uri.uriKeep c). Qed.

(** A percent-encoded name cannot end the attribute that holds it. *)
Lemma encodeURI_attrSafe (s : string) : allChars attrSafe (Uri.encodeURI s) = true.
Proof.
  induction s as [|c s IH]; [reflexivity|].
  now rewrite encodeURI_cons, allChars_app, encodeURI_char_safe, IH.
Qed.

Lemma occurrences_app (c : ascii) (a b : string) :
  occurrences c (a ++ b) = (occurrences c a + occurrences c b)%nat.
Proof.
  induction a as [|x a IH]; [reflexivity|].
  cbn [append occurrences]. rewrite IH. lia.
Qed.

(** The occurrences in lines joined by line feeds are those in the
    lines. *)
Lemma occurrences_lines (c : ascii) (l : list string) :
  occurrences c nl = O ->
  occurrences c (String.concat nl l) = list_sum (map (occurrences c) l).
Proof.
  intros Hnl. induction l as [|x l IH]; [reflexivity|].
  destruct l as [|y l].
  - cbn [String.concat map list_sum fold_right]. lia.
  - change (String.concat nl (x :: y :: l)) with (x ++ nl ++ String.concat nl (y :: l)).
    rewrite !occurrences_app, Hnl, IH. cbn [map list_sum fold_right]. lia.
Qed.

(** A character that can end an attribute value or open or close a tag
    does not occur in text that is safe in an attribute, nor in text
    without markup. *)
Lemma occurrences_attrSafe (c : ascii) (s : string) :
  attrSafe c = false -> allChars attrSafe s = true -> occurrences c s = O.
Proof.
  intros Hc. induction s as [|x s IH]; [reflexivity|].
  cbn [allChars occurrences]. intros H. apply andb_true_iff in H as [Hx Hs].
  rewrite (IH Hs). destruct (Ascii.eqb_spec x c) as [->|_]; [|reflexivity].
  rewrite Hc in Hx. discriminate.
Qed.

Lemma occurrences_noMarkup (c : ascii) (s : string) :
  attrSafe c = false -> noMarkup s = true -> occurrences c s = O.
Proof.
  intros Hc. induction s as [|x s IH]; [reflexivity|].
  cbn [noMarkup occurrences]. intros H. apply andb_true_iff in H as [Hx Hs].
  rewrite (IH Hs). destruct (Ascii.eqb_spec x c) as [->|_]; [|reflexivity].
  exfalso. unfold attrSafe in Hc. apply negb_false_iff in Hc.
  destruct (Ascii.eqb c "&") eqn:Eamp.
  - apply Ascii.eqb_eq in Eamp. subst c. discriminate Hc.
  - destruct (Ascii.eqb c "<"), (Ascii.eqb c ">"), (Ascii.eqb c (ascii_of_nat 34));
      discriminate.
Qed.

(** The occurrences in one line of the listing, in the line of the
    parent and in the line of the title. *)
Lemma occurrences_entry (c : ascii) (reqPath : string) (it : Dirent) :
  attrSafe c = false ->
  allChars attrSafe reqPath = true ->
  occurrences c
    ("<li><a href=" ++ dq ++ (reqPath ++ Uri.encodeURI (shownName it)) ++ dq ++ ">"
       ++ escapeHtml (shownName it) ++ "</a></li>")
  = (occurrences c "<li><a href=" + occurrences c dq + occurrences c dq
     + occurrences c ">" + occurrences c "</a></li>")%nat.
Proof.
  intros Hc Hr. rewrite !occurrences_app.
  rewrite (occurrences_attrSafe c reqPath Hc Hr),
    (occurrences_attrSafe c _ Hc (encodeURI_attrSafe (shownName it))),
    (occurrences_noMarkup c _ Hc (escapeHtml_noMarkup (shownName it))).
  lia.
Qed.

Lemma occurrences_framed (c : ascii) (before text after : string) :
  attrSafe c = false ->
  occurrences c (before ++ escapeHtml text ++ after)
  = (occurrences c before + occurrences c after)%nat.
Proof.
  intros Hc.
  rewrite !occurrences_app, (occurrences_noMarkup c _ Hc (escapeHtml_noMarkup text)).
  lia.
Qed.

Lemma list_sum_constant (A : Type) (f : A -> nat) (k : nat) (l : list A) :
  (forall x, f x = k) -> list_sum (map f l) = (k * List.length l)%nat.
Proof.
  intros H. induction l as [|x l IH]; [cbn; lia|].
  cbn [map list_sum fold_right List.length]. fold (list_sum (map f l)).
  rewrite IH, H. lia.
Qed.

(** The occurrences of a character of markup in the page of a listing
    with [n] lines. *)
Lemma occurrences_page (c : ascii) (reqPath shown : string) (items : list Dirent) :
  attrSafe c = false ->
  allChars attrSafe reqPath = true ->
  occurrences c
    (String.concat nl
       (List.app pageHead
          (List.app
             [ "<title>Index of " ++ escapeHtml shown ++ "</title>";
               "<h1>Index of " ++ escapeHtml shown ++ "</h1>";
               "<ul>" ]
             (List.app
                (if String.eqb reqPath "/" then []
                 else ["<li><a href=" ++ dq ++ ".." ++ dq ++ ">..</a></li>"])
                (List.app
                   (map (fun it =>
                           "<li><a href=" ++ dq
                             ++ (reqPath ++ Uri.encodeURI (shownName it)) ++ dq ++ ">"
                             ++ escapeHtml (shownName it) ++ "</a></li>")
                        items)
                   [ "</ul>" ])))))
  = (occurrences c (String.concat nl pageHead)
     + occurrences c "<title></title><h1></h1><ul></ul>"
     + occurrences c ("<li><a href=" ++ dq ++ dq ++ ">" ++ "</a></li>")
       * (List.length items + if String.eqb reqPath "/" then 0 else 1))%nat.
Proof.
  intros Hc Hr.
  assert (Hnl : occurrences c nl = O).
  { apply occurrences_attrSafe; [exact Hc | reflexivity]. }
  rewrite !(occurrences_lines c _ Hnl), !map_app, !list_sum_app.
  rewrite map_map.
  rewrite (list_sum_constant _ _
             (occurrences c ("<li><a href=" ++ dq ++ dq ++ ">" ++ "</a></li>")) items).
  - cbn [map list_sum fold_right].
    rewrite !(occurrences_framed c _ shown _ Hc).
    assert (Hp : list_sum
                   (map (occurrences c)
                      (if String.eqb reqPath "/" then []
                       else ["<li><a href=" ++ dq ++ ".." ++ dq ++ ">..</a></li>"]))
                 = (occurrences c ("<li><a href=" ++ dq ++ dq ++ ">" ++ "</a></li>")
                    * (if String.eqb reqPath "/" then 0 else 1))%nat).
    { unfold attrSafe in Hc. apply negb_false_iff in Hc.
      destruct (String.eqb reqPath "/"); [cbn; lia|].
      cbn [map list_sum fold_right].
      destruct (Ascii.eqb_spec c (ascii_of_nat 34)) as [->|_]; [reflexivity|].
      destruct (Ascii.eqb_spec c "<") as [->|_]; [reflexivity|].
      destruct (Ascii.eqb_spec c ">") as [->|_]; [reflexivity|].
      discriminate Hc. }
    rewrite Hp.
    unfold attrSafe in Hc. apply negb_false_iff in Hc.
    destruct (Ascii.eqb_spec c (ascii_of_nat 34)) as [->|_]; [cbn; lia|].
    destruct (Ascii.eqb_spec c "<") as [->|_]; [cbn; lia|].
    destruct (Ascii.eqb_spec c ">") as [->|_]; [cbn; lia|].
    discriminate Hc.
  - intros it. rewrite (occurrences_entry c reqPath it Hc Hr).
    rewrite !occurrences_app. lia.
Qed.

(** C9.  The page that [listDirectory] renders is the fixed head, the
    title and the heading with the escaped request path, the line of
    the parent, one line for each entry and the end of the list, and
    nothing else.  A name is written in its line twice and nowhere
    else: percent-encoded in the link target, which then holds no
    double quote and no angle bracket, and escaped as the link text
    (with a slash after a directory name).  Escaping replaces each of
    the five characters (ampersand, the two angle brackets, the double
    and the single quote) by its entity, so the shown text holds none
    of them as markup.  A file name therefore cannot inject markup:
    for a request path as the URL parser gives it, free of double
    quotes and angle brackets, the angle brackets and double quotes
    of the page are those of the template, their number fixed by the
    number of lines whatever the names are. *)
Theorem listing_escapes_names (fs : FileSystem) (dirPath reqPath page : string) :
  listDirectory fs dirPath reqPath = Some page ->
  let reqPath' := if endsWith reqPath "/" then reqPath else reqPath ++ "/" in
  exists shown items,
    Uri.decodeURI reqPath' = Some shown
    /\ readdir fs dirPath = Some items
    /\ page
       = String.concat nl
           (List.app pageHead
              (List.app
                 [ "<title>Index of " ++ escapeHtml shown ++ "</title>";
                   "<h1>Index of " ++ escapeHtml shown ++ "</h1>";
                   "<ul>" ]
                 (List.app
                    (if String.eqb reqPath' "/" then []
                     else ["<li><a href=" ++ dq ++ ".." ++ dq ++ ">..</a></li>"])
                    (List.app
                       (map (fun it =>
                               "<li><a href=" ++ dq
                                 ++ (reqPath' ++ Uri.encodeURI (shownName it)) ++ dq
                                 ++ ">" ++ escapeHtml (shownName it) ++ "</a></li>")
                            items)
                       [ "</ul>" ]))))
    /\ noMarkup (escapeHtml shown) = true
    /\ (forall it, In it items ->
          noMarkup (escapeHtml (shownName it)) = true
          /\ allChars attrSafe (Uri.encodeURI (shownName it)) = true)
    /\ (allChars attrSafe reqPath = true ->
        let lines :=
          (List.length items + if String.eqb reqPath' "/" then 0 else 1)%nat in
        occurrences "<" page = (11 + 4 * lines)%nat
        /\ occurrences ">" page = (11 + 4 * lines)%nat
        /\ occurrences (ascii_of_nat 34) page = (6 + 2 * lines)%nat)
    /\ escapeHtml ("&<>" ++ dq ++ "'") = "&amp;&lt;&gt;&quot;&#39;".
Proof.
  unfold listDirectory. cbv zeta.
  destruct (readdir fs dirPath) as [items|]; [|discriminate].
  destruct (Uri.decodeURI (if endsWith reqPath "/" then reqPath else reqPath ++ "/"))
    as [shown|]; [|discriminate].
  intros H.
  assert (E : page
              = String.concat nl
                  (listingParts
                     (if endsWith reqPath "/" then reqPath else reqPath ++ "/")
                     shown items)) by congruence.
  clear H. subst page. exists shown, items.
  split; [reflexivity|]. split; [reflexivity|].
  assert (Hpage :
            String.concat nl
              (listingParts (if endsWith reqPath "/" then reqPath else reqPath ++ "/")
                 shown items)
            = String.concat nl
                (List.app pageHead
                   (List.app
                      [ "<title>Index of " ++ escapeHtml shown ++ "</title>";
                        "<h1>Index of " ++ escapeHtml shown ++ "</h1>";
                        "<ul>" ]
                      (List.app
                         (if String.eqb
                               (if endsWith reqPath "/" then reqPath else reqPath ++ "/")
                               "/"
                          then []
                          else ["<li><a href=" ++ dq ++ ".." ++ dq ++ ">..</a></li>"])
                         (List.app
                            (map (fun it =>
                                    "<li><a href=" ++ dq
                                      ++ ((if endsWith reqPath "/" then reqPath
                                           else reqPath ++ "/")
                                          ++ Uri.encodeURI (shownName it)) ++ dq
                                      ++ ">" ++ escapeHtml (shownName it) ++ "</a></li>")
                                 items)
                            [ "</ul>" ]))))).
  { unfold listingParts, parentLine. do 4 f_equal.
    now destruct (String.eqb (if endsWith reqPath "/" then reqPath else reqPath ++ "/") "/"). }
  split; [exact Hpage|].
  split; [apply escapeHtml_noMarkup|].
  split; [intros it _; split; [apply escapeHtml_noMarkup | apply encodeURI_attrSafe]|].
  split; [|reflexivity].
  intros Hsafe. cbv zeta. rewrite Hpage.
  assert (Hsafe' : allChars attrSafe
                     (if endsWith reqPath "/" then reqPath else reqPath ++ "/") = true).
  { destruct (endsWith reqPath "/"); [exact Hsafe|].
    now rewrite allChars_app, Hsafe. }
  rewrite !(occurrences_page _ _ shown items) by (reflexivity || exact Hsafe').
  repeat split; cbn; lia.
Qed.

End ListingProperties.

(** The listing of a directory that holds a file named with the five
    special characters: the page, and the number of its angle brackets
    and double quotes. *)
Lemma listing_escapes_names_witness :
  exists page,
    listDirectory Sample.hostileFs "/r" "/" = Some page
    /\ page
       = String.concat nl
           (List.app pageHead
              [ "<title>Index of /</title>";
                "<h1>Index of /</h1>";
                "<ul>";
                "<li><a href=" ++ dq ++ "/%3Cb%3E&%22'.txt" ++ dq ++ ">"
                  ++ "&lt;b&gt;&amp;&quot;&#39;.txt" ++ "</a></li>";
                "<li><a href=" ++ dq ++ "/sub/" ++ dq ++ ">sub/</a></li>";
                "</ul>" ])
    /\ occurrences "<" page = 19%nat
    /\ occurrences ">" page = 19%nat
    /\ occurrences (ascii_of_nat 34) page = 10%nat.
Proof.
  eexists. split; [reflexivity|].
  destruct (listing_escapes_names Sample.hostileFs "/r" "/" _ eq_refl)
    as (shown & items & Hd & Hr & Hpage & _ & _ & Hcount & _).
  injection Hd as <-. injection Hr as <-.
  split; [exact Hpage|]. exact (Hcount eq_refl).
Defined.


(* ================================================================== *)
(** ** The repository's tests, replayed on the model *)

Section Replay.

Let serve (opts : Options) (req : Request) : Outcome :=
  Sample.handle "/tmp/root" opts Sample.testFs req.

Let answer (o : Outcome) : option (Z * string) :=
  match o with
  | Complete r => Some (statusCode r, body r)
  | Broken _ _ => None
  end.

Let header (o : Outcome) (h : string) : option string :=
  getHeader (outcomeHeaders o) h.

Example serves_a_static_file :
  let o := serve Sample.defaults (Sample.get "/hello.txt" []) in
  answer o = Some (200%Z, "Hello, world!")
  /\ header o "Content-Type" = Some "text/plain; charset=utf-8"
  /\ header o "ETag" = Some ("W/" ++ dq ++ "d-3e8" ++ dq)
  /\ header o "Cache-Control" = Some "no-cache"
  /\ header o "Content-Length" = Some "13".
Proof. vm_compute. repeat split. Qed.

Example conditional_304_with_if_none_match :
  answer (serve Sample.defaults
            (Sample.get "/hello.txt" [("if-none-match", "W/" ++ dq ++ "d-3e8" ++ dq)]))
  = Some (304%Z, EmptyString).
Proof. vm_compute. reflexivity. Qed.

Example conditional_304_with_if_modified_since :
  answer (serve Sample.defaults
            (Sample.get "/hello.txt" [("if-modified-since", Sample.oneSecond)]))
  = Some (304%Z, EmptyString).
Proof. vm_compute. reflexivity. Qed.

Example range_partial_and_suffix :
  let part := serve Sample.defaults (Sample.get "/r.txt" [("range", "bytes=2-5")]) in
  let suf := serve Sample.defaults (Sample.get "/r.txt" [("range", "bytes=-3")]) in
  answer part = Some (206%Z, "2345")
  /\ header part "Content-Range" = Some "bytes 2-5/10"
  /\ answer suf = Some (206%Z, "789").
Proof. vm_compute. repeat split. Qed.

Example invalid_range_returns_416 :
  let o := serve Sample.defaults (Sample.get "/r.txt" [("range", "bytes=10-2")]) in
  answer o = Some (416%Z, EmptyString)
  /\ header o "Content-Range" = Some "bytes */10".
Proof. vm_compute. repeat split. Qed.

Example head_has_no_body_but_headers :
  let o := serve Sample.defaults (withMethod "HEAD" (Sample.get "/hello.txt" [])) in
  answer o = Some (200%Z, EmptyString)
  /\ header o "Content-Length" = Some "13".
Proof. vm_compute. repeat split. Qed.

Example listing_can_be_disabled :
  outcomeStatus (serve Sample.noListing (Sample.get "/" [])) = 403%Z.
Proof. vm_compute. reflexivity. Qed.

Example serves_index_of_a_directory :
  let o := serve Sample.defaults (Sample.get "/sub/" []) in
  answer o = Some (200%Z, "<h1>Hello</h1>")
  /\ header o "Content-Type" = Some "text/html; charset=utf-8".
Proof. vm_compute. repeat split. Qed.

Example unknown_extension_is_octet_stream :
  header (serve Sample.defaults (Sample.get "/data.binx" [])) "Content-Type"
  = Some "application/octet-stream".
Proof. vm_compute. reflexivity. Qed.

Example encoded_slash_traversal_is_refused :
  outcomeStatus (serve Sample.defaults (Sample.get "/..%2foutside%2fsecret.txt" []))
  = 400%Z.
Proof. vm_compute. reflexivity. Qed.

Example double_encoded_traversal_is_not_found :
  outcomeStatus
    (serve Sample.defaults (Sample.get "/%252e%252e/outside/secret.txt" []))
  = 404%Z
  /\ outcomeStatus
       (serve Sample.defaults (Sample.get "/..%252foutside%252fsecret.txt" []))
     = 404%Z.
Proof. vm_compute. split; reflexivity. Qed.

Example backslash_is_no_separator :
  outcomeStatus (serve Sample.defaults (Sample.get "/..%5coutside%5csecret.txt" []))
  = 404%Z.
Proof. vm_compute. reflexivity. Qed.

Example resolver_normalises_slashes_and_dots :
  safeJoin Sample.cwd "/tmp/root" "//hello.txt" = Some "/tmp/root/hello.txt"
  /\ safeJoin Sample.cwd "/tmp/root" "/./hello.txt" = Some "/tmp/root/hello.txt"
  /\ safeJoin Sample.cwd "/tmp/root" "/x/../hello.txt" = Some "/tmp/root/hello.txt"
  /\ safeJoin Sample.cwd "/tmp/root" "/../outside/secret.txt" = None
  /\ safeJoin Sample.cwd "/tmp/root" "/%2e%2e/outside/secret.txt" = None.
Proof. vm_compute. repeat split. Qed.

Example nul_byte_does_not_truncate :
  outcomeStatus (serve Sample.defaults (Sample.get "/nul.txt%00.png" [])) = 404%Z.
Proof. vm_compute. reflexivity. Qed.

End Replay.

(* ================================================================== *)
(** ** More on the path resolver *)

Section ResolverShape.
Import Str StrFacts UriFacts PathFacts.

Variable cwd : string.

Lemma split_on_pieces (sep z : ascii) (s x : string) :
  In x (split_on sep s) -> includes z x = true -> includes z s = true.
Proof.
  revert x. induction s as [|c s IH]; intros x Hin Hz.
  - cbn in Hin. destruct Hin as [<-|[]]. discriminate.
  - cbn [split_on] in Hin. cbn [includes].
    destruct (Ascii.eqb c sep).
    + destruct Hin as [<-|Hin]; [discriminate|].
      rewrite (IH x Hin Hz). apply orb_true_r.
    + pose proof (split_on_nonempty sep s) as Hne.
      destruct (split_on sep s) as [|h t]; [now elim Hne|].
      destruct Hin as [<-|Hin].
      * cbn [includes] in Hz. apply orb_true_iff in Hz as [Hc|Hh].
        -- now rewrite Hc.
        -- rewrite (IH h (or_introl eq_refl) Hh). apply orb_true_r.
      * rewrite (IH x (or_intror Hin) Hz). apply orb_true_r.
Qed.

Lemma split_on_no_sep (sep : ascii) (s x : string) :
  In x (split_on sep s) -> includes sep x = false.
Proof.
  revert x. induction s as [|c s IH]; intros x Hin.
  - cbn in Hin. now destruct Hin as [<-|[]].
  - cbn [split_on] in Hin. destruct (Ascii.eqb c sep) eqn:Hc.
    + destruct Hin as [<-|Hin]; [reflexivity | now apply IH].
    + pose proof (split_on_nonempty sep s) as Hne.
      destruct (split_on sep s) as [|h t]; [now elim Hne|].
      destruct Hin as [<-|Hin].
      * cbn [includes]. rewrite Hc. apply (IH h). now left.
      * apply IH. now right.
Qed.

Lemma includes_remove_char (c : ascii) (s : string) :
  includes c (remove_char c s) = false.
Proof.
  induction s as [|d s IH]; [reflexivity|]. cbn [remove_char].
  destruct (Ascii.eqb d c) eqn:E; [exact IH|]. cbn [includes]. now rewrite E.
Qed.

(** The stack of the normalisation holds names only. *)
Lemma normStep_invariant (Q : string -> Prop) (stack : list string) (seg : string) :
  Forall (fun s => ordinary s = true /\ Q s) stack ->
  includes "/" seg = false -> Q seg ->
  Forall (fun s => ordinary s = true /\ Q s) (Path.normStep stack seg).
Proof.
  intros Hst Hslash HQ. unfold Path.normStep.
  destruct (String.eqb seg EmptyString) eqn:E1; [exact Hst|].
  destruct (String.eqb seg ".") eqn:E2; [exact Hst|].
  destruct (String.eqb seg "..") eqn:E3.
  - destruct stack; [constructor | now inversion Hst].
  - constructor; [|exact Hst]. split; [|exact HQ].
    unfold ordinary. now rewrite E1, E2, E3, Hslash.
Qed.

Lemma fold_normStep_invariant (Q : string -> Prop) (segs stack : list string) :
  Forall (fun s => ordinary s = true /\ Q s) stack ->
  Forall (fun s => includes "/" s = false /\ Q s) segs ->
  Forall (fun s => ordinary s = true /\ Q s) (fold_left Path.normStep segs stack).
Proof.
  revert stack. induction segs as [|seg segs IH]; intros stack Hst Hsegs; [exact Hst|].
  inversion Hsegs as [|? ? [Hslash HQ] Hrest]; subst. cbn [fold_left].
  apply IH; [|exact Hrest]. now apply normStep_invariant.
Qed.

Lemma Forall_ordinary_forallb (Q : string -> Prop) (l : list string) :
  Forall (fun s => ordinary s = true /\ Q s) l -> forallb ordinary l = true.
Proof.
  induction 1 as [|x l [Hx _] _ IH]; [reflexivity|]. cbn. now rewrite Hx, IH.
Qed.

(** What the normalisation of the pieces of any string keeps are
    names, and they hold no character that the string does not hold. *)
Lemma normalizeSegments_split (z : ascii) (s : string) :
  includes z s = false ->
  Forall (fun x => ordinary x = true /\ includes z x = false)
         (Path.normalizeSegments (split_on "/" s)).
Proof.
  intros Hz. unfold Path.normalizeSegments. apply Forall_rev.
  apply fold_normStep_invariant; [constructor|].
  apply Forall_forall. intros x Hx. split.
  - now apply (split_on_no_sep "/" s).
  - destruct (includes z x) eqn:E; [|reflexivity].
    rewrite (split_on_pieces "/" z s x Hx E) in Hz. discriminate.
Qed.

Lemma normalizeSegments_split_ordinary (s : string) :
  forallb ordinary (Path.normalizeSegments (split_on "/" s)) = true.
Proof.
  unfold Path.normalizeSegments.
  apply (Forall_ordinary_forallb (fun _ => True)). apply Forall_rev.
  apply fold_normStep_invariant; [constructor|].
  apply Forall_forall. intros x Hx. split; [|exact I].
  now apply (split_on_no_sep "/" s).
Qed.

(** The shape of an accepted path. *)
Lemma safeJoin_shape (root requestPath resolved : string) :
  safeJoin cwd root requestPath = Some resolved ->
  (exists segs, resolved = absPath segs /\ forallb ordinary segs = true)
  /\ (Path.isAbsolute root = true -> includes zero root = false ->
      includes zero resolved = false).
Proof.
  unfold safeJoin. cbv zeta.
  set (d := remove_char zero
              match Uri.decodeURIComponent requestPath with
              | Some d => d
              | None => "/"
              end).
  destruct (negb (startsWith (Path.resolve cwd [root; "." ++ d]) root));
    [discriminate|].
  intros [= <-]. unfold Path.resolve. split.
  - eexists. split; [reflexivity|]. apply normalizeSegments_split_ordinary.
  - intros Habs Hroot.
    destruct root as [|c r]; [discriminate|].
    assert (Hc : c = "/"%char).
    { unfold Path.isAbsolute, startsWith in Habs. cbn [String.prefix] in Habs.
      destruct (ascii_dec "/" c) as [<-|]; [reflexivity | discriminate]. }
    subst c. change (String "." d) with ("." ++ d). rewrite resolveArgs_root.
    set (full := String "/" (r ++ String "/" (String "." (d ++ "/")))).
    assert (Hfull : includes zero full = false).
    { unfold full. cbn [includes] in Hroot |- *.
      apply orb_false_iff in Hroot as [_ Hr].
      rewrite includes_app, Hr. cbn [includes orb Ascii.eqb Bool.eqb].
      rewrite includes_app. unfold d. rewrite includes_remove_char. reflexivity. }
    pose proof (normalizeSegments_split zero full Hfull) as Hall.
    change ("/" ++ String.concat "/" (Path.normalizeSegments (split_on "/" full)))
      with (String "/" (String.concat "/" (Path.normalizeSegments (split_on "/" full)))).
    cbn [includes Ascii.eqb Bool.eqb orb].
    apply includes_concat; [reflexivity|].
    apply forallb_forall. intros x Hx.
    rewrite Forall_forall in Hall. destruct (Hall x Hx) as [_ ->]. reflexivity.
Qed.

(** X1.  Whatever the request path, a path that [safeJoin] accepts is
    absolute and normalised: a slash followed by names joined by
    single slashes, none of them empty, [.] or [..].  When the root is
    absolute and holds no NUL, the accepted path holds none either. *)
Theorem safeJoin_result_normalised (root requestPath resolved : string) :
  safeJoin cwd root requestPath = Some resolved ->
  (exists segs, resolved = absPath segs /\ forallb ordinary segs = true)
  /\ (Path.isAbsolute root = true -> includes zero root = false ->
      includes zero resolved = false).
Proof. apply safeJoin_shape. Qed.

Lemma fold_normStep_inside (segs st1 st2 : list string) :
  staysInside (List.length st1) segs = true ->
  fold_left Path.normStep segs (st1 ++ st2)%list
  = (fold_left Path.normStep segs st1 ++ st2)%list.
Proof.
  revert st1. induction segs as [|seg segs IH]; intros st1 H; [reflexivity|].
  cbn [staysInside] in H. cbn [fold_left]. unfold Path.normStep at 2 4.
  destruct (String.eqb seg EmptyString); [now apply IH|].
  destruct (String.eqb seg "."); [now apply IH|].
  destruct (String.eqb seg "..").
  - destruct st1 as [|x st1]; [discriminate|]. cbn [List.length] in H.
    cbn [tl List.app]. now apply IH.
  - rewrite app_comm_cons. apply IH. exact H.
Qed.

(** X2.  A request path that never climbs above its own start (read
    from the left, its [..] segments never outnumber the names before
    them) is accepted under every normalised root, and resolves to the
    root followed by the names the path normalises to: a path within
    the root. *)
Theorem safeJoin_inside_when_not_climbing (rc : list string) (requestPath : string) :
  let decoded :=
    remove_char zero
      match Uri.decodeURIComponent requestPath with
      | Some d => d
      | None => "/"
      end in
  forallb ordinary rc = true ->
  staysInside 0 (requestSegments decoded) = true ->
  safeJoin cwd (absPath rc) requestPath
  = Some (absPath (rc ++ Path.normalizeSegments (requestSegments decoded)))
  /\ Path.within (absPath rc)
       (absPath (rc ++ Path.normalizeSegments (requestSegments decoded))) = true.
Proof.
  intros decoded Hrc Hin.
  assert (Hord : forallb ordinary (Path.normalizeSegments (requestSegments decoded))
                 = true)
    by apply normalizeSegments_split_ordinary.
  split; [|now apply within_absPath].
  unfold safeJoin. cbv zeta. fold decoded.
  assert (Hres : Path.resolve cwd [absPath rc; "." ++ decoded]
                 = absPath (rc ++ Path.normalizeSegments (requestSegments decoded))).
  { unfold Path.resolve, absPath at 1.
    change ("/" ++ String.concat "/" rc) with (String "/" (String.concat "/" rc)).
    rewrite resolveArgs_root. unfold absPath. f_equal. f_equal.
    unfold Path.normalizeSegments at 1.
    cbn [split_on Ascii.eqb Bool.eqb fold_left Path.normStep String.eqb].
    rewrite split_on_app, fold_left_app, (fold_normStep_concat _ _ Hrc).
    change (String "." (decoded ++ "/")) with (("." ++ decoded) ++ String "/" EmptyString).
    rewrite split_on_app, fold_left_app. fold (requestSegments decoded).
    cbn [split_on fold_left Path.normStep String.eqb].
    rewrite app_nil_r.
    pose proof (fold_normStep_inside (requestSegments decoded) [] (rev rc) Hin) as E.
    cbn [List.app] in E. rewrite E.
    unfold Path.normalizeSegments.
    now rewrite rev_app_distr, rev_involutive. }
  rewrite Hres, startsWith_absPath. reflexivity.
Qed.

Lemma prefix_split (a b : string) :
  String.prefix a b = true -> exists c, b = a ++ c.
Proof.
  revert b. induction a as [|x a IH]; intros b H; [now exists b|].
  destruct b as [|y b]; [discriminate|]. cbn [String.prefix] in H.
  destruct (ascii_dec x y) as [<-|]; [|discriminate].
  destruct (IH b H) as [c ->]. now exists c.
Qed.

(** Two strings without the separator that are followed by it in the
    same text are the same string. *)
Lemma first_sep_unique (c : ascii) (x y r r' : string) :
  includes c x = false -> includes c y = false ->
  x ++ String c r = y ++ String c r' -> x = y /\ r = r'.
Proof.
  revert y. induction x as [|a x IH]; intros y Hx Hy E.
  - destruct y as [|b y]; cbn [append] in E.
    + now injection E as ->.
    + injection E as <- _. cbn [includes] in Hy. now rewrite Ascii.eqb_refl in Hy.
  - cbn [includes] in Hx. apply orb_false_iff in Hx as [Ha Hx].
    destruct y as [|b y]; cbn [append] in E.
    + injection E as -> _. now rewrite Ascii.eqb_refl in Ha.
    + injection E as <- E. cbn [includes] in Hy. apply orb_false_iff in Hy as [_ Hy].
      destruct (IH y Hx Hy E) as [-> ->]. now split.
Qed.

Lemma before_sep_prefix (c : ascii) (x e y r : string) :
  includes c x = false ->
  x ++ e = y ++ String c r -> exists extra, y = x ++ extra.
Proof.
  revert y. induction x as [|a x IH]; intros y Hx E; [now exists y|].
  cbn [includes] in Hx. apply orb_false_iff in Hx as [Ha Hx].
  destruct y as [|b y]; cbn [append] in E.
  - injection E as -> _. now rewrite Ascii.eqb_refl in Ha.
  - injection E as <- E. destruct (IH y Hx E) as [extra ->]. now exists extra.
Qed.

(** When the joined names [rc] are a string prefix of the joined names
    [l], either [rc] is a prefix of [l] name by name, or the two part
    at the last name of [rc], which the name of [l] at that place
    extends. *)
Lemma prefix_concat_cases (rc : list string) :
  forall l,
    forallb ordinary rc = true -> forallb ordinary l = true ->
    String.prefix (String.concat "/" rc) (String.concat "/" l) = true ->
    Path.isPrefixOf rc l = true
    \/ exists init last extra tail,
         rc = (init ++ [last])%list /\ extra <> EmptyString
         /\ l = (init ++ (last ++ extra)%string :: tail)%list.
Proof.
  induction rc as [|x rc IH]; intros l Hrc Hl Hp; [now left|].
  cbn [forallb] in Hrc. apply andb_true_iff in Hrc as [Hx Hrc].
  destruct (ordinary_inv x Hx) as (Hxne & _ & _ & Hxs).
  apply prefix_split in Hp as [c Hc].
  destruct l as [|y l].
  - exfalso. destruct x; [discriminate|]. destruct rc; discriminate.
  - cbn [forallb] in Hl. apply andb_true_iff in Hl as [Hy Hl].
    destruct (ordinary_inv y Hy) as (_ & _ & _ & Hys).
    destruct rc as [|x2 rc].
    + assert (Hext : exists extra, y = x ++ extra).
      { destruct l as [|y2 l].
        - cbn [String.concat] in Hc. now exists c.
        - change (String.concat "/" (y :: y2 :: l))
            with (y ++ String "/" (String.concat "/" (y2 :: l))) in Hc.
          cbn [String.concat] in Hc. symmetry in Hc.
          exact (before_sep_prefix "/" x c y _ Hxs Hc). }
      destruct Hext as [extra ->].
      destruct extra as [|e extra].
      * left. rewrite append_nil_r. cbn [Path.isPrefixOf].
        now rewrite String.eqb_refl.
      * right. exists [], x, (String e extra), l. repeat split. discriminate.
    + change (String.concat "/" (x :: x2 :: rc))
        with (x ++ String "/" (String.concat "/" (x2 :: rc))) in Hc.
      destruct l as [|y2 l].
      * exfalso. cbn [String.concat] in Hc. rewrite Hc in Hys.
        rewrite append_assoc, includes_app in Hys. cbn [append includes] in Hys.
        rewrite Ascii.eqb_refl in Hys. cbn [orb] in Hys.
        now rewrite orb_true_r in Hys.
      * change (String.concat "/" (y :: y2 :: l))
          with (y ++ String "/" (String.concat "/" (y2 :: l))) in Hc.
        rewrite append_assoc in Hc. cbn [append] in Hc.
        destruct (first_sep_unique "/" y x _ _ Hys Hxs Hc) as [-> Hrest].
        assert (Hp' : String.prefix (String.concat "/" (x2 :: rc))
                                    (String.concat "/" (y2 :: l)) = true)
          by (rewrite Hrest; apply prefix_app).
        destruct (IH (y2 :: l) Hrc Hl Hp')
          as [Hpre | (init & last & extra & tail & Ei & Hne & El)].
        -- left. cbn [Path.isPrefixOf]. rewrite String.eqb_refl. exact Hpre.
        -- right. exists (x :: init), last, extra, tail.
           rewrite Ei, El. repeat split. exact Hne.
Qed.

(** X3.  What [safeJoin] accepts under a normalised root is within the
    root, with one exception: a path that parts from the root at the
    root's last name, where it has a longer name that starts with the
    root's (a sibling such as [/r-evil] for [/r]).  Nothing else
    outside the root is accepted: no ancestor of the root, no sibling
    under another name, no path elsewhere. *)
Theorem safeJoin_escapes_only_to_siblings (rc : list string)
        (requestPath resolved : string) :
  forallb ordinary rc = true ->
  safeJoin cwd (absPath rc) requestPath = Some resolved ->
  Path.within (absPath rc) resolved = true
  \/ exists init last extra tail,
       rc = (init ++ [last])%list /\ extra <> EmptyString
       /\ resolved = absPath (init ++ (last ++ extra)%string :: tail).
Proof.
  intros Hrc Hj.
  assert (Hs : startsWith resolved (absPath rc) = true).
  { unfold safeJoin in Hj. cbv zeta in Hj.
    destruct (negb (startsWith _ (absPath rc))) eqn:Hs; [discriminate|].
    injection Hj as <-. now apply negb_false_iff in Hs. }
  destruct (safeJoin_shape _ _ _ Hj) as [(l & -> & Hl) _].
  unfold startsWith, absPath in Hs. cbn [append String.prefix] in Hs.
  destruct (ascii_dec "/" "/") as [_|n]; [|now elim n].
  destruct (prefix_concat_cases rc l Hrc Hl Hs)
    as [Hpre | (init & last & extra & tail & Ei & Hne & El)].
  - left. unfold Path.within.
    now rewrite (components_absPath _ Hrc), (components_absPath _ Hl).
  - right. exists init, last, extra, tail. now rewrite El.
Qed.

End ResolverShape.

(** The path [/a//b/./c/../d%00.png] under the root [/r]. *)
Lemma safeJoin_result_normalised_witness :
  (exists segs, "/r/a/b/d.png" = absPath segs /\ forallb ordinary segs = true)
  /\ (Path.isAbsolute "/r" = true -> Str.includes zero "/r" = false ->
      Str.includes zero "/r/a/b/d.png" = false).
Proof.
  exact (safeJoin_result_normalised Sample.cwd "/r" "/a//b/./c/../d%00.png"
           "/r/a/b/d.png" eq_refl).
Defined.

Lemma safeJoin_inside_when_not_climbing_witness :
  safeJoin Sample.cwd (absPath ["r"]) "/a//b/./c/../d%00.png" = Some "/r/a/b/d.png"
  /\ Path.within (absPath ["r"]) "/r/a/b/d.png" = true.
Proof.
  exact (safeJoin_inside_when_not_climbing Sample.cwd ["r"] "/a//b/./c/../d%00.png"
           eq_refl eq_refl).
Defined.

(** The two cases of the theorem: a path below [/r], and the sibling
    [/r-evil]. *)
Lemma safeJoin_escapes_only_to_siblings_witness :
  (Path.within (absPath ["r"]) "/r/a/b/d.png" = true
   \/ exists init last extra tail,
        ["r"] = (init ++ [last])%list /\ extra <> EmptyString
        /\ "/r/a/b/d.png" = absPath (init ++ (last ++ extra)%string :: tail))
  /\ (Path.within (absPath ["r"]) "/r-evil/secret.txt" = true
      \/ exists init last extra tail,
           ["r"] = (init ++ [last])%list /\ extra <> EmptyString
           /\ "/r-evil/secret.txt" = absPath (init ++ (last ++ extra)%string :: tail)).
Proof.
  split.
  - exact (safeJoin_escapes_only_to_siblings Sample.cwd ["r"]
             "/a//b/./c/../d%00.png" "/r/a/b/d.png" eq_refl eq_refl).
  - exact (safeJoin_escapes_only_to_siblings Sample.cwd ["r"]
             "/..%2fr-evil/secret.txt" "/r-evil/secret.txt" eq_refl eq_refl).
Defined.

(* ================================================================== *)
(** ** The links of the listing *)

Section ListingLinks.
Import Str StrFacts UriFacts PathFacts NumFacts.

Variable cwd : string.

Lemma encodeURI_char_decodes (c : ascii) :
  isAscii c = true ->
  Uri.decodeURIComponent (Uri.encodeURI (String c EmptyString))
  = Some (String c EmptyString).
Proof.
  destruct c as [[] [] [] [] [] [] [] []]; intros H;
    first [discriminate H | reflexivity].
Qed.

Lemma encodeURI_step (c : ascii) (s : string) :
  Uri.encodeURI (String c s)
  = Uri.encodeURI (String c EmptyString) ++ Uri.encodeURI s.
Proof. cbn [Uri.encodeURI]. now destruct (Uri.uriKeep c). Qed.

Lemma encodeURI_app (a b : string) :
  Uri.encodeURI (a ++ b) = Uri.encodeURI a ++ Uri.encodeURI b.
Proof.
  induction a as [|c a IH]; [reflexivity|].
  cbn [append]. rewrite (encodeURI_step c (a ++ b)), (encodeURI_step c a), IH.
  now rewrite append_assoc.
Qed.

Lemma encodeURI_decodes (s : string) :
  allChars isAscii s = true ->
  Uri.decodeURIComponent (Uri.encodeURI s) = Some s.
Proof.
  induction s as [|c s IH]; [reflexivity|]. cbn [allChars].
  intros H. apply andb_true_iff in H as [Hc Hs].
  rewrite encodeURI_step.
  now rewrite (decodeURIComponent_app _ _ (String c EmptyString) s
                 (encodeURI_char_decodes c Hc) (IH Hs)).
Qed.

Lemma dirPath_entry (dir : list string) (entry : string) :
  dirPath dir ++ entry = absPath (dir ++ [entry]).
Proof.
  unfold absPath. induction dir as [|d dir IH]; [reflexivity|].
  cbn [dirPath List.app]. rewrite !append_assoc, IH.
  cbn [append]. f_equal.
  destruct dir; reflexivity.
Qed.

Lemma dirPath_decodes (dir : list string) :
  forallb plainSeg dir = true ->
  Uri.decodeURIComponent (dirPath dir) = Some (dirPath dir).
Proof.
  intros H. apply decodeURIComponent_plain.
  induction dir as [|d dir IH]; [reflexivity|].
  cbn [forallb] in H. apply andb_true_iff in H as [Hd Hdir].
  cbn [dirPath append includes Ascii.eqb Bool.eqb orb].
  rewrite includes_app, (IH Hdir), orb_false_r.
  unfold plainSeg in Hd. apply andb_true_iff in Hd as [Hd _].
  apply andb_true_iff in Hd as [_ Hd]. now apply negb_true_iff.
Qed.

Lemma encodeURI_char_keeps_target (c : ascii) :
  Ascii.eqb c "?" || Ascii.eqb c "#" = false ->
  includes "?" (Uri.encodeURI (String c EmptyString)) = false
  /\ includes "#" (Uri.encodeURI (String c EmptyString)) = false.
Proof.
  destruct c as [[] [] [] [] [] [] [] []]; intros H;
    first [discriminate H | split; reflexivity].
Qed.

Lemma encodeURI_keeps_target (s : string) :
  includes "?" s = false -> includes "#" s = false ->
  includes "?" (Uri.encodeURI s) = false /\ includes "#" (Uri.encodeURI s) = false.
Proof.
  induction s as [|c s IH]; [now split|].
  cbn [includes]. intros H1 H2.
  apply orb_false_iff in H1 as [Hc1 Hs1]. apply orb_false_iff in H2 as [Hc2 Hs2].
  destruct (IH Hs1 Hs2) as [I1 I2].
  destruct (encodeURI_char_keeps_target c) as [K1 K2]; [now rewrite Hc1, Hc2|].
  rewrite encodeURI_step, !includes_app, K1, K2, I1, I2. now split.
Qed.

Lemma beforeQuery_stop (x y : string) (c : ascii) :
  includes "?" x = false -> includes "#" x = false ->
  Ascii.eqb c "?" || Ascii.eqb c "#" = true ->
  beforeQuery (x ++ String c y) = x.
Proof.
  intros H1 H2 Hc. induction x as [|a x IH].
  - cbn [append beforeQuery]. now rewrite Hc.
  - cbn [includes] in H1, H2.
    apply orb_false_iff in H1 as [Ha1 Hx1]. apply orb_false_iff in H2 as [Ha2 Hx2].
    cbn [append beforeQuery]. now rewrite Ha1, Ha2, (IH Hx1 Hx2).
Qed.

Lemma beforeQuery_whole (s : string) :
  includes "?" s = false -> includes "#" s = false -> beforeQuery s = s.
Proof.
  induction s as [|c s IH]; [reflexivity|].
  cbn [includes beforeQuery]. intros H1 H2.
  apply orb_false_iff in H1 as [Hc1 Hs1]. apply orb_false_iff in H2 as [Hc2 Hs2].
  now rewrite Hc1, Hc2, (IH Hs1 Hs2).
Qed.

Lemma forallb_linkSeg_plain (dir : list string) :
  forallb linkSeg dir = true -> forallb plainSeg dir = true.
Proof.
  induction dir as [|d dir IH]; [reflexivity|]. cbn [forallb].
  intros H. apply andb_true_iff in H as [Hd Hdir]. rewrite (IH Hdir), andb_true_r.
  unfold linkSeg in Hd. apply andb_true_iff in Hd as [Hd _].
  now apply andb_true_iff in Hd as [Hd _].
Qed.

Lemma dirPath_no_mark (dir : list string) :
  forallb linkSeg dir = true ->
  includes "?" (dirPath dir) = false /\ includes "#" (dirPath dir) = false.
Proof.
  induction dir as [|d dir IH]; [now split|]. cbn [forallb].
  intros H. apply andb_true_iff in H as [Hd Hdir]. destruct (IH Hdir) as [I1 I2].
  unfold linkSeg in Hd. apply andb_true_iff in Hd as [Hd H2].
  apply andb_true_iff in Hd as [_ H1]. apply negb_true_iff in H1, H2.
  cbn [dirPath append includes Ascii.eqb Bool.eqb orb].
  now rewrite !includes_app, H1, H2, I1, I2.
Qed.

(** X4.  The link that the listing makes for an entry leads back to
    the entry.  For a directory whose request path is made of plain
    names (no percent sign, NUL, question mark or hash) and an entry
    whose name is in ASCII, is not a dot segment and holds no slash,
    NUL, question mark or hash: the link target that [listDirectory]
    writes is the request path followed by the percent-encoded name;
    sent as a request target that the URL parser leaves as it is, the
    handler reads it whole as the path, and the resolver maps it to
    the path of the entry in that directory. *)
Theorem listing_link_leads_back (urlPath : string -> string -> option string)
        (rc dir : list string) (entry : string) (req : Request) :
  let href := dirPath dir ++ Uri.encodeURI entry in
  forallb ordinary rc = true ->
  forallb linkSeg dir = true ->
  allChars isAscii entry = true ->
  ordinary entry = true ->
  includes zero entry = false ->
  includes "?" entry = false ->
  includes "#" entry = false ->
  url req = href ->
  (forall base, urlPath base href = Some href) ->
  entryLine (dirPath dir) {| name := entry; entIsDirectory := false |}
  = "<li><a href=" ++ dq ++ href ++ dq ++ ">" ++ escapeHtml entry ++ "</a></li>"
  /\ pathname urlPath req = Some href
  /\ Uri.decodeURIComponent href = Some (dirPath dir ++ entry)
  /\ safeJoin cwd (absPath rc) href = Some (absPath (rc ++ dir ++ [entry])).
Proof.
  intros href Hrc Hlink Hascii Hord Hnul Hq Hh Hurl Hparse.
  pose proof (forallb_linkSeg_plain dir Hlink) as Hdir.
  assert (Hdec : Uri.decodeURIComponent href = Some (dirPath dir ++ entry)).
  { apply decodeURIComponent_app;
      [now apply dirPath_decodes | now apply encodeURI_decodes]. }
  split; [|split; [|split; [exact Hdec|]]].
  - unfold entryLine. cbn [name entIsDirectory]. cbv zeta.
    now rewrite append_nil_r.
  - unfold pathname. rewrite Hurl, beforeQuery_whole; [apply Hparse| |].
    + unfold href. rewrite includes_app, (proj1 (dirPath_no_mark dir Hlink)).
      now rewrite (proj1 (encodeURI_keeps_target entry Hq Hh)).
    + unfold href. rewrite includes_app, (proj2 (dirPath_no_mark dir Hlink)).
      now rewrite (proj2 (encodeURI_keeps_target entry Hq Hh)).
  - unfold safeJoin. cbv zeta. rewrite Hdec, dirPath_entry.
    assert (Hall : forallb ordinary (dir ++ [entry]) = true).
    { rewrite forallb_app. cbn [forallb].
      now rewrite (forallb_plainSeg_ordinary _ Hdir), Hord. }
    rewrite remove_char_absent.
    + rewrite (resolve_absPath cwd rc _ Hrc Hall), startsWith_absPath. reflexivity.
    + unfold absPath. cbn [append includes Ascii.eqb Bool.eqb orb].
      apply includes_concat; [reflexivity|].
      rewrite forallb_app. cbn [forallb].
      rewrite (forallb_plainSeg_absent zero dir), Hnul by (auto || assumption).
      reflexivity.
Qed.

(** X5.  [encodeURI] leaves the question mark and the hash of a name
    as they are, so the link of an entry whose name holds one of them
    does not lead to the entry: of the link as a request target, the
    path that the handler reads stops before that character. *)
Theorem listing_link_cut_at_query (reqPath a b : string) (c : ascii) :
  includes "?" reqPath = false -> includes "#" reqPath = false ->
  includes "?" a = false -> includes "#" a = false ->
  c = "?"%char \/ c = "#"%char ->
  beforeQuery (reqPath ++ Uri.encodeURI (a ++ String c b))
  = reqPath ++ Uri.encodeURI a.
Proof.
  intros Hr1 Hr2 Ha1 Ha2 Hc.
  destruct (encodeURI_keeps_target a Ha1 Ha2) as [E1 E2].
  rewrite encodeURI_app, (encodeURI_step c b), <- append_assoc.
  assert (Hk : Uri.encodeURI (String c EmptyString) = String c EmptyString)
    by (destruct Hc as [-> | ->]; reflexivity).
  rewrite Hk. cbn [append].
  apply beforeQuery_stop.
  - now rewrite includes_app, Hr1, E1.
  - now rewrite includes_app, Hr2, E2.
  - destruct Hc as [-> | ->]; reflexivity.
Qed.

End ListingLinks.

(** The entry [50% off.txt] in the listing of [/docs/] under [/r]. *)
Lemma listing_link_leads_back_witness :
  entryLine "/docs/" {| name := "50% off.txt"; entIsDirectory := false |}
  = "<li><a href=" ++ dq ++ "/docs/50%25%20off.txt" ++ dq ++ ">"
      ++ "50% off.txt" ++ "</a></li>"
  /\ pathname Sample.urlPath (Sample.get "/docs/50%25%20off.txt" [])
     = Some "/docs/50%25%20off.txt"
  /\ Uri.decodeURIComponent "/docs/50%25%20off.txt" = Some "/docs/50% off.txt"
  /\ safeJoin Sample.cwd "/r" "/docs/50%25%20off.txt" = Some "/r/docs/50% off.txt".
Proof.
  exact (listing_link_leads_back Sample.cwd Sample.urlPath ["r"] ["docs"] "50% off.txt"
           (Sample.get "/docs/50%25%20off.txt" [])
           eq_refl eq_refl eq_refl eq_refl eq_refl eq_refl eq_refl eq_refl
           (fun base => eq_refl)).
Defined.

(** The entry [what?.txt] in the listing of [/docs/]. *)
Lemma listing_link_cut_at_query_witness :
  beforeQuery ("/docs/" ++ Uri.encodeURI ("what" ++ String "?" ".txt"))
  = "/docs/" ++ Uri.encodeURI "what".
Proof.
  exact (listing_link_cut_at_query "/docs/" "what" ".txt" "?"
           eq_refl eq_refl eq_refl eq_refl (or_introl eq_refl)).
Defined.

(* ================================================================== *)
(** ** More on escaping *)

Section Escaping.
Import Str StrFacts NumFacts.

Lemma escapeChar_cases (c : ascii) :
  (isSpecial c = false /\ escapeChar c = String c EmptyString)
  \/ (isSpecial c = true
      /\ ((c = "&"%char /\ escapeChar c = "&amp;")
          \/ (c = "<"%char /\ escapeChar c = "&lt;")
          \/ (c = ">"%char /\ escapeChar c = "&gt;")
          \/ (c = ascii_of_nat 34 /\ escapeChar c = "&quot;")
          \/ (c = "'"%char /\ escapeChar c = "&#39;"))).
Proof.
  unfold escapeChar, isSpecial.
  destruct (Ascii.eqb_spec c "&") as [->|]; [right; split; auto|].
  destruct (Ascii.eqb_spec c "<") as [->|]; [right; split; auto|].
  destruct (Ascii.eqb_spec c ">") as [->|]; [right; split; auto 6|].
  destruct (Ascii.eqb_spec c (ascii_of_nat 34)) as [->|]; [right; split; auto 8|].
  destruct (Ascii.eqb_spec c "'") as [->|]; [right; split; auto 10|].
  now left.
Qed.

Lemma escapeChar_cancel (c d : ascii) (x y : string) :
  escapeChar c ++ x = escapeChar d ++ y -> c = d /\ x = y.
Proof.
  destruct (escapeChar_cases c)
    as [[Hc ->] | [Hc [[-> ->] | [[-> ->] | [[-> ->] | [[-> ->] | [-> ->]]]]]]];
  destruct (escapeChar_cases d)
    as [[Hd ->] | [Hd [[-> ->] | [[-> ->] | [[-> ->] | [[-> ->] | [-> ->]]]]]]];
  cbn [append]; intros E;
    try (injection E; intros; subst; split; reflexivity);
    try discriminate E;
    try (injection E; intros; subst; discriminate).
Qed.

Lemma escapeHtml_length (s : string) :
  (String.length s <= String.length (escapeHtml s))%nat.
Proof.
  induction s as [|c s IH]; [apply le_n|]. cbn [escapeHtml String.length].
  rewrite length_append.
  destruct (escapeChar_cases c)
    as [[_ ->] | [_ [[_ ->] | [[_ ->] | [[_ ->] | [[_ ->] | [_ ->]]]]]]];
    cbn [String.length]; lia.
Qed.

(** X6.  [escapeHtml] loses nothing and adds nothing: two different
    texts are escaped to different texts, the escape of a
    concatenation is the concatenation of the escapes, and a text is
    left as it is exactly when it holds none of the five special
    characters. *)
Theorem escapeHtml_faithful :
  (forall a b, escapeHtml a = escapeHtml b -> a = b)
  /\ (forall a b, escapeHtml (a ++ b) = escapeHtml a ++ escapeHtml b)
  /\ (forall s, escapeHtml s = s <-> allChars (fun c => negb (isSpecial c)) s = true).
Proof.
  split; [|split].
  - induction a as [|c a IH]; intros b E.
    + destruct b as [|d b]; [reflexivity|]. cbn [escapeHtml] in E.
      destruct (escapeChar_cases d)
        as [[_ Hd] | [_ [[_ Hd] | [[_ Hd] | [[_ Hd] | [[_ Hd] | [_ Hd]]]]]]];
        rewrite Hd in E; discriminate E.
    + destruct b as [|d b]; cbn [escapeHtml] in E.
      * destruct (escapeChar_cases c)
          as [[_ Hc] | [_ [[_ Hc] | [[_ Hc] | [[_ Hc] | [[_ Hc] | [_ Hc]]]]]]];
          rewrite Hc in E; discriminate E.
      * apply escapeChar_cancel in E as [-> E]. now rewrite (IH b E).
  - induction a as [|c a IH]; intros b; [reflexivity|].
    cbn [append escapeHtml]. now rewrite IH, append_assoc.
  - induction s as [|c s IH]; [now split|].
    cbn [escapeHtml allChars]. split.
    + intros E.
      destruct (escapeChar_cases c)
        as [[Hc Hk] | [_ [[-> Hk] | [[-> Hk] | [[-> Hk] | [[-> Hk] | [-> Hk]]]]]]];
        rewrite Hk in E; cbn [append] in E; try discriminate E.
      * injection E as E. now rewrite Hc, (proj1 IH E).
      * injection E as E. exfalso.
        pose proof (escapeHtml_length s) as Hlen.
        rewrite <- E in Hlen at 1. cbn [String.length] in Hlen. lia.
    + intros H. apply andb_true_iff in H as [Hc Hs]. apply negb_true_iff in Hc.
      destruct (escapeChar_cases c) as [[_ ->] | [Hc' _]]; [|congruence].
      cbn [append]. now rewrite (proj2 IH Hs).
Qed.

End Escaping.

(* ================================================================== *)
(** ** Content types and validators *)

Section TypesAndTags.
Import Str StrFacts NumFacts.

Lemma basename_of_file (dir file : string) :
  includes "/" file = false ->
  Path.basename (dir ++ "/" ++ file) = file.
Proof.
  intros H. unfold Path.basename.
  change ("/" ++ file) with (String "/" file).
  rewrite split_on_app, (split_on_absent _ _ H). apply last_last.
Qed.

Lemma lastDot_none (s : string) : includes "." s = false -> Path.lastDot s = None.
Proof.
  induction s as [|c s IH]; [reflexivity|]. cbn [includes Path.lastDot].
  intros H. apply orb_false_iff in H as [Hc Hs]. now rewrite (IH Hs), Hc.
Qed.

Lemma lastDot_app (r ext : string) :
  includes "." ext = false ->
  Path.lastDot (r ++ String "." ext) = Some (String "." ext).
Proof.
  intros H. induction r as [|c r IH]; cbn [append Path.lastDot].
  - now rewrite (lastDot_none _ H).
  - now rewrite IH.
Qed.

Lemma contentType_of_ext (p ext : string) :
  Path.extname p = String "." ext ->
  contentTypeFor p
  = match getHeader MIME (toLowerCase ext) with
    | Some t => t
    | None => "application/octet-stream"
    end.
Proof. unfold contentTypeFor. now intros ->. Qed.

(** X7.  The content type of a file is decided by what follows the
    last dot of its name, read without regard to case, whatever the
    directory: a type of the table when the extension is listed,
    [application/octet-stream] otherwise.  A name whose only dot is
    its first character has no extension and is served as
    [application/octet-stream], even [.html]. *)
Theorem contentType_by_extension (dir base ext : string) :
  base <> EmptyString ->
  includes "/" base = false ->
  includes "/" ext = false ->
  includes "." ext = false ->
  contentTypeFor (dir ++ "/" ++ base ++ "." ++ ext)
  = match getHeader MIME (toLowerCase ext) with
    | Some t => t
    | None => "application/octet-stream"
    end
  /\ contentTypeFor (dir ++ "/" ++ "." ++ ext) = "application/octet-stream".
Proof.
  intros Hbase Hbs Hes Hed. split.
  - destruct base as [|c rest]; [now elim Hbase|].
    assert (Hfile : includes "/" (String c rest ++ "." ++ ext) = false)
      by (rewrite includes_app, Hbs; cbn [append includes]; now rewrite Hes).
    destruct ext as [|e ext'].
    + unfold contentTypeFor, Path.extname. rewrite (basename_of_file _ _ Hfile).
      cbn [append].
      destruct (String.eqb (String c (rest ++ ".")) ".."); [reflexivity|].
      now rewrite (lastDot_app rest EmptyString eq_refl).
    + apply contentType_of_ext. unfold Path.extname.
      rewrite (basename_of_file _ _ Hfile). cbn [append].
      destruct (String.eqb_spec (String c (rest ++ String "." (String e ext'))) "..")
        as [E|_].
      * exfalso. injection E as _ E. destruct rest as [|r rest].
        -- cbn [append] in E. discriminate E.
        -- cbn [append] in E. injection E as _ E. destruct rest; discriminate E.
      * now rewrite (lastDot_app rest _ Hed).
  - unfold contentTypeFor, Path.extname.
    assert (Hfile : includes "/" ("." ++ ext) = false)
      by (cbn [append includes]; now rewrite Hes).
    rewrite (basename_of_file _ _ Hfile). cbn [append].
    destruct (String.eqb (String "." ext) ".."); [reflexivity|].
    now rewrite (lastDot_none _ Hed).
Qed.

Lemma hex_uint_digits (d : Hexadecimal.uint) :
  allChars isHexDigit (HexadecimalString.NilEmpty.string_of_uint d) = true.
Proof. induction d; cbn; auto. Qed.

Lemma hex_digits (z : Z) : (0 <= z)%Z -> allChars isHexDigit (hex z) = true.
Proof.
  intros Hz. unfold hex. destruct z as [|p|p]; [reflexivity| |lia].
  unfold HexadecimalString.NilZero.string_of_uint.
  pose proof (hex_uint_digits (N.to_hex_uint (Z.to_N (Z.pos p)))) as H.
  destruct (N.to_hex_uint (Z.to_N (Z.pos p))); exact H.
Qed.

Lemma to_hex_uint_nonnil (n : N) : N.to_hex_uint n <> Hexadecimal.Nil.
Proof.
  intros E. pose proof (HexadecimalN.Unsigned.of_to n) as H. rewrite E in H.
  cbn in H. subst n. discriminate E.
Qed.

Lemma hex_inj (a b : Z) : (0 <= a)%Z -> (0 <= b)%Z -> hex a = hex b -> a = b.
Proof.
  intros Ha Hb E.
  assert (Hn : forall z, (0 <= z)%Z ->
            hex z = HexadecimalString.NilZero.string_of_uint (N.to_hex_uint (Z.to_N z))).
  { intros z Hz. unfold hex. destruct z; [reflexivity | reflexivity | lia]. }
  rewrite (Hn a Ha), (Hn b Hb) in E.
  apply (f_equal HexadecimalString.NilZero.uint_of_string) in E.
  rewrite !HexadecimalString.NilZero.usu in E by apply to_hex_uint_nonnil.
  injection E as E. apply HexadecimalN.Unsigned.to_uint_inj in E. lia.
Qed.

(** X8.  Two files carry the same ETag exactly when they have the
    same size and the same modification time: the validator tells any
    two such pairs apart, and looks at nothing else. *)
Theorem etag_identifies_size_and_mtime (st1 st2 : Stats) :
  (0 <= size st1)%Z -> (0 <= mtimeMs st1)%Z ->
  (0 <= size st2)%Z -> (0 <= mtimeMs st2)%Z ->
  etagFromStats st1 = etagFromStats st2
  <-> size st1 = size st2 /\ mtimeMs st1 = mtimeMs st2.
Proof.
  intros Hs1 Hm1 Hs2 Hm2. split.
  - unfold etagFromStats. cbv zeta. cbn [append dq]. intros E.
    injection E as E.
    assert (Hdash : forall z, (0 <= z)%Z -> includes "-" (hex z) = false)
      by (intros z Hz; now apply (allChars_absent isHexDigit), hex_digits).
    assert (Hquote : forall z, (0 <= z)%Z ->
              includes (ascii_of_nat 34) (hex z) = false)
      by (intros z Hz; now apply (allChars_absent isHexDigit), hex_digits).
    destruct (first_sep_unique "-" _ _ _ _ (Hdash _ Hs1) (Hdash _ Hs2) E) as [E1 E2].
    destruct (first_sep_unique (ascii_of_nat 34) _ _ _ _
                (Hquote _ Hm1) (Hquote _ Hm2) E2) as [E3 _].
    split; now apply hex_inj.
  - unfold etagFromStats. now intros [-> ->].
Qed.

End TypesAndTags.

Lemma contentType_by_extension_witness :
  contentTypeFor ("/r/docs" ++ "/" ++ "INDEX.old" ++ "." ++ "HtMl")
  = "text/html; charset=utf-8"
  /\ contentTypeFor ("/r/docs" ++ "/" ++ "." ++ "HtMl") = "application/octet-stream".
Proof.
  exact (contentType_by_extension "/r/docs" "INDEX.old" "HtMl"
           ltac:(discriminate) eq_refl eq_refl eq_refl).
Defined.

Lemma etag_identifies_size_and_mtime_witness :
  etagFromStats (Sample.fileStats 4 1000) = etagFromStats Sample.dirStats
  <-> size (Sample.fileStats 4 1000) = size Sample.dirStats
      /\ mtimeMs (Sample.fileStats 4 1000) = mtimeMs Sample.dirStats.
Proof.
  apply etag_identifies_size_and_mtime; cbn; lia.
Defined.

(* ================================================================== *)
(** ** More on file responses *)

Section FileResponses.
Import Str StrFacts NumFacts.

Variable Number : string -> option Z.
Variable dateGetTime : string -> option Z.
Variable toUTCString : Z -> string.

(** The two ways out of the range block with a body to send. *)
Lemma rangeDecision_shape (req : Request) (n start end_ code : Z) (extra : Headers) :
  rangeDecision Number req n = Some (start, end_, code, extra) ->
  (code = 200%Z /\ start = 0%Z /\ end_ = (n - 1)%Z /\ extra = [])
  \/ (code = 206%Z /\ (0 <= start <= end_)%Z /\ (end_ < n)%Z
      /\ extra = [("Content-Range",
                   "bytes " ++ dec start ++ "-" ++ dec end_ ++ "/" ++ dec n)]).
Proof.
  unfold rangeDecision.
  destruct (getHeader (headers req) "range") as [r|];
    [|intros [= <- <- <- <-]; left; auto].
  destruct (truthy (Some r) && String.prefix "bytes=" r);
    [|intros [= <- <- <- <-]; left; auto].
  destruct (parseRange Number r n) as [[s e]|] eqn:Hp; [|discriminate].
  intros [= <- <- <- <-]. right.
  apply parseRange_bounds in Hp. repeat split; lia.
Qed.

(** X9.  A response that sends a file, whole or in part, announces the
    length of the body it sends: for a request other than HEAD and a
    file whose content has the size that [stat] reported, the
    [Content-Length] of a 200 or 206 response is the number of bytes
    of its body. *)
Theorem content_length_matches_body (fs : FileSystem) (req : Request)
        (filePath : string) (st : Stats) (opts : Options)
        (bytes : string) (r : Response) :
  serveFile Number dateGetTime toUTCString fs req filePath st opts = Complete r ->
  isHead req = false ->
  readBytes fs filePath = Some bytes ->
  byteLength bytes = size st ->
  statusCode r = 200%Z \/ statusCode r = 206%Z ->
  getHeader (resHeaders r) "Content-Length" = Some (dec (byteLength (body r))).
Proof.
  unfold serveFile. cbv zeta. intros H Hhead Hread Hlen Hst.
  destruct (notModified dateGetTime req st (etagFromStats st)).
  { injection H as <-. cbn in Hst. lia. }
  destruct (rangeDecision Number req (size st)) as [[[[s e] code] extra]|] eqn:Hr.
  2:{ injection H as <-. cbn in Hst. lia. }
  rewrite Hhead in H.
  destruct ((0 <=? s)%Z && (s <=? e)%Z) eqn:Hse; [|discriminate].
  rewrite Hread in H. injection H as <-.
  apply andb_true_iff in Hse as [Hs Hle]. apply Z.leb_le in Hs, Hle.
  assert (Hbody : hasBody req code = true).
  { apply rangeDecision_status in Hr. unfold hasBody. rewrite Hhead.
    destruct Hr as [-> | ->]; reflexivity. }
  assert (Hslice : byteLength (streamSlice bytes s e) = (e - s + 1)%Z).
  { apply rangeDecision_shape in Hr.
    unfold byteLength, streamSlice in *. rewrite substring_length; lia. }
  unfold writeHeadEnd. cbn [resHeaders body]. rewrite Hbody, Hslice.
  apply rangeDecision_shape in Hr.
  destruct Hr as [(_ & _ & _ & ->) | (_ & _ & _ & ->)]; reflexivity.
Qed.

(** X10.  Of several ranges separated by commas only the first is
    read: what follows the first comma of the header has no part in
    the range that is served. *)
Theorem first_range_only (first others : string) (n : Z) :
  includes "," first = false ->
  parseRange Number ("bytes=" ++ first ++ "," ++ others) n
  = parseRange Number ("bytes=" ++ first) n.
Proof.
  intros H. unfold parseRange. rewrite !replaceFirst_prefix.
  change ("," ++ others) with (String "," others).
  now rewrite split_on_app, !(split_on_absent _ _ H).
Qed.

(** X11.  A range without an end, [bytes=a-], runs to the end of the
    file: it is served from [a] to [N-1] with status 206 when
    [a < N], and refused with 416 when [a >= N]. *)
Theorem open_ended_range (fs : FileSystem) (req : Request) (filePath : string)
        (st : Stats) (opts : Options) (a : Z) :
  (0 <= a)%Z ->
  Number (dec a) = Some a ->
  getHeader (headers req) "range" = Some ("bytes=" ++ dec a ++ "-") ->
  notModified dateGetTime req st (etagFromStats st) = false ->
  parseRange Number ("bytes=" ++ dec a ++ "-") (size st)
  = (if (a <? size st)%Z then Some (a, size st - 1)%Z else None)
  /\ outcomeStatus (serveFile Number dateGetTime toUTCString fs req filePath st opts)
     = (if (a <? size st)%Z then 206%Z else 416%Z)
  /\ getHeader
       (outcomeHeaders (serveFile Number dateGetTime toUTCString fs req filePath st opts))
       "Content-Range"
     = Some (if (a <? size st)%Z
             then "bytes " ++ dec a ++ "-" ++ dec (size st - 1) ++ "/" ++ dec (size st)
             else "bytes */" ++ dec (size st)).
Proof.
  intros Ha Na Hh Hnm.
  assert (Hp : parseRange Number ("bytes=" ++ dec a ++ "-") (size st)
               = if (a <? size st)%Z then Some (a, size st - 1)%Z else None).
  { change ("bytes=" ++ dec a ++ "-") with ("bytes=" ++ dec a ++ "-" ++ EmptyString).
    rewrite parseRange_numerals by (reflexivity || now apply dec_digits).
    unfold rangeOfParts. destruct (dec_digits a Ha) as [_ Hne].
    destruct (dec a) as [|c r] eqn:E; [congruence|]. rewrite Na.
    destruct (a <? size st)%Z eqn:Hlt.
    - apply Z.ltb_lt in Hlt.
      replace (a <=? size st - 1)%Z with true by (symmetry; apply Z.leb_le; lia).
      rewrite Z.max_r, Z.min_id by lia.
      now replace (a <=? size st - 1)%Z with true by (symmetry; apply Z.leb_le; lia).
    - destruct (a <=? size st - 1)%Z; reflexivity. }
  split; [exact Hp|].
  destruct (a <? size st)%Z.
  - destruct (serveFile_satisfiable Number dateGetTime toUTCString
                fs req filePath st opts _ _ _ Hnm Hh Hp)
      as (r & -> & Hst & Hcr & _). cbn [outcomeStatus outcomeHeaders]. now split.
  - rewrite (serveFile_unsatisfiable Number dateGetTime toUTCString
               fs req filePath st opts _ Hnm Hh Hp).
    split; reflexivity.
Qed.

Lemma includes_substring (c : ascii) (s : string) (n m : nat) :
  includes c (String.substring n m s) = true -> includes c s = true.
Proof.
  revert n m. induction s as [|d s IH]; intros n m H.
  - destruct n, m; discriminate H.
  - cbn [includes]. destruct n as [|n].
    + destruct m as [|m]; [discriminate H|]. cbn [String.substring includes] in H.
      apply orb_true_iff in H as [->|H]; [reflexivity|].
      rewrite (IH _ _ H). apply orb_true_r.
    + cbn [String.substring] in H. rewrite (IH _ _ H). apply orb_true_r.
Qed.

Lemma includes_trimStart (c : ascii) (s : string) :
  includes c (trimStart s) = true -> includes c s = true.
Proof.
  induction s as [|d s IH]; [discriminate|]. cbn [trimStart].
  destruct (isSpace d); [|auto]. intros H. cbn [includes].
  rewrite (IH H). apply orb_true_r.
Qed.

Lemma includes_trimEnd (c : ascii) (s : string) :
  includes c (trimEnd s) = true -> includes c s = true.
Proof.
  induction s as [|d s IH]; [discriminate|]. cbn [trimEnd includes].
  destruct (trimEnd s) as [|e t].
  - destruct (isSpace d); [discriminate|]. cbn [includes].
    intros H. apply orb_true_iff in H as [->|H]; [reflexivity | discriminate H].
  - cbn [includes]. intros H. apply orb_true_iff in H as [->|H]; [reflexivity|].
    rewrite (IH H). apply orb_true_r.
Qed.

(** X12.  A [Range] header in bytes whose text holds no dash is no
    range: whatever else it holds, the answer is 416 with
    [Content-Range: bytes */N] and no body. *)
Theorem range_without_dash_is_refused (fs : FileSystem) (req : Request)
        (filePath : string) (st : Stats) (opts : Options) (text : string) :
  includes "-" text = false ->
  getHeader (headers req) "range" = Some ("bytes=" ++ text) ->
  notModified dateGetTime req st (etagFromStats st) = false ->
  serveFile Number dateGetTime toUTCString fs req filePath st opts
  = Complete {| statusCode := 416;
                resHeaders := [("Content-Range", "bytes */" ++ dec (size st))];
                body := EmptyString |}.
Proof.
  intros Hdash Hh Hnm.
  apply (serveFile_unsatisfiable Number dateGetTime toUTCString
           fs req filePath st opts text Hnm Hh).
  unfold parseRange. rewrite replaceFirst_prefix.
  destruct (includes "-" (trim (hd EmptyString (split_on "," text)))) eqn:E;
    [|reflexivity].
  exfalso. unfold trim in E.
  apply includes_trimEnd, includes_trimStart in E.
  pose proof (split_on_nonempty "," text) as Hne.
  destruct (split_on "," text) as [|h t] eqn:Es; [now elim Hne|]. cbn [hd] in E.
  assert (Hin : In h (split_on "," text)) by (rewrite Es; now left).
  rewrite (split_on_pieces "," "-" text h Hin E) in Hdash. discriminate.
Qed.

(** X13.  The validators are read before the range: a request whose
    [If-None-Match] is the file's ETag is answered 304 whatever its
    [Range] header and its method, with the validators and the cache
    policy in the head but no [Content-Length], no [Content-Range]
    and no body. *)
Theorem not_modified_beats_range (fs : FileSystem) (req : Request)
        (filePath : string) (st : Stats) (opts : Options) :
  getHeader (headers req) "if-none-match" = Some (etagFromStats st) ->
  serveFile Number dateGetTime toUTCString fs req filePath st opts
  = Complete {| statusCode := 304;
                resHeaders := fileHeaders toUTCString filePath st opts;
                body := EmptyString |}
  /\ getHeader (fileHeaders toUTCString filePath st opts) "Content-Length" = None
  /\ getHeader (fileHeaders toUTCString filePath st opts) "Content-Range" = None
  /\ getHeader (fileHeaders toUTCString filePath st opts) "ETag"
     = Some (etagFromStats st).
Proof.
  intros H. split; [|repeat split].
  unfold serveFile. cbv zeta.
  assert (Hnm : notModified dateGetTime req st (etagFromStats st) = true).
  { unfold notModified. cbv zeta. rewrite H, String.eqb_refl. reflexivity. }
  rewrite Hnm. unfold writeHeadEnd, hasBody.
  now rewrite andb_false_r.
Qed.

End FileResponses.

Lemma content_length_matches_body_witness :
  getHeader (resHeaders (Demo.responseOf (Demo.serveZ [("range", "bytes=1-2")])))
    "Content-Length"
  = Some (Str.dec (byteLength (body (Demo.responseOf
                                       (Demo.serveZ [("range", "bytes=1-2")]))))).
Proof.
  exact (content_length_matches_body
           Sample.Number Sample.dateGetTime Sample.toUTCString Sample.siteFs
           (Sample.get "/z.txt" [("range", "bytes=1-2")]) "/r/z.txt"
           (Sample.fileStats 4 1000) Sample.defaults "ABCD"
           (Demo.responseOf (Demo.serveZ [("range", "bytes=1-2")]))
           eq_refl eq_refl eq_refl eq_refl (or_intror eq_refl)).
Defined.

Lemma first_range_only_witness :
  parseRange Sample.Number ("bytes=" ++ "0-1" ++ "," ++ "5-9") 10
  = parseRange Sample.Number ("bytes=" ++ "0-1") 10.
Proof. exact (first_range_only Sample.Number "0-1" "5-9" 10 eq_refl). Defined.

Lemma open_ended_range_witness :
  outcomeStatus (Demo.serveZ [("range", "bytes=2-")]) = 206%Z.
Proof.
  exact (proj1 (proj2 (open_ended_range
                         Sample.Number Sample.dateGetTime Sample.toUTCString
                         Sample.siteFs (Sample.get "/z.txt" [("range", "bytes=2-")])
                         "/r/z.txt" (Sample.fileStats 4 1000) Sample.defaults 2
                         ltac:(lia) eq_refl eq_refl eq_refl))).
Defined.

Lemma range_without_dash_is_refused_witness :
  Demo.serveZ [("range", "bytes=first 2")]
  = Complete {| statusCode := 416;
                resHeaders := [("Content-Range", "bytes */4")];
                body := EmptyString |}.
Proof.
  exact (range_without_dash_is_refused
           Sample.Number Sample.dateGetTime Sample.toUTCString Sample.siteFs
           (Sample.get "/z.txt" [("range", "bytes=first 2")]) "/r/z.txt"
           (Sample.fileStats 4 1000) Sample.defaults "first 2"
           eq_refl eq_refl eq_refl).
Defined.

Lemma not_modified_beats_range_witness :
  outcomeStatus
    (Demo.serveZ [("range", "bytes=9-1");
                  ("if-none-match", "W/" ++ dq ++ "4-3e8" ++ dq)])
  = 304%Z.
Proof.
  exact (f_equal outcomeStatus
           (proj1 (not_modified_beats_range
                     Sample.Number Sample.dateGetTime Sample.toUTCString Sample.siteFs
                     (Sample.get "/z.txt"
                        [("range", "bytes=9-1");
                         ("if-none-match", "W/" ++ dq ++ "4-3e8" ++ dq)])
                     "/r/z.txt" (Sample.fileStats 4 1000) Sample.defaults eq_refl))).
Defined.

(* ================================================================== *)
(** ** More on the handler *)

Section HandlerReach.
Import Str StrFacts UriFacts PathFacts NumFacts.

Variable cwd : string.
Variable Number : string -> option Z.
Variable dateGetTime : string -> option Z.
Variable toUTCString : Z -> string.
Variable urlPath : string -> string -> option string.

(** Of a request, a file response takes the headers and whether the
    method is HEAD. *)
Lemma serveFile_reads (fs : FileSystem) (req1 req2 : Request) (filePath : string)
      (st : Stats) (opts : Options) :
  isHead req1 = isHead req2 -> headers req1 = headers req2 ->
  serveFile Number dateGetTime toUTCString fs req1 filePath st opts
  = serveFile Number dateGetTime toUTCString fs req2 filePath st opts.
Proof.
  intros Hm Hh.
  unfold serveFile, notModified, rangeDecision, writeHeadEnd, hasBody.
  now rewrite Hm, Hh.
Qed.

Lemma sendError_reads (req1 req2 : Request) (code : Z) (msg : string) :
  isHead req1 = isHead req2 -> sendError req1 code msg = sendError req2 code msg.
Proof. intros Hm. unfold sendError, writeHeadEnd, hasBody. now rewrite Hm. Qed.

(** Of a request, the handler takes the path of its target, its
    headers and whether its method is HEAD. *)
Lemma handler_reads (root : string) (opts : Options) (fs : FileSystem)
      (req1 req2 : Request) :
  pathname urlPath req1 = pathname urlPath req2 ->
  isHead req1 = isHead req2 -> headers req1 = headers req2 ->
  handler cwd Number dateGetTime toUTCString urlPath root opts fs req1
  = handler cwd Number dateGetTime toUTCString urlPath root opts fs req2.
Proof.
  intros Hp Hm Hh. unfold handler. cbv zeta. rewrite Hp.
  destruct (pathname urlPath req2) as [reqPath|]; [|now rewrite (sendError_reads _ _ _ _ Hm)].
  destruct (safeJoin cwd (Path.resolve cwd [root]) reqPath) as [absPath|];
    [|now rewrite (sendError_reads _ _ _ _ Hm)].
  rewrite !(sendError_reads req1 req2 _ _ Hm).
  destruct (stat fs absPath) as [st|].
  - destruct (isDirectory st); [|now apply serveFile_reads].
    destruct (access fs (Path.join absPath "index.html")).
    + destruct (stat fs (Path.join absPath "index.html")); [now apply serveFile_reads|].
      reflexivity.
    + destruct (negb (listing opts)); [reflexivity|].
      destruct (listDirectory fs absPath reqPath); [|reflexivity].
      unfold writeHeadEnd, hasBody. now rewrite Hm.
  - destruct (spa opts && access fs (Path.join (Path.resolve cwd [root]) "index.html"));
      [|reflexivity].
    destruct (stat fs (Path.join (Path.resolve cwd [root]) "index.html"));
      [now apply serveFile_reads | reflexivity].
Qed.

(** X14.  The handler tells only HEAD from the other methods: a
    request is answered in the same way under any two methods other
    than HEAD, so POST, PUT or DELETE are served as GET is and no
    method is refused. *)
Theorem every_method_is_served_as_get (root : string) (opts : Options)
        (fs : FileSystem) (req : Request) (m1 m2 : string) :
  m1 <> "HEAD" -> m2 <> "HEAD" ->
  handler cwd Number dateGetTime toUTCString urlPath root opts fs (withMethod m1 req)
  = handler cwd Number dateGetTime toUTCString urlPath root opts fs (withMethod m2 req).
Proof.
  intros H1 H2. apply handler_reads; [reflexivity| |reflexivity].
  unfold isHead. cbn [withMethod method].
  apply String.eqb_neq in H1, H2. now rewrite H1, H2.
Qed.

Lemma serveFile_known_status (fs : FileSystem) (req : Request) (filePath : string)
      (st : Stats) (opts : Options) :
  knownStatus
    (outcomeStatus (serveFile Number dateGetTime toUTCString fs req filePath st opts))
  = true.
Proof.
  destruct (serveFile_status Number dateGetTime toUTCString fs req filePath st opts)
    as [Hyes Hno]. cbv zeta in Hyes, Hno.
  destruct (notModified dateGetTime req st (etagFromStats st)).
  - now rewrite Hyes.
  - destruct (Hno eq_refl) as [-> | [-> | ->]]; reflexivity.
Qed.

(** X15.  Every answer of the handler has one of the eight statuses
    200, 206, 304, 400, 403, 404, 416 and 500, whatever the request,
    the options and the file system. *)
Theorem handler_known_statuses (root : string) (opts : Options) (fs : FileSystem)
        (req : Request) :
  knownStatus
    (outcomeStatus
       (handler cwd Number dateGetTime toUTCString urlPath root opts fs req))
  = true.
Proof.
  unfold handler. cbv zeta.
  destruct (pathname urlPath req) as [reqPath|]; [|reflexivity].
  destruct (safeJoin cwd (Path.resolve cwd [root]) reqPath) as [absPath|];
    [|reflexivity].
  destruct (stat fs absPath) as [st|].
  - destruct (isDirectory st); [|apply serveFile_known_status].
    destruct (access fs (Path.join absPath "index.html")).
    + destruct (stat fs (Path.join absPath "index.html"));
        [apply serveFile_known_status | reflexivity].
    + destruct (negb (listing opts)); [reflexivity|].
      destruct (listDirectory fs absPath reqPath); reflexivity.
  - destruct (spa opts && access fs (Path.join (Path.resolve cwd [root]) "index.html"));
      [|reflexivity].
    destruct (stat fs (Path.join (Path.resolve cwd [root]) "index.html"));
      [apply serveFile_known_status | reflexivity].
Qed.

Lemma serveFile_broken (fs : FileSystem) (req : Request) (filePath : string)
      (st : Stats) (opts : Options) (code : Z) (hs : Headers) :
  serveFile Number dateGetTime toUTCString fs req filePath st opts = Broken code hs ->
  isHead req = false /\ (size st <= 0)%Z /\ code = 200%Z
  /\ hs = List.app (fileHeaders toUTCString filePath st opts)
                   [("Content-Length", dec (size st))].
Proof.
  unfold serveFile. cbv zeta.
  destruct (notModified dateGetTime req st (etagFromStats st)); [discriminate|].
  destruct (rangeDecision Number req (size st)) as [[[[s e] c] extra]|] eqn:Hr;
    [|discriminate].
  destruct (isHead req); [discriminate|].
  destruct ((0 <=? s)%Z && (s <=? e)%Z) eqn:Hse.
  - destruct (readBytes fs filePath); discriminate.
  - intros [= <- <-]. split; [reflexivity|].
    apply rangeDecision_shape in Hr. apply andb_false_iff in Hse.
    destruct Hr as [(-> & -> & -> & ->) | (_ & Hb & _)].
    + destruct Hse as [Hse|Hse]; [discriminate Hse|]. apply Z.leb_gt in Hse.
      repeat split; [lia|]. unfold fileHeaders. cbn [List.app].
      now replace (size st - 1 - 0 + 1)%Z with (size st) by lia.
    + destruct Hse as [Hse|Hse]; apply Z.leb_gt in Hse; lia.
Qed.

(** X16.  Of the requests without a [Range] header, one kind is left
    unfinished: the request for an empty file with a method other than
    HEAD and without a matching validator.  The head 200 with
    [Content-Length: 0] is written and the read stream, given the end
    [-1], throws before anything is sent.  No other request without a
    [Range] header is left so; HEAD for the empty file gets the 200
    without a body. *)
Theorem unfinished_only_for_empty_file (fs : FileSystem) (req : Request)
        (filePath : string) (st : Stats) (opts : Options) :
  getHeader (headers req) "range" = None ->
  (0 <= size st)%Z ->
  let unfinished :=
    Broken 200 (List.app (fileHeaders toUTCString filePath st opts)
                         [("Content-Length", "0")]) in
  (isHead req = false /\ size st = 0%Z
   /\ notModified dateGetTime req st (etagFromStats st) = false ->
   serveFile Number dateGetTime toUTCString fs req filePath st opts = unfinished)
  /\ (forall code hs,
        serveFile Number dateGetTime toUTCString fs req filePath st opts
        = Broken code hs ->
        isHead req = false /\ size st = 0%Z
        /\ notModified dateGetTime req st (etagFromStats st) = false
        /\ Broken code hs = unfinished)
  /\ (isHead req = true -> size st = 0%Z ->
      notModified dateGetTime req st (etagFromStats st) = false ->
      serveFile Number dateGetTime toUTCString fs req filePath st opts
      = Complete {| statusCode := 200;
                    resHeaders :=
                      List.app (fileHeaders toUTCString filePath st opts)
                               [("Content-Length", "0")];
                    body := EmptyString |}).
Proof.
  intros Hr Hsize unfinished. subst unfinished.
  assert (Hempty : size st = 0%Z ->
                   notModified dateGetTime req st (etagFromStats st) = false ->
                   serveFile Number dateGetTime toUTCString fs req filePath st opts
                   = if isHead req
                     then Complete {| statusCode := 200;
                                      resHeaders :=
                                        List.app (fileHeaders toUTCString filePath st opts)
                                                 [("Content-Length", "0")];
                                      body := EmptyString |}
                     else Broken 200 (List.app (fileHeaders toUTCString filePath st opts)
                                               [("Content-Length", "0")])).
  { intros H0 Hnm. unfold serveFile. cbv zeta. rewrite Hnm.
    unfold rangeDecision. rewrite Hr, H0.
    unfold writeHeadEnd, hasBody. destruct (isHead req); reflexivity. }
  split; [|split].
  - intros (Hh & H0 & Hnm). now rewrite (Hempty H0 Hnm), Hh.
  - intros code hs H.
    destruct (serveFile_broken fs req filePath st opts code hs H)
      as (Hh & Hle & -> & ->).
    assert (H0 : size st = 0%Z) by lia.
    assert (Hnm : notModified dateGetTime req st (etagFromStats st) = false).
    { revert H. unfold serveFile. cbv zeta.
      now destruct (notModified dateGetTime req st (etagFromStats st)). }
    repeat split; try assumption. now rewrite H0.
  - intros Hh H0 Hnm. now rewrite (Hempty H0 Hnm), Hh.
Qed.

Lemma resolve_shape (args : list string) :
  exists segs, Path.resolve cwd args = absPath segs /\ forallb ordinary segs = true.
Proof.
  unfold Path.resolve. eexists. split; [reflexivity|].
  apply normalizeSegments_split_ordinary.
Qed.

Lemma join_names (segs : list string) (file : string) :
  forallb ordinary segs = true -> ordinary file = true ->
  Path.join (absPath segs) file = absPath (segs ++ [file]).
Proof.
  intros Hs Hf. unfold Path.join, absPath at 1.
  change (("/" ++ String.concat "/" segs) ++ "/" ++ file)
    with (String "/" (String.concat "/" segs ++ String "/" file)).
  unfold absPath. f_equal. f_equal. unfold Path.normalizeSegments.
  cbn [split_on Ascii.eqb Bool.eqb fold_left Path.normStep String.eqb].
  rewrite split_on_app, fold_left_app, (fold_normStep_concat _ _ Hs).
  destruct (ordinary_inv file Hf) as (_ & _ & _ & Hslash).
  rewrite (split_on_absent _ _ Hslash). cbn [fold_left].
  rewrite (normStep_ordinary _ _ Hf), app_nil_r.
  cbn [rev]. now rewrite rev_involutive.
Qed.

(** X17.  A directory that holds [index.html] is answered as the file
    itself is: the request for the directory and the request for its
    [index.html] get the same outcome when they carry the same method
    and headers, whether or not listings are allowed. *)
Theorem directory_index_as_direct_request (root : string) (opts : Options)
        (fs : FileSystem) (reqDir reqFile : Request)
        (pathDir pathFile dir : string) (dst ist : Stats) :
  method reqDir = method reqFile ->
  headers reqDir = headers reqFile ->
  pathname urlPath reqDir = Some pathDir ->
  pathname urlPath reqFile = Some pathFile ->
  safeJoin cwd (Path.resolve cwd [root]) pathDir = Some dir ->
  safeJoin cwd (Path.resolve cwd [root]) pathFile = Some (Path.join dir "index.html") ->
  stat fs dir = Some dst -> isDirectory dst = true ->
  access fs (Path.join dir "index.html") = true ->
  stat fs (Path.join dir "index.html") = Some ist -> isDirectory ist = false ->
  handler cwd Number dateGetTime toUTCString urlPath root opts fs reqDir
  = handler cwd Number dateGetTime toUTCString urlPath root opts fs reqFile
  /\ handler cwd Number dateGetTime toUTCString urlPath root opts fs reqDir
     = serveFile Number dateGetTime toUTCString fs reqDir
         (Path.join dir "index.html") ist opts.
Proof.
  intros Hm Hh HpD HpF HjD HjF Hdst Hdir Hacc Hist Hfile.
  assert (HD : handler cwd Number dateGetTime toUTCString urlPath root opts fs reqDir
               = serveFile Number dateGetTime toUTCString fs reqDir
                   (Path.join dir "index.html") ist opts).
  { unfold handler. cbv zeta. now rewrite HpD, HjD, Hdst, Hdir, Hacc, Hist. }
  split; [|exact HD]. rewrite HD.
  unfold handler. cbv zeta. rewrite HpF, HjF, Hist, Hfile.
  apply serveFile_reads; [|exact Hh]. unfold isHead. now rewrite Hm.
Qed.

(** A path that does not decode fails for [decodeURI] as for
    [decodeURIComponent], and still fails with a slash behind it. *)
Lemma Decode_fails_bounded (r1 r2 : string) (n : nat) :
  forall s, (String.length s <= n)%nat ->
  forall pend,
    Uri.Decode r1 pend s = None ->
    Uri.Decode r2 pend s = None /\ Uri.Decode r2 pend (s ++ "/") = None.
Proof.
  induction n as [|n IH]; intros s Hlen pend H.
  - destruct s; [|cbn in Hlen; lia].
    cbn in H |- *. destruct pend; [discriminate | now split].
  - destruct s as [|c rest].
    + cbn in H |- *. destruct pend; [discriminate | now split].
    + cbn [String.length] in Hlen. cbn [Uri.Decode append] in H |- *.
      destruct (Ascii.eqb c "%").
      * destruct rest as [|h [|l rest']].
        -- now split.
        -- cbn [append]. split; [reflexivity|].
           destruct (Uri.hexDigit h); reflexivity.
        -- cbn [append]. cbn [String.length] in Hlen.
           destruct (Uri.hexDigit h) as [x|]; [|now split].
           destruct (Uri.hexDigit l) as [y|]; [|now split].
           cbv zeta in H |- *.
           destruct pend as [|[lo hi] tl].
           ++ destruct (Uri.utf8Tail (16 * x + y)) as [tl|]; [|now split].
              destruct (Uri.Decode r1 tl rest') eqn:E; [discriminate|].
              destruct (IH rest' ltac:(lia) tl E) as [-> ->]. now split.
           ++ destruct ((lo <=? 16 * x + y) && (16 * x + y <=? hi))%N; [|now split].
              destruct (Uri.Decode r1 tl rest') eqn:E; [discriminate|].
              destruct (IH rest' ltac:(lia) tl E) as [-> ->]. now split.
      * destruct pend; [|now split].
        destruct (Uri.Decode r1 [] rest) eqn:E; [discriminate|].
        destruct (IH rest ltac:(lia) [] E) as [-> ->]. now split.
Qed.

Lemma listDirectory_undecodable (fs : FileSystem) (dir reqPath : string) :
  Uri.decodeURIComponent reqPath = None -> listDirectory fs dir reqPath = None.
Proof.
  intros H. unfold listDirectory. cbv zeta.
  destruct (readdir fs dir); [|reflexivity].
  destruct (Decode_fails_bounded EmptyString Uri.uriReserved _ reqPath (le_n _) [] H)
    as [H1 H2].
  unfold Uri.decodeURI. destruct (endsWith reqPath "/"); [now rewrite H1 | now rewrite H2].
Qed.

(** X18.  A request path that does not percent-decode is not refused:
    it is read as the root.  When the root holds [index.html] the
    answer is that file; otherwise it is 403 when listings are off,
    and when they are on it is 500 [Failed to read directory], because
    the title of the listing cannot be decoded either.  It is never
    400 and never the listing. *)
Theorem undecodable_path_is_read_as_root (root : string) (opts : Options)
        (fs : FileSystem) (req : Request) (reqPath : string) (dst : Stats) :
  let rootDir := Path.resolve cwd [root] in
  let indexPath := Path.join rootDir "index.html" in
  pathname urlPath req = Some reqPath ->
  Uri.decodeURIComponent reqPath = None ->
  stat fs rootDir = Some dst -> isDirectory dst = true ->
  safeJoin cwd rootDir reqPath = Some rootDir
  /\ (access fs indexPath = false ->
      handler cwd Number dateGetTime toUTCString urlPath root opts fs req
      = Complete (if listing opts
                  then sendError req 500 "Failed to read directory"
                  else sendError req 403 "Directory listing denied"))
  /\ (forall ist,
        access fs indexPath = true -> stat fs indexPath = Some ist ->
        handler cwd Number dateGetTime toUTCString urlPath root opts fs req
        = serveFile Number dateGetTime toUTCString fs req indexPath ist opts).
Proof.
  intros rootDir indexPath Hp Hdec Hst Hdir.
  assert (Hj : safeJoin cwd rootDir reqPath = Some rootDir).
  { unfold rootDir. destruct (resolve_shape [root]) as (segs & -> & Hsegs).
    now apply safeJoin_undecodable. }
  split; [exact Hj|]. split.
  - intros Hacc. unfold handler. cbv zeta. fold rootDir.
    rewrite Hp, Hj, Hst, Hdir. fold indexPath. rewrite Hacc.
    rewrite (listDirectory_undecodable fs rootDir reqPath Hdec).
    now destruct (listing opts).
  - intros ist Hacc Hist. unfold handler. cbv zeta. fold rootDir.
    rewrite Hp, Hj, Hst, Hdir. fold indexPath. now rewrite Hacc, Hist.
Qed.

End HandlerReach.

(** The empty file asked for with GET. *)
Lemma unfinished_only_for_empty_file_witness :
  serveFile Sample.Number Sample.dateGetTime Sample.toUTCString Demo.emptyFs
    (Sample.get "/empty.txt" []) "/r/empty.txt" (Sample.fileStats 0 1000)
    Sample.defaults
  = Broken 200
      (List.app
         (fileHeaders Sample.toUTCString "/r/empty.txt" (Sample.fileStats 0 1000)
            Sample.defaults)
         [("Content-Length", "0")]).
Proof.
  exact (proj1 (unfinished_only_for_empty_file
                  Sample.Number Sample.dateGetTime Sample.toUTCString Demo.emptyFs
                  (Sample.get "/empty.txt" []) "/r/empty.txt" (Sample.fileStats 0 1000)
                  Sample.defaults eq_refl ltac:(simpl; lia))
               (conj eq_refl (conj eq_refl eq_refl))).
Defined.

Lemma every_method_is_served_as_get_witness :
  Sample.handle "/r" Sample.defaults Sample.siteFs
    (withMethod "DELETE" (Sample.get "/z.txt" []))
  = Sample.handle "/r" Sample.defaults Sample.siteFs
      (withMethod "GET" (Sample.get "/z.txt" [])).
Proof.
  exact (every_method_is_served_as_get
           Sample.cwd Sample.Number Sample.dateGetTime Sample.toUTCString
           Sample.urlPath "/r" Sample.defaults Sample.siteFs
           (Sample.get "/z.txt" []) "DELETE" "GET"
           ltac:(discriminate) ltac:(discriminate)).
Defined.

(** The requests [/sub/] and [/sub/index.html] of the test directory. *)
Lemma directory_index_as_direct_request_witness :
  Sample.handle "/tmp/root" Sample.noListing Sample.testFs (Sample.get "/sub/" [])
  = Sample.handle "/tmp/root" Sample.noListing Sample.testFs
      (Sample.get "/sub/index.html" []).
Proof.
  exact (proj1 (directory_index_as_direct_request
                  Sample.cwd Sample.Number Sample.dateGetTime Sample.toUTCString
                  Sample.urlPath "/tmp/root" Sample.noListing Sample.testFs
                  (Sample.get "/sub/" []) (Sample.get "/sub/index.html" [])
                  "/sub/" "/sub/index.html" "/tmp/root/sub"
                  Sample.dirStats (Sample.fileStats 14 1000)
                  eq_refl eq_refl eq_refl eq_refl eq_refl eq_refl eq_refl eq_refl
                  eq_refl eq_refl eq_refl)).
Defined.

(** The request [/%ff] for a root without [index.html]. *)
Lemma undecodable_path_is_read_as_root_witness :
  safeJoin Sample.cwd "/r" "/%ff" = Some "/r"
  /\ Sample.handle "/r" Sample.defaults Sample.hostileFs (Sample.get "/%ff" [])
     = Complete (sendError (Sample.get "/%ff" []) 500 "Failed to read directory").
Proof.
  pose proof (undecodable_path_is_read_as_root
                Sample.cwd Sample.Number Sample.dateGetTime Sample.toUTCString
                Sample.urlPath "/r" Sample.defaults Sample.hostileFs
                (Sample.get "/%ff" []) "/%ff" Sample.dirStats
                eq_refl eq_refl eq_refl eq_refl) as [H1 [H2 _]].
  split; [exact H1 | exact (H2 eq_refl)].
Defined.

(* ================================================================== *)
(** ** The command line *)

Section CommandLine.
Import Str StrFacts PathFacts.

Variable cwd : string.
Variable Number : string -> option Z.

Lemma operand_is_no_option (a : string) :
  startsWith a "-" = false ->
  forall o, startsWith o "-" = true -> String.eqb a o = false /\ startsWith a o = false.
Proof.
  intros Ha o Ho. destruct o as [|c o]; [discriminate|].
  unfold startsWith in *. cbn [String.prefix] in Ho.
  destruct a as [|d a]; [split; reflexivity|].
  cbn [String.prefix] in Ha, Ho |- *.
  destruct (ascii_dec "-" c) as [<-|]; [|discriminate].
  destruct (ascii_dec "-" d) as [<-|Hd].
  - destruct a; discriminate.
  - split; [|reflexivity]. apply String.eqb_neq. intros [= E _]. now elim Hd.
Qed.

(** The step of the loop on an argument that is no option. *)
Lemma parseLoop_operand (args : Cli.Args) (rest : list string)
      (a : string) (more : list string) :
  startsWith a "-" = false ->
  Cli.parseLoop cwd Number args rest (a :: more)
  = Cli.parseLoop cwd Number args (List.app rest [a]) more.
Proof.
  intros Ha. cbn [Cli.parseLoop].
  pose proof (operand_is_no_option a Ha) as H.
  rewrite (proj1 (H "--port" eq_refl)), (proj1 (H "-p" eq_refl)),
    (proj2 (H "--port=" eq_refl)), (proj1 (H "--host" eq_refl)),
    (proj2 (H "--host=" eq_refl)), (proj1 (H "--no-listing" eq_refl)),
    (proj1 (H "--spa" eq_refl)), (proj1 (H "--cache" eq_refl)),
    (proj2 (H "--cache=" eq_refl)), (proj1 (H "-h" eq_refl)),
    (proj1 (H "--help" eq_refl)), (proj1 (H "-v" eq_refl)),
    (proj1 (H "--version" eq_refl)), Ha.
  reflexivity.
Qed.

(** The loop over flags and operands up to whatever follows them. *)
Lemma parseLoop_flags_then (before after : list string) :
  forallb flagOrOperand before = true ->
  forall args rest,
    Cli.parseLoop cwd Number args rest (before ++ after)%list
    = Cli.parseLoop cwd Number
        (Cli.setSpa
           (Cli.setListing args
              (Cli.listing args && negb (existsb (String.eqb "--no-listing") before)))
           (Cli.spa args || existsb (String.eqb "--spa") before))
        (List.app rest (filter isOperand before)) after.
Proof.
  induction before as [|b before IH]; intros Hb args rest.
  - cbn [List.app existsb filter negb]. rewrite app_nil_r, andb_true_r, orb_false_r.
    now destruct args.
  - cbn [forallb] in Hb. apply andb_true_iff in Hb as [Hb1 Hb2].
    unfold flagOrOperand in Hb1. cbn [List.app].
    destruct (String.eqb_spec b "--no-listing") as [->|Hn].
    + cbn. rewrite (IH Hb2). cbn. now rewrite andb_false_r.
    + destruct (String.eqb_spec b "--spa") as [->|Hs].
      * cbn. rewrite (IH Hb2). cbn. now rewrite orb_true_r.
      * cbn [orb] in Hb1. apply negb_true_iff in Hb1.
        rewrite (parseLoop_operand _ _ _ _ Hb1), (IH Hb2).
        cbn [existsb filter]. unfold isOperand at 2. rewrite Hb1. cbn [negb].
        assert (E1 : String.eqb "--no-listing" b = false)
          by (rewrite String.eqb_sym; now apply String.eqb_neq).
        assert (E2 : String.eqb "--spa" b = false)
          by (rewrite String.eqb_sym; now apply String.eqb_neq).
        rewrite E1, E2. cbn [orb]. now rewrite <- app_assoc.
Qed.

(** X19.  On a command line of flags and operands, the two flags act
    wherever and however often they stand, and the root is the first
    operand, the others being ignored; without an operand the root is
    the working directory.  Port, host and cache keep their defaults
    8080, 0.0.0.0 and 0. *)
Theorem parseArgs_flags_and_operands (node script : string) (l : list string) :
  forallb flagOrOperand l = true ->
  Cli.parseArgs cwd Number (node :: script :: l)
  = Cli.Parsed
      {| Cli.root := Path.resolve cwd [hd cwd (filter isOperand l)];
         Cli.port := Some 8080%Z;
         Cli.host := "0.0.0.0";
         Cli.listing := negb (existsb (String.eqb "--no-listing") l);
         Cli.spa := existsb (String.eqb "--spa") l;
         Cli.cacheSeconds := Some 0%Z |}.
Proof.
  intros H. unfold Cli.parseArgs. cbn [skipn].
  rewrite <- (app_nil_r l) at 1.
  rewrite (parseLoop_flags_then l [] H). cbn [Cli.parseLoop].
  unfold Cli.finish. cbn.
  now destruct (filter isOperand l).
Qed.

(** X20.  After any flags and operands, the first argument that
    starts with a dash and is no known option ends the start with the
    help text and code 1, and [-h] or [--help] ends it with code 0,
    whatever stands behind them on the command line. *)
Theorem parseArgs_stops_at_help_or_unknown (node script : string)
        (before after : list string) (a : string) :
  forallb flagOrOperand before = true ->
  (startsWith a "-" = true /\ knownOption a = false ->
   Cli.parseArgs cwd Number (node :: script :: before ++ a :: after)
   = Cli.Help 1 (Some a))
  /\ (a = "-h" \/ a = "--help" ->
      Cli.parseArgs cwd Number (node :: script :: before ++ a :: after)
      = Cli.Help 0 None).
Proof.
  intros Hb. unfold Cli.parseArgs. cbn [skipn]. split.
  - intros [Hdash Hknown]. rewrite (parseLoop_flags_then before (a :: after) Hb).
    cbn [Cli.parseLoop].
    unfold knownOption in Hknown. cbn [existsb] in Hknown.
    repeat match goal with
           | H : _ || _ = false |- _ => apply orb_false_iff in H as [? ?]
           end.
    repeat match goal with
           | H : String.eqb a _ = false |- _ => rewrite H; clear H
           | H : startsWith a _ = false |- _ => rewrite H; clear H
           end.
    cbn [orb]. now rewrite Hdash.
  - intros [-> | ->]; rewrite (parseLoop_flags_then before _ Hb); reflexivity.
Qed.

Lemma resolve_names (segs : list string) :
  forallb ordinary segs = true -> Path.resolve cwd [absPath segs] = absPath segs.
Proof.
  intros H. unfold Path.resolve, absPath at 1.
  cbn [rev List.app Path.resolveArgs append String.eqb].
  rewrite isAbsolute_slash. unfold absPath. f_equal. f_equal.
  unfold Path.normalizeSegments.
  cbn [append split_on Ascii.eqb Bool.eqb fold_left Path.normStep String.eqb].
  rewrite split_on_app, fold_left_app, (fold_normStep_concat _ _ H).
  cbn [split_on fold_left Path.normStep String.eqb].
  now rewrite app_nil_r, rev_involutive.
Qed.

Lemma parseLoop_root (n : nat) :
  forall argv, (List.length argv <= n)%nat ->
  forall args rest a,
    Cli.parseLoop cwd Number args rest argv = Cli.Parsed a ->
    exists x, Cli.root a = Path.resolve cwd [x].
Proof.
  assert (Hfin : forall args rest a,
             Cli.finish cwd args rest = Cli.Parsed a ->
             exists x, Cli.root a = Path.resolve cwd [x]).
  { intros args rest a H. unfold Cli.finish in H. injection H as <-.
    cbn [Cli.root Cli.setRoot]. eauto. }
  induction n as [|n IH]; intros argv Hlen args rest a H.
  - destruct argv; [|cbn in Hlen; lia]. now apply (Hfin args rest).
  - destruct argv as [|x more]; [now apply (Hfin args rest)|].
    cbn [List.length] in Hlen. cbn [Cli.parseLoop] in H.
    repeat match type of H with
           | context [if ?b then _ else _] => destruct b
           | context [match more with [] => _ | _ :: _ => _ end] =>
               destruct more as [|v more]; cbn [List.length] in Hlen
           end;
      try discriminate H;
      try (now apply (Hfin _ _ _ H));
      (refine (IH _ _ _ _ _ H); lia).
Qed.

(** X21.  Whatever the command line, the root that [parseArgs] returns
    is an absolute, normalised path, a slash followed by names, so
    that resolving it once more, as [handlerFactory] does, changes
    nothing. *)
Theorem parseArgs_root_is_resolved (argv : list string) (a : Cli.Args) :
  Cli.parseArgs cwd Number argv = Cli.Parsed a ->
  (exists segs, Cli.root a = absPath segs /\ forallb ordinary segs = true)
  /\ Path.resolve cwd [Cli.root a] = Cli.root a.
Proof.
  intros H. unfold Cli.parseArgs in H.
  destruct (parseLoop_root _ _ (le_n _) _ _ _ H) as [x Hx].
  destruct (resolve_shape cwd [x]) as (segs & Hs & Hord).
  rewrite Hx, Hs. split; [now exists segs | now apply resolve_names].
Qed.


(** X23.  [getLanAddress] finds an address exactly when some interface
    has an IPv4 address that is not internal, and what it returns is
    the address of such an entry. *)
Theorem getLanAddress_finds_external_ipv4 (nets : list (option (list Cli.NetAddress))) :
  (Cli.getLanAddress nets = None
   <-> forall ifaces addr,
         In (Some ifaces) nets -> In addr ifaces -> Cli.isLan addr = false)
  /\ (forall ip,
        Cli.getLanAddress nets = Some ip ->
        exists ifaces addr,
          In (Some ifaces) nets /\ In addr ifaces
          /\ Cli.isLan addr = true /\ Cli.address addr = ip).
Proof.
  induction nets as [|ifaces nets [IHn IHs]].
  - split; [split; [intros _ ? ? [] | reflexivity] | discriminate].
  - cbn [Cli.getLanAddress]. split; [split|].
    + intros H l addr [E|Hin] Haddr.
      * subst ifaces. destruct (find Cli.isLan l) eqn:F; [discriminate|].
        exact (find_none _ _ F addr Haddr).
      * destruct (find Cli.isLan match ifaces with Some l => l | None => [] end);
          [discriminate|].
        exact (proj1 IHn H l addr Hin Haddr).
    + intros H.
      destruct (find Cli.isLan match ifaces with Some l => l | None => [] end)
        as [addr|] eqn:F.
      * exfalso. apply find_some in F as [Hin Hlan].
        destruct ifaces as [l|]; [|destruct Hin].
        rewrite (H l addr (or_introl eq_refl) Hin) in Hlan. discriminate.
      * apply IHn. intros l addr Hl. apply H. now right.
    + intros ip.
      destruct (find Cli.isLan match ifaces with Some l => l | None => [] end)
        as [addr|] eqn:F.
      * intros [= <-]. apply find_some in F as [Hin Hlan].
        destruct ifaces as [l|]; [|destruct Hin].
        exists l, addr. repeat split; auto. now left.
      * intros H. destruct (IHs ip H) as (l & addr & Hl & Ha & Hlan & Hip).
        exists l, addr. repeat split; auto. now right.
Qed.

Lemma afterEquals_value (name v : string) :
  includes "=" name = false -> includes "=" v = false ->
  Cli.afterEquals (name ++ "=" ++ v) = v
  /\ forall w, Cli.afterEquals (name ++ "=" ++ v ++ "=" ++ w) = v.
Proof.
  intros Hn Hv. unfold Cli.afterEquals.
  change ("=" ++ v) with (String "=" v).
  split; [|intros w; change ("=" ++ v ++ "=" ++ w) with (String "=" (v ++ String "=" w))];
    rewrite !split_on_app, !(split_on_absent _ _ Hn), ?(split_on_absent _ _ Hv);
    reflexivity.
Qed.

(** X24.  An option that takes a value reads it from the next
    argument or from behind an equals sign, to the same effect when
    the value holds no equals sign; behind the sign, the value ends at
    a second equals sign. *)
Theorem option_value_forms_agree (node script : string)
        (before after : list string) (name v : string) :
  forallb flagOrOperand before = true ->
  In name ["--port"; "--host"; "--cache"] ->
  includes "=" v = false ->
  Cli.parseArgs cwd Number (node :: script :: before ++ (name ++ "=" ++ v) :: after)
  = Cli.parseArgs cwd Number (node :: script :: before ++ name :: v :: after)
  /\ forall w,
       Cli.parseArgs cwd Number
         (node :: script :: before ++ (name ++ "=" ++ v ++ "=" ++ w) :: after)
       = Cli.parseArgs cwd Number (node :: script :: before ++ name :: v :: after).
Proof.
  intros Hb Hname Hv. unfold Cli.parseArgs. cbn [skipn].
  assert (Hn : includes "=" name = false)
    by (cbn [In] in Hname; destruct Hname as [<-|[<-|[<-|[]]]]; reflexivity).
  destruct (afterEquals_value name v Hn Hv) as [E1 E2].
  assert (Hp : forall s, String.prefix EmptyString s = true) by now intros [|].
  split; [|intros w; specialize (E2 w)];
    rewrite !(parseLoop_flags_then before _ Hb);
    cbn [In] in Hname; destruct Hname as [<-|[<-|[<-|[]]]];
    match goal with
    | |- Cli.parseLoop _ _ ?A ?R _ = _ => generalize A, R; intros args rest
    end;
    cbn [append] in E1, E2; cbn -[Cli.afterEquals];
    rewrite ?Hp; (rewrite E1 || rewrite E2); reflexivity.
Qed.

End CommandLine.


Lemma parseArgs_flags_and_operands_witness :
  Cli.parseArgs Sample.cwd Sample.Number
    (Demo.argv ["--spa"; "public"; "--no-listing"; "other"; "--spa"])
  = Cli.Parsed
      {| Cli.root := "/home/user/public"; Cli.port := Some 8080%Z;
         Cli.host := "0.0.0.0"; Cli.listing := false; Cli.spa := true; Cli.cacheSeconds := Some 0%Z |}.
Proof.
  exact (parseArgs_flags_and_operands Sample.cwd Sample.Number
           "/usr/bin/node" "/usr/lib/srf/server.js"
           ["--spa"; "public"; "--no-listing"; "other"; "--spa"] eq_refl).
Defined.

Lemma parseArgs_stops_at_help_or_unknown_witness :
  Cli.parseArgs Sample.cwd Sample.Number
    (Demo.argv ["public"; "--spa"; "--verbose"; "--port"; "80"])
  = Cli.Help 1 (Some "--verbose").
Proof.
  exact (proj1 (parseArgs_stops_at_help_or_unknown Sample.cwd Sample.Number
                  "/usr/bin/node" "/usr/lib/srf/server.js"
                  ["public"; "--spa"] ["--port"; "80"] "--verbose" eq_refl)
               (conj eq_refl eq_refl)).
Defined.

Lemma parseArgs_root_is_resolved_witness :
  Path.resolve Sample.cwd ["/home/www/site"] = "/home/www/site".
Proof.
  exact (proj2 (parseArgs_root_is_resolved Sample.cwd Sample.Number
                  (Demo.argv ["-p"; "3000"; "../www/./site/"])
                  {| Cli.root := "/home/www/site"; Cli.port := Some 3000%Z;
                     Cli.host := "0.0.0.0"; Cli.listing := true; Cli.spa := false;
                     Cli.cacheSeconds := Some 0%Z |}
                  eq_refl)).
Defined.

Lemma option_value_forms_agree_witness :
  Cli.parseArgs Sample.cwd Sample.Number (Demo.argv ["public"; "--port=3000"])
  = Cli.parseArgs Sample.cwd Sample.Number (Demo.argv ["public"; "--port"; "3000"]).
Proof.
  exact (proj1 (option_value_forms_agree Sample.cwd Sample.Number
                  "/usr/bin/node" "/usr/lib/srf/server.js"
                  ["public"] [] "--port" "3000" eq_refl (or_introl eq_refl) eq_refl)).
Defined.
